(** * mcp-weather-chat: session, dispatch and cache layer

    A shallow embedding of the protocol session manager of the chat gateway
    (the Express server: [initializeMCPSession], [callMCPTool]), of the tool
    dispatcher of the weather MCP server (class [WeatherMCPServer]; the
    [tools/call] handler of mcp-server/real-mcp-server.js is the same code;
    class [RealMCPWeatherServer] of the SDK-registered server for the unit
    flag), of the response cache (mcp-server/weather-service.js) and of the
    text-completion wrapper (class [ClaudeService]), followed by the
    properties the specification states about them. A second part embeds
    the request switch ([processRequest]), the REST routes built on it, and
    the remaining handlers and callbacks of the SDK-registered server, and
    proves further properties read off the code.

    Conventions of the embedding:
    - JavaScript values that flow through the dispatcher unchecked (tool
      arguments, provider fields) are [Js.value]; a number is the rational
      it denotes; an integer up to 2^53 in magnitude prints as its decimal
      digits, and the printing of every other number is left to the runtime
      ([numberToString], [numberToFixed]);
    - [async] functions are computations in a state-and-exception monad:
      [await] is bind, [throw] is [throw], [try/catch] is [tryCatch];
    - the outside world (Open-Meteo, the Anthropic API, the MCP endpoint the
      gateway talks to) is a deterministic stand-in: a function of the
      requests sent so far and of the request at hand. *)

From Stdlib Require Import ZArith QArith Qround Ascii String DecimalString.
From Stdlib Require Import Lqa.
From stdpp Require Import gmap strings list fin_maps.

Open Scope Z_scope.
Open Scope string_scope.

(** ** JavaScript values and string primitives *)

Module Js.

Inductive value : Type :=
| Undefined
| Null
| Bool (b : bool)
| Num (q : Q)
| Str (s : string)
| Obj (repr : string).

(** An object or array is [Obj repr], [repr] being its string conversion;
    an integer is [Int z]. An object that has no string conversion (JSON
    such as [{"toString": 1}], on which a template literal throws a
    [TypeError]) is not a [value]: where the source converts an unchecked
    value outside a [try], the properties below are stated for the values
    that are not objects, and the request switch has a case of its own
    for such an object. *)
Definition Int (z : Z) : value := Num (inject_Z z).

Definition nl : string := String "010"%char EmptyString.
Definition dquote : string := String "034"%char EmptyString.

(** Decimal digits of an integer. *)
Definition showZ (z : Z) : string := NilZero.string_of_int (Z.to_int z).

(** The numbers that print as plain decimal digits: the integers up to
    2^53 in magnitude, which a double holds exactly. *)
Definition isPlain (q : Q) : bool :=
  Qeq_bool q (inject_Z (Qfloor q)) && (Z.abs (Qfloor q) <=? 2 ^ 53)%Z.

(** [`${q}`]; [fmt] is the runtime's printing of the other numbers. *)
Definition showNum (fmt : Q -> string) (q : Q) : string :=
  if isPlain q then showZ (Qfloor q) else fmt q.

(** [`${v}`]: the string conversion of template literals. *)
Definition toStr (fmt : Q -> string) (v : value) : string :=
  match v with
  | Undefined => "undefined"
  | Null => "null"
  | Bool true => "true"
  | Bool false => "false"
  | Num q => showNum fmt q
  | Str s => s
  | Obj repr => repr
  end.

(** [if (v)]: truthiness. *)
Definition truthy (v : value) : bool :=
  match v with
  | Undefined | Null => false
  | Bool b => b
  | Num q => negb (Qeq_bool q 0)
  | Str EmptyString => false
  | Str (String _ _) => true
  | Obj _ => true
  end.

(** [Math.round(q)]: the nearest integer, ties upwards. *)
Definition round (q : Q) : Z := Qfloor (q + (1 # 2))%Q.

(** The integer part of [q], as [slice] takes it of an index. *)
Definition trunc (q : Q) : Z := if Qle_bool 0 q then Qfloor q else Qceiling q.

(** [a > b]. *)
Definition gtb (a b : Q) : bool := negb (Qle_bool a b).

(** A parameter default [p = d] applies exactly when the argument is
    [undefined]. *)
Definition orDefault (d : value) (v : value) : value :=
  match v with
  | Undefined => d
  | _ => v
  end.

(** [v === n] for a number literal [n]. *)
Definition isNum (n : Z) (v : value) : bool :=
  match v with
  | Num q => Qeq_bool q (inject_Z n)
  | _ => false
  end.

Fixpoint zeros (digits : nat) : string :=
  match digits with
  | O => ""
  | S d => "0" +:+ zeros d
  end.

(** [s.includes(kw)]. *)
Fixpoint includes (kw s : string) : bool :=
  String.prefix kw s ||
  match s with
  | EmptyString => false
  | String _ s' => includes kw s'
  end.

Definition lowerChar (c : ascii) : ascii :=
  let n := nat_of_ascii c in
  if ((65 <=? n) && (n <=? 90))%nat then ascii_of_nat (n + 32) else c.

(** [s.toLowerCase()] on the ASCII letters. *)
Fixpoint toLowerCase (s : string) : string :=
  match s with
  | EmptyString => EmptyString
  | String c s' => String (lowerChar c) (toLowerCase s')
  end.

(** [keywords.some(kw => s.includes(kw))]. *)
Definition someIncludes (keywords : list string) (s : string) : bool :=
  existsb (fun kw => includes kw s) keywords.

End Js.

(** ** Completions, and the monad of [async] functions *)

Inductive completion (A : Type) : Type :=
| Normal (a : A)
| Throw (message : string).
Arguments Normal {A} a.
Arguments Throw {A} message.

Definition M (S A : Type) : Type := S -> S * completion A.

Definition ret {S A : Type} (a : A) : M S A := fun s => (s, Normal a).

Definition throw {S A : Type} (message : string) : M S A :=
  fun s => (s, Throw message).

Definition bind {S A B : Type} (c : M S A) (k : A -> M S B) : M S B :=
  fun s =>
    match c s with
    | (s', Normal a) => k a s'
    | (s', Throw message) => (s', Throw message)
    end.

(** [try { body } catch (error) { handler(error.message) }]. *)
Definition tryCatch {S A : Type} (body : M S A) (handler : string -> M S A) : M S A :=
  fun s =>
    match body s with
    | (s', Normal a) => (s', Normal a)
    | (s', Throw message) => handler message s'
    end.

(** A synchronous expression that may throw. *)
Definition lift {S A : Type} (c : completion A) : M S A := fun s => (s, c).

Definition gets {S A : Type} (f : S -> A) : M S A := fun s => (s, Normal (f s)).

Definition modify {S : Type} (f : S -> S) : M S unit := fun s => (f s, Normal tt).

Declare Scope async_scope.
Delimit Scope async_scope with async.
Notation "'let*' x ':=' c1 'in' c2" := (bind c1 (fun x => c2))
  (at level 10, x pattern, c1 at level 100, c2 at level 200) : async_scope.
Notation "c1 ';;' c2" := (bind c1 (fun _ => c2))
  (at level 100, c2 at level 200, right associativity) : async_scope.
Open Scope async_scope.

Definition pureBind {A B : Type} (c : completion A) (k : A -> completion B) : completion B :=
  match c with
  | Normal a => k a
  | Throw message => Throw message
  end.

(** ** The response cache and the weather data source (weather-service.js) *)

Module Location.
(** One geocoding result, as copied field by field in [geocodeCity]; the
    mock location of [handleGetWeatherByCoords] leaves [country],
    [admin1] and [timezone] undefined. *)
Record t : Type := mk {
  name : Js.value;
  country : Js.value;
  admin1 : Js.value;
  latitude : Js.value;
  longitude : Js.value;
  timezone : Js.value;
  population : option Q;
  elevation : option Q
}.
End Location.

Module Current.
(** [result.current]: the two temperatures went through [Math.round]. *)
Record t : Type := mk {
  time : string;
  temperature : Z;
  apparentTemperature : Z;
  humidity : Q;
  precipitation : Q;
  rain : Q;
  snowfall : Q;
  weatherCode : Q;
  cloudCover : Q;
  pressure : Q;
  windSpeed : Q;
  windDirection : Q;
  windGusts : Q;
  isDay : bool
}.
End Current.

Module Daily.
(** One element of [result.daily]: the four temperatures went through
    [Math.round]. *)
Record t : Type := mk {
  date : string;
  weatherCode : Q;
  temperatureMax : Z;
  temperatureMin : Z;
  apparentTemperatureMax : Z;
  apparentTemperatureMin : Z;
  sunrise : string;
  sunset : string;
  daylightDuration : Q;
  sunshineDuration : Q;
  uvIndexMax : Q;
  precipitationSum : Q;
  precipitationHours : Q;
  precipitationProbability : Q;
  windSpeedMax : Q;
  windGustsMax : Q;
  windDirection : Q
}.
End Daily.

Module WeatherData.
(** The [result] object of [getWeatherForecast]; [location] is the
    property that [getWeatherForChat] and [handleGetWeatherByCoords]
    assign afterwards. *)
Record t : Type := mk {
  latitude : Q;
  longitude : Q;
  timezone : string;
  elevation : Q;
  current : Current.t;
  daily : list Daily.t;
  units : string;
  timestamp : Z;
  location : option Location.t
}.

Definition setLocation (l : Location.t) (w : t) : t :=
  mk (latitude w) (longitude w) (timezone w) (elevation w) (current w)
     (daily w) (units w) (timestamp w) (Some l).
End WeatherData.

Module RawCurrent.
(** [response.data.current], the members that [getWeatherForecast] reads. *)
Record t : Type := mk {
  time : string;
  temperature_2m : Q;
  apparent_temperature : Q;
  relative_humidity_2m : Q;
  precipitation : Q;
  rain : Q;
  snowfall : Q;
  weather_code : Q;
  cloud_cover : Q;
  pressure_msl : Q;
  wind_speed_10m : Q;
  wind_direction_10m : Q;
  wind_gusts_10m : Q;
  is_day : Q
}.
End RawCurrent.

Module RawDaily.
(** [response.data.daily] at one index: the members that
    [getWeatherForecast] reads off the columns. *)
Record t : Type := mk {
  time : string;
  weather_code : Q;
  temperature_2m_max : Q;
  temperature_2m_min : Q;
  apparent_temperature_max : Q;
  apparent_temperature_min : Q;
  sunrise : string;
  sunset : string;
  daylight_duration : Q;
  sunshine_duration : Q;
  uv_index_max : Q;
  precipitation_sum : Q;
  precipitation_hours : Q;
  precipitation_probability_max : Q;
  wind_speed_10m_max : Q;
  wind_gusts_10m_max : Q;
  wind_direction_10m_dominant : Q
}.
End RawDaily.

Module ForecastBody.
(** [response.data] of the forecast endpoint, with the per-day columns
    zipped into rows. *)
Record t : Type := mk {
  latitude : Q;
  longitude : Q;
  timezone : string;
  elevation : Q;
  current : RawCurrent.t;
  daily : list RawDaily.t;
  current_units : string
}.
End ForecastBody.

(** [q.toFixed(digits)]; [fmt] is the runtime's rounding of the numbers
    that are not plain integers. *)
Definition fixedNum (fmt : nat -> Q -> string) (digits : nat) (q : Q) : string :=
  if Js.isPlain q then
    match digits with
    | O => Js.showZ (Qfloor q)
    | S _ => Js.showZ (Qfloor q) +:+ "." +:+ Js.zeros digits
    end
  else fmt digits q.

(** [callee.toFixed(digits)] on the value [v] of [callee]: throws a
    [TypeError] unless [v] is a number; for a value of another type the
    message names the callee as it is written at the call
    ("latitude.toFixed is not a function"). *)
Definition toFixed (fmt : nat -> Q -> string) (callee : string) (digits : nat)
    (v : Js.value) : completion string :=
  match v with
  | Js.Num q => Normal (fixedNum fmt digits q)
  | Js.Undefined => Throw "Cannot read properties of undefined (reading 'toFixed')"
  | Js.Null => Throw "Cannot read properties of null (reading 'toFixed')"
  | _ => Throw (callee +:+ ".toFixed is not a function")
  end.

(** ** The process and the world around it *)

Module Runtime.

(** What the cache holds under a key: the locations array of a geocoding
    lookup or the result object of a forecast lookup. *)
Inductive CacheData : Type :=
| Locations (l : list Location.t)
| Forecast (w : WeatherData.t).

Record CacheEntry : Type := mkEntry { data : CacheData; timestamp : Z }.

(** Requests that leave the process. *)
Inductive Request : Type :=
| GeoSearch (name count : Js.value)
| GetForecast (latitude longitude days : Js.value)
| MessagesCreate (prompt : string).

(** The collaborators: each answers from the requests sent so far and the
    request at hand, with the time the answer took and either a failure
    message or a body. The others are services of the JavaScript runtime:
    the two date formats of [toLocaleDateString], the digit grouping of
    [toLocaleString], the conversion of a string to an integer index, and
    the printing of the numbers that are not plain integers. *)
Record Outside : Type := mkOutside {
  geo_search : list Request -> Js.value -> Js.value -> Z * (string + option (list Location.t));
  forecast : list Request -> Js.value -> Js.value -> Js.value -> Z * (string + ForecastBody.t);
  messages_create : list Request -> string -> Z * (string + string);
  weekdayShort : string -> string;
  monthDay : string -> string;
  toLocaleString : Q -> string;
  toInteger : string -> Z;
  numberToString : Q -> string;
  numberToFixed : nat -> Q -> string
}.

(** [`${v}`], [`${q}`] and [`${z}`] in this runtime, and [v.toFixed(d)]. *)
Definition str (E : Outside) (v : Js.value) : string := Js.toStr (numberToString E) v.
Definition num (E : Outside) (q : Q) : string := Js.showNum (numberToString E) q.
Definition int (E : Outside) (z : Z) : string := num E (inject_Z z).
Definition fixed (E : Outside) (callee : string) (digits : nat) (v : Js.value)
    : completion string :=
  toFixed (numberToFixed E) callee digits v.

(** [this.cache], [Date.now()] and the requests sent, most recent first. *)
Record World : Type := mkWorld {
  cache : gmap string CacheEntry;
  now : Z;
  trace : list Request
}.

Definition withCache (f : gmap string CacheEntry -> gmap string CacheEntry) (w : World) : World :=
  mkWorld (f (cache w)) (now w) (trace w).

(** [await] of a request to a collaborator. *)
Definition request {A : Type} (req : Request)
    (answer : list Request -> Z * (string + A)) : M World A :=
  fun w =>
    let '(elapsed, reply) := answer (trace w) in
    let w' := mkWorld (cache w) (now w + elapsed) (req :: trace w) in
    match reply with
    | inl message => (w', Throw message)
    | inr body => (w', Normal body)
    end.

Definition dateNow : M World Z := gets now.

End Runtime.

Module WeatherService.
Import Runtime.

(** [this.cacheTimeout = 10 * 60 * 1000]. *)
Definition cacheTimeout : Z := 10 * 60 * 1000.

(** [this.cache.set(key, { data, timestamp: Date.now() })]. *)
Definition cacheSet (key : string) (d : CacheData) : M World unit :=
  let* t := dateNow in
  modify (withCache (insert key (mkEntry d t))).

(** The check that opens both lookups:
    [if (this.cache.has(key)) { const cached = this.cache.get(key);
       if (Date.now() - cached.timestamp < ttl) return cached.data; }]. *)
Definition cacheGet (ttl : Z) (key : string) (w : World) : option CacheData :=
  match cache w !! key with
  | Some cached => if (now w - timestamp cached <? ttl)%Z then Some (data cached) else None
  | None => None
  end.

Definition geocodeKey (E : Outside) (city count : Js.value) : string :=
  "geocode_" +:+ str E city +:+ "_" +:+ str E count.

Definition geocodeCity (E : Outside) (city count : Js.value) : M World CacheData :=
  let count := Js.orDefault (Js.Int 1) count in
  let cacheKey := geocodeKey E city count in
  let* hit := gets (cacheGet (cacheTimeout * 6) cacheKey) in
  match hit with
  | Some d => ret d
  | None =>
      tryCatch
        (let* results := request (GeoSearch city count) (fun h => geo_search E h city count) in
         let locations := Locations (default [] results) in
         cacheSet cacheKey locations ;;
         ret locations)
        (fun message =>
           throw ("Failed to geocode " +:+ str E city +:+ ": " +:+ message))
  end.

Definition forecastKey (E : Outside) (latitude longitude days : Js.value) : string :=
  "forecast_" +:+ str E latitude +:+ "_" +:+ str E longitude +:+ "_" +:+ str E days.

(** The reshaping of [response.data] into [result]: [current], one element
    of [daily], and the whole. *)
Definition parseCurrent (c : RawCurrent.t) : Current.t :=
  Current.mk (RawCurrent.time c)
    (Js.round (RawCurrent.temperature_2m c))
    (Js.round (RawCurrent.apparent_temperature c))
    (RawCurrent.relative_humidity_2m c)
    (RawCurrent.precipitation c)
    (RawCurrent.rain c)
    (RawCurrent.snowfall c)
    (RawCurrent.weather_code c)
    (RawCurrent.cloud_cover c)
    (RawCurrent.pressure_msl c)
    (RawCurrent.wind_speed_10m c)
    (RawCurrent.wind_direction_10m c)
    (RawCurrent.wind_gusts_10m c)
    (Qeq_bool (RawCurrent.is_day c) 1).

Definition parseDaily (d : RawDaily.t) : Daily.t :=
  Daily.mk (RawDaily.time d)
    (RawDaily.weather_code d)
    (Js.round (RawDaily.temperature_2m_max d))
    (Js.round (RawDaily.temperature_2m_min d))
    (Js.round (RawDaily.apparent_temperature_max d))
    (Js.round (RawDaily.apparent_temperature_min d))
    (RawDaily.sunrise d)
    (RawDaily.sunset d)
    (RawDaily.daylight_duration d)
    (RawDaily.sunshine_duration d)
    (RawDaily.uv_index_max d)
    (RawDaily.precipitation_sum d)
    (RawDaily.precipitation_hours d)
    (RawDaily.precipitation_probability_max d)
    (RawDaily.wind_speed_10m_max d)
    (RawDaily.wind_gusts_10m_max d)
    (RawDaily.wind_direction_10m_dominant d).

Definition parseForecast (t : Z) (b : ForecastBody.t) : WeatherData.t :=
  WeatherData.mk (ForecastBody.latitude b) (ForecastBody.longitude b)
    (ForecastBody.timezone b) (ForecastBody.elevation b)
    (parseCurrent (ForecastBody.current b)) (map parseDaily (ForecastBody.daily b))
    (ForecastBody.current_units b) t None.

Definition getWeatherForecast (E : Outside) (latitude longitude days : Js.value)
    : M World CacheData :=
  let days := Js.orDefault (Js.Int 7) days in
  let cacheKey := forecastKey E latitude longitude days in
  let* hit := gets (cacheGet cacheTimeout cacheKey) in
  match hit with
  | Some d => ret d
  | None =>
      tryCatch
        (let* body := request (GetForecast latitude longitude days)
                        (fun h => forecast E h latitude longitude days) in
         let* t := dateNow in
         let result := Forecast (parseForecast t body) in
         cacheSet cacheKey result ;;
         ret result)
        (fun message =>
           throw ("Failed to get forecast for coordinates " +:+ str E latitude
                  +:+ ", " +:+ str E longitude +:+ ": " +:+ message))
  end.

(** [clearCache()]. *)
Definition clearCache : M World unit := modify (withCache (fun _ => ∅)).

(** Convert a WMO weather interpretation code to a description:
    [weatherCodes[code] || `Weather code ${code}`]. The keys of the table
    are the decimal digits of its codes, so a code that does not print as
    plain digits finds nothing. *)
Definition getWeatherDescription (E : Outside) (code : Q) : string :=
  if negb (Js.isPlain code) then "Weather code " +:+ num E code else
  match Qfloor code with
  | 0 => "Clear sky"
  | 1 => "Mainly clear"
  | 2 => "Partly cloudy"
  | 3 => "Overcast"
  | 45 => "Fog"
  | 48 => "Depositing rime fog"
  | 51 => "Light drizzle"
  | 53 => "Moderate drizzle"
  | 55 => "Dense drizzle"
  | 56 => "Light freezing drizzle"
  | 57 => "Dense freezing drizzle"
  | 61 => "Slight rain"
  | 63 => "Moderate rain"
  | 65 => "Heavy rain"
  | 66 => "Light freezing rain"
  | 67 => "Heavy freezing rain"
  | 71 => "Slight snow fall"
  | 73 => "Moderate snow fall"
  | 75 => "Heavy snow fall"
  | 77 => "Snow grains"
  | 80 => "Slight rain showers"
  | 81 => "Moderate rain showers"
  | 82 => "Violent rain showers"
  | 85 => "Slight snow showers"
  | 86 => "Heavy snow showers"
  | 95 => "Thunderstorm"
  | 96 => "Thunderstorm with slight hail"
  | 99 => "Thunderstorm with heavy hail"
  | _ => "Weather code " +:+ num E code
  end.

(** What the formatters return: [{ response, weatherData, type }]. *)
Record ChatReply : Type := mkReply {
  response : string;
  weatherData : WeatherData.t;
  type : string
}.

(** What [getWeatherForChat] returns: [{ error: true, message }] or the
    object of a formatter. *)
Inductive ChatResult : Type :=
| ChatError (message : string)
| ChatOk (reply : ChatReply).

Definition when (b : bool) (s : string) : string := if b then s else "".

(** [if (n)] for an optional number. *)
Definition truthyQ (o : option Q) : bool :=
  match o with
  | Some q => negb (Qeq_bool q 0)
  | None => false
  end.

(** The heading shared by both formatters:
    [`${location.name}`], then [`, ${location.admin1}`] when truthy, then
    [`, ${location.country}**\n\n`]. *)
Definition placeHeading (E : Outside) (l : Location.t) : string :=
  str E (Location.name l)
  +:+ when (Js.truthy (Location.admin1 l)) (", " +:+ str E (Location.admin1 l))
  +:+ ", " +:+ str E (Location.country l) +:+ "**" +:+ Js.nl +:+ Js.nl.

(** Reading [location] off a forecast object on which it was never set,
    or off the wrong kind of object, throws a [TypeError]. *)
Definition formatCurrentWeatherForChat (E : Outside) (weatherData : CacheData)
    : completion ChatReply :=
  match weatherData with
  | Locations _ => Throw "Cannot read properties of undefined (reading 'weatherCode')"
  | Forecast w =>
      let current := WeatherData.current w in
      let weatherDescription := getWeatherDescription E (Current.weatherCode current) in
      match WeatherData.location w with
      | None => Throw "Cannot read properties of undefined (reading 'name')"
      | Some location =>
          let timeOfDay := if Current.isDay current then "☀️ Day" else "🌙 Night" in
          pureBind (fixed E "location.latitude" 2 (Location.latitude location)) (fun lat =>
          pureBind (fixed E "location.longitude" 2 (Location.longitude location)) (fun lon =>
          let response :=
            "**Current Weather in " +:+ placeHeading E location
            +:+ "🌡️ **Temperature:** " +:+ int E (Current.temperature current)
            +:+ "°C (feels like " +:+ int E (Current.apparentTemperature current)
            +:+ "°C)" +:+ Js.nl
            +:+ "☁️ **Condition:** " +:+ weatherDescription +:+ Js.nl
            +:+ "💧 **Humidity:** " +:+ num E (Current.humidity current) +:+ "%" +:+ Js.nl
            +:+ "🌬️ **Wind:** " +:+ num E (Current.windSpeed current) +:+ " km/h"
            +:+ when (Js.gtb (Current.windGusts current) 0)
                  (" (gusts up to " +:+ num E (Current.windGusts current) +:+ " km/h)")
            +:+ Js.nl
            +:+ "📊 **Pressure:** " +:+ num E (Current.pressure current) +:+ " hPa" +:+ Js.nl
            +:+ "☁️ **Cloud Cover:** " +:+ num E (Current.cloudCover current) +:+ "%" +:+ Js.nl
            +:+ when (Js.gtb (Current.precipitation current) 0)
                  ("🌧️ **Precipitation:** " +:+ num E (Current.precipitation current)
                   +:+ " mm" +:+ Js.nl)
            +:+ "🕐 **Time of Day:** " +:+ timeOfDay +:+ Js.nl
            +:+ Js.nl +:+ "📍 **Location:** " +:+ lat +:+ "°, " +:+ lon +:+ "°"
            +:+ when (truthyQ (Location.elevation location))
                  (" (" +:+ int E (Js.round (default 0%Q (Location.elevation location)))
                   +:+ "m elevation)")
          in
          Normal (mkReply response w "current")))
      end
  end.

(** One iteration of [daily.slice(0, 7).forEach((day, index) => ...)]. *)
Definition formatDay (E : Outside) (index : nat) (day : Daily.t) : string :=
  let dayName := match index with
                 | O => "Today"
                 | S _ => weekdayShort E (Daily.date day)
                 end in
  let dateStr := monthDay E (Daily.date day) in
  let weatherDesc := getWeatherDescription E (Daily.weatherCode day) in
  "📅 **" +:+ dayName +:+ ", " +:+ dateStr +:+ "**" +:+ Js.nl
  +:+ "   🌡️ " +:+ int E (Daily.temperatureMin day) +:+ "° - "
  +:+ int E (Daily.temperatureMax day) +:+ "°C" +:+ Js.nl
  +:+ "   ☁️ " +:+ weatherDesc +:+ Js.nl
  +:+ when (Js.gtb (Daily.precipitationSum day) 0)
        ("   🌧️ " +:+ num E (Daily.precipitationSum day) +:+ "mm rain"
         +:+ when (Js.gtb (Daily.precipitationProbability day) 0)
               (" (" +:+ num E (Daily.precipitationProbability day) +:+ "% chance)")
         +:+ Js.nl)
  +:+ when (Js.gtb (Daily.windSpeedMax day) 10)
        ("   💨 Wind up to " +:+ num E (Daily.windSpeedMax day) +:+ " km/h" +:+ Js.nl)
  +:+ Js.nl.

Definition formatForecastForChat (E : Outside) (weatherData : CacheData) : completion ChatReply :=
  match weatherData with
  | Locations _ => Throw "Cannot read properties of undefined (reading 'slice')"
  | Forecast w =>
      match WeatherData.location w with
      | None => Throw "Cannot read properties of undefined (reading 'name')"
      | Some location =>
          let response :=
            "**7-Day Weather Forecast for " +:+ placeHeading E location
            +:+ String.concat "" (imap (formatDay E) (take 7 (WeatherData.daily w)))
          in
          Normal (mkReply response w "forecast")
      end
  end.

(** [weatherData.location = location]. The object returned by
    [getWeatherForecast] is the very object held by the cache entry under
    [key] (on a hit it is [cached.data], on a miss it is stored before it
    is returned), so the assignment is seen through the cache as well. *)
Definition assignLocation (key : string) (location : Location.t) (weatherData : CacheData)
    : M World CacheData :=
  let updated := match weatherData with
                 | Forecast w => Forecast (WeatherData.setLocation location w)
                 | Locations l => Locations l
                 end in
  modify (withCache (alter (fun cached => mkEntry updated (timestamp cached)) key)) ;;
  ret updated.

Definition notFound (E : Outside) (city : Js.value) : string :=
  "Could not find location for " +:+ Js.dquote +:+ str E city +:+ Js.dquote
  +:+ ". Please check the city name and try again.".

(** [getWeatherForChat(city, includeForecast = false)]: every exception of
    the body ends as [{ error: true, message: error.message }]. *)
Definition getWeatherForChat (E : Outside) (city : Js.value) (includeForecast : bool)
    : M World ChatResult :=
  tryCatch
    (let* locations := geocodeCity E city (Js.Int 1) in
     match locations with
     | Locations [] => ret (ChatError (notFound E city))
     | Locations (location :: _) =>
         let days := Js.Int (if includeForecast then 7 else 1) in
         let latitude := Location.latitude location in
         let longitude := Location.longitude location in
         let* weatherData := getWeatherForecast E latitude longitude days in
         let* weatherData :=
           assignLocation (forecastKey E latitude longitude days) location weatherData in
         let* reply :=
           if includeForecast
           then lift (formatForecastForChat E weatherData)
           else lift (formatCurrentWeatherForChat E weatherData) in
         ret (ChatOk reply)
     | Forecast _ => throw "Cannot read properties of undefined (reading 'latitude')"
     end)
    (fun message => ret (ChatError message)).

End WeatherService.

(** ** The text-completion wrapper (class [ClaudeService]) *)

Module ClaudeService.
Import Runtime.

(** The source repeats the table of [WeatherService] entry for entry. *)
Definition getWeatherDescription (E : Outside) (code : Q) : string :=
  WeatherService.getWeatherDescription E code.

Definition lines (l : list string) : string := String.concat Js.nl l.

(** [this.client.messages.create(...)] followed by
    [response.content[0].text]. *)
Definition complete (E : Outside) (prompt : string) : M World string :=
  request (MessagesCreate prompt) (fun h => messages_create E h prompt).

Definition fallbackCurrentWeatherResponse (E : Outside) (weatherData : WeatherData.t)
    (city : string) : string :=
  let current := WeatherData.current weatherData in
  let temp := Current.temperature current in
  let condition := getWeatherDescription E (Current.weatherCode current) in
  let feelsLike := Current.apparentTemperature current in
  "The current weather in " +:+ city +:+ " is " +:+ int E temp +:+ "°C with "
  +:+ Js.toLowerCase condition
  +:+ WeatherService.when (3 <? Z.abs (temp - feelsLike))%Z
        (", though it feels like " +:+ int E feelsLike +:+ "°C")
  +:+ ". "
  +:+ WeatherService.when (Js.gtb (Current.precipitation current) 0)
        "It's currently raining, so you'll want an umbrella. "
  +:+ (if (temp <? 10)%Z then "It's quite chilly - dress warmly!"
       else if (25 <? temp)%Z then "It's quite warm - perfect for outdoor activities!"
       else "Pleasant weather overall!").

Definition dayRange (E : Outside) (day : Daily.t) : string :=
  int E (Daily.temperatureMin day) +:+ "-" +:+ int E (Daily.temperatureMax day) +:+ "°C".

(** [weatherData.daily[0]] is [undefined] on an empty forecast, and
    reading [today.temperatureMin] then throws. *)
Definition fallbackForecastResponse (E : Outside) (weatherData : WeatherData.t) (city : string)
    : completion string :=
  let daily := WeatherData.daily weatherData in
  match daily !! 0%nat with
  | None => Throw "Cannot read properties of undefined (reading 'temperatureMin')"
  | Some today =>
      let rainDays :=
        length (filter (fun day => Js.gtb (Daily.precipitationSum day) 0 = true) (take 7 daily)) in
      Normal
        ("The forecast for " +:+ city +:+ " shows "
         +:+ dayRange E today +:+ " today with "
         +:+ Js.toLowerCase (getWeatherDescription E (Daily.weatherCode today))
         +:+ match daily !! 1%nat with
             | Some tomorrow =>
                 ", and " +:+ dayRange E tomorrow +:+ " tomorrow with "
                 +:+ Js.toLowerCase (getWeatherDescription E (Daily.weatherCode tomorrow))
             | None => ""
             end
         +:+ (if (3 <? rainDays)%nat then ". Expect several rainy days this week."
              else if (0 <? rainDays)%nat then ". Some rain is expected during the week."
              else ". Looks like a dry week ahead!"))
  end.

Definition currentPrompt (E : Outside) (weatherData : WeatherData.t) (city : string)
    : string :=
  let current := WeatherData.current weatherData in
  lines [
    "You are a helpful weather assistant. Analyze this current weather data for " +:+ city
      +:+ " and provide a conversational, helpful response.";
    "";
    "Weather Data:";
    "- Temperature: " +:+ int E (Current.temperature current) +:+ "°C (feels like "
      +:+ int E (Current.apparentTemperature current) +:+ "°C)";
    "- Condition: " +:+ getWeatherDescription E (Current.weatherCode current);
    "- Humidity: " +:+ num E (Current.humidity current) +:+ "%";
    "- Wind: " +:+ num E (Current.windSpeed current) +:+ " km/h";
    "- Pressure: " +:+ num E (Current.pressure current) +:+ " hPa";
    "- Cloud Cover: " +:+ num E (Current.cloudCover current) +:+ "%";
    "- Time: " +:+ (if Current.isDay current then "Day" else "Night");
    WeatherService.when (Js.gtb (Current.precipitation current) 0)
      ("- Precipitation: " +:+ num E (Current.precipitation current) +:+ "mm");
    "";
    "Please provide:";
    "1. A friendly summary of current conditions";
    "2. What it feels like outside";
    "3. Any practical advice (clothing, activities, etc.)";
    "4. Keep it conversational and helpful (2-3 sentences)";
    "";
    "Format as natural conversational text, not bullet points."
  ].

(** [analyzeCurrentWeather(weatherData, city)]: a failed completion is
    answered from the template. The source builds the prompt before the
    [try]: [city] is a value with a string conversion, as in every
    function of this class. *)
Definition analyzeCurrentWeather (E : Outside) (weatherData : WeatherData.t) (city : Js.value)
    : M World string :=
  let prompt := currentPrompt E weatherData (str E city) in
  tryCatch (complete E prompt)
    (fun _ => ret (fallbackCurrentWeatherResponse E weatherData (str E city))).

Definition dayName (E : Outside) (index : nat) (day : Daily.t) : string :=
  match index with
  | O => "Today"
  | S _ => weekdayShort E (Daily.date day)
  end.

Definition forecastPrompt (E : Outside) (weatherData : WeatherData.t) (city : string) : string :=
  let current := WeatherData.current weatherData in
  lines [
    "You are a helpful weather assistant. Analyze this 7-day weather forecast for " +:+ city
      +:+ " and provide useful insights.";
    "";
    "Current Weather:";
    "- " +:+ int E (Current.temperature current) +:+ "°C, "
      +:+ getWeatherDescription E (Current.weatherCode current);
    "";
    "7-Day Forecast:";
    lines (take 7 (imap (fun index day =>
             dayName E index day +:+ ": " +:+ dayRange E day +:+ ", "
             +:+ getWeatherDescription E (Daily.weatherCode day)
             +:+ WeatherService.when (Js.gtb (Daily.precipitationSum day) 0)
                   (", " +:+ num E (Daily.precipitationSum day) +:+ "mm rain"))
           (WeatherData.daily weatherData)));
    "";
    "Please provide:";
    "1. A summary of the weekly weather pattern";
    "2. Highlight any significant changes or notable weather";
    "3. Practical advice for planning activities";
    "4. Best and worst days in the forecast";
    "5. Keep it conversational and helpful (3-4 sentences)";
    "";
    "Format as natural conversational text, not bullet points."
  ].

(** [analyzeWeatherForecast(weatherData, city)]: the template runs inside
    the [catch] block, so its own [TypeError] reaches the caller. *)
Definition analyzeWeatherForecast (E : Outside) (weatherData : WeatherData.t) (city : Js.value)
    : M World string :=
  let prompt := forecastPrompt E weatherData (str E city) in
  tryCatch (complete E prompt)
    (fun _ => lift (fallbackForecastResponse E weatherData (str E city))).

(** [daily.slice(0, days)]. *)
Definition sliceTo (E : Outside) (days : Js.value) (daily : list Daily.t) : list Daily.t :=
  let upto (n : Z) :=
    if (n <? 0)%Z then take (Z.to_nat (Z.of_nat (length daily) + n)) daily
    else take (Z.to_nat n) daily in
  match days with
  | Js.Undefined => daily
  | Js.Null => []
  | Js.Bool b => if b then take 1 daily else []
  | Js.Num q => upto (Js.trunc q)
  | Js.Str s => upto (toInteger E s)
  | Js.Obj repr => upto (toInteger E repr)
  end.

Definition locationPrompt (E : Outside) (weatherData : WeatherData.t)
    (lat lon : string) (days : Js.value) : string :=
  let current := WeatherData.current weatherData in
  if Js.isNum 1 days then
    lines [
      "You are a weather assistant. Analyze the current weather for coordinates "
        +:+ lat +:+ ", " +:+ lon +:+ ".";
      "";
      "Weather Data:";
      "- Temperature: " +:+ int E (Current.temperature current) +:+ "°C (feels like "
        +:+ int E (Current.apparentTemperature current) +:+ "°C)";
      "- Condition: " +:+ getWeatherDescription E (Current.weatherCode current);
      "- Humidity: " +:+ num E (Current.humidity current) +:+ "%";
      "- Wind: " +:+ num E (Current.windSpeed current) +:+ " km/h";
      "";
      "Provide a helpful summary of current conditions and practical advice. Keep it brief and conversational."
    ]
  else
    lines [
      "You are a weather assistant. Analyze this " +:+ str E days
        +:+ "-day forecast for coordinates " +:+ lat +:+ ", " +:+ lon +:+ ".";
      "";
      "Forecast Overview:";
      lines (imap (fun index day =>
               dayName E index day +:+ ": " +:+ dayRange E day +:+ ", "
               +:+ getWeatherDescription E (Daily.weatherCode day))
             (sliceTo E days (WeatherData.daily weatherData)));
      "";
      "Provide a helpful forecast summary with practical insights. Keep it conversational."
    ].

(** [analyzeLocationWeather(weatherData, latitude, longitude, days = 1)].
    On an object without [current] (or without [daily]) the prompt cannot
    be built and the [TypeError] is thrown before the [try]. *)
Definition analyzeLocationWeather (E : Outside) (weatherData : CacheData)
    (latitude longitude days : Js.value) : M World string :=
  let days := Js.orDefault (Js.Int 1) days in
  let isCurrentWeather := Js.isNum 1 days in
  let* lat := lift (fixed E "latitude" 2 latitude) in
  let* lon := lift (fixed E "longitude" 2 longitude) in
  match weatherData with
  | Locations _ =>
      throw (if isCurrentWeather
             then "Cannot read properties of undefined (reading 'temperature')"
             else "Cannot read properties of undefined (reading 'slice')")
  | Forecast w =>
      let prompt := locationPrompt E w lat lon days in
      let place := "coordinates " +:+ lat +:+ ", " +:+ lon in
      tryCatch (complete E prompt)
        (fun _ =>
           if isCurrentWeather
           then ret (fallbackCurrentWeatherResponse E w place)
           else lift (fallbackForecastResponse E w place))
  end.

Definition questionPrompt (E : Outside) (question : Js.value)
    (weatherData : option WeatherData.t)
    (city : Js.value) : string :=
  "You are a helpful weather assistant. Answer this weather-related question: "
  +:+ Js.dquote +:+ str E question +:+ Js.dquote
  +:+ match weatherData with
      | Some w =>
          let current := WeatherData.current w in
          WeatherService.when (Js.truthy city)
            (lines [
               "";
               "";
               "Here's current weather context for " +:+ str E city +:+ ":";
               "- Temperature: " +:+ int E (Current.temperature current) +:+ "°C";
               "- Condition: " +:+ getWeatherDescription E (Current.weatherCode current);
               "- Humidity: " +:+ num E (Current.humidity current) +:+ "%";
               "- Wind: " +:+ num E (Current.windSpeed current) +:+ " km/h"
             ])
      | None => ""
      end
  +:+ Js.nl +:+ Js.nl
  +:+ "Provide a helpful, conversational response. If you need specific location information, mention that.".

(** [answerWeatherQuestion(question, weatherData = null, city = null)];
    the prompt is built before the [try], from a [question] and a [city]
    that have a string conversion. *)
Definition answerWeatherQuestion (E : Outside) (question : Js.value)
    (weatherData : option WeatherData.t) (city : Js.value) : M World string :=
  let prompt := questionPrompt E question weatherData city in
  tryCatch (complete E prompt)
    (fun _ => ret "I'd be happy to help with weather questions! Could you specify a location so I can provide accurate information?").

End ClaudeService.

(** ** The tool registry and dispatcher (class [WeatherMCPServer]; the
    [tools/call] handler and the handlers of real-mcp-server.js are the same
    code) *)

Module WeatherMCPServer.
Import Runtime.

Record ContentBlock : Type := mkBlock { type : string; text : string }.

(** The result envelope. A field the returned object literal does not
    mention is [None]; [weatherData: null] is [Some None]. *)
Record ToolResult : Type := mkResult {
  content : list ContentBlock;
  isError : option bool;
  weatherData : option (option WeatherData.t);
  rtype : option string;
  aiAnalyzed : option bool;
  locations : option (list Location.t);
  count : option Z
}.

Definition textBlock (s : string) : ContentBlock := mkBlock "text" s.

Record Property : Type := mkProperty {
  pname : string;
  ptype : string;
  pdefault : option Z
}.

Record Tool : Type := mkTool {
  name : string;
  description : string;
  properties : list Property;
  required : list string
}.

(** [listTools()]. *)
Definition listTools : list Tool := [
  mkTool "get_weather"
    "Get current weather data with AI-powered analysis and recommendations"
    [mkProperty "city" "string" None] ["city"];
  mkTool "get_forecast"
    "Get weather forecast with intelligent insights and planning advice"
    [mkProperty "city" "string" None; mkProperty "days" "number" (Some 7)] ["city"];
  mkTool "get_weather_by_coords"
    "Get weather data using geographic coordinates with location-specific analysis"
    [mkProperty "latitude" "number" None; mkProperty "longitude" "number" None;
     mkProperty "days" "number" (Some 1)] ["latitude"; "longitude"];
  mkTool "geocode_city"
    "Get geographic coordinates and detailed information for a city name"
    [mkProperty "city" "string" None; mkProperty "count" "number" (Some 1)] ["city"];
  mkTool "ask_weather_question"
    "Ask any weather-related question and get an AI-powered answer"
    [mkProperty "question" "string" None; mkProperty "city" "string" None] ["question"]
].

Definition toolNames : list string := map name listTools.

(** [{ content: [{ type: 'text', text }], weatherData, type, aiAnalyzed }]. *)
Definition weatherResult (s : string) (w : WeatherData.t) (ty : string) (claudeService : bool)
    : ToolResult :=
  mkResult [textBlock s] None (Some (Some w)) (Some ty) (Some claudeService) None None.

(** [handleGetWeather(city)]; [claudeService] tells whether
    [this.claudeService] is an object ([true]) or [null]. *)
Definition handleGetWeather (E : Outside) (claudeService : bool) (city : Js.value)
    : M World ToolResult :=
  let* result := WeatherService.getWeatherForChat E city false in
  match result with
  | WeatherService.ChatError message => throw message
  | WeatherService.ChatOk result =>
      let response := WeatherService.response result in
      let w := WeatherService.weatherData result in
      let* intelligentResponse :=
        if claudeService
        then tryCatch (ClaudeService.analyzeCurrentWeather E w city) (fun _ => ret response)
        else ret response in
      ret (weatherResult intelligentResponse w (WeatherService.type result) claudeService)
  end.

(** [handleGetForecast(city, days = 7)]; [days] is not used. *)
Definition handleGetForecast (E : Outside) (claudeService : bool) (city days : Js.value)
    : M World ToolResult :=
  let* result := WeatherService.getWeatherForChat E city true in
  match result with
  | WeatherService.ChatError message => throw message
  | WeatherService.ChatOk result =>
      let response := WeatherService.response result in
      let w := WeatherService.weatherData result in
      let* intelligentResponse :=
        if claudeService
        then tryCatch (ClaudeService.analyzeWeatherForecast E w city) (fun _ => ret response)
        else ret response in
      ret (weatherResult intelligentResponse w (WeatherService.type result) claudeService)
  end.

(** [formatter(weatherData).response]. *)
Definition responseOf (r : completion WeatherService.ChatReply) : completion string :=
  pureBind r (fun reply => Normal (WeatherService.response reply)).

(** [handleGetWeatherByCoords(latitude, longitude, days = 1)]. *)
Definition handleGetWeatherByCoords (E : Outside) (claudeService : bool)
    (latitude longitude days : Js.value) : M World ToolResult :=
  let days := Js.orDefault (Js.Int 1) days in
  let* weatherData := WeatherService.getWeatherForecast E latitude longitude days in
  let* lat := lift (fixed E "latitude" 2 latitude) in
  let* lon := lift (fixed E "longitude" 2 longitude) in
  let location :=
    Location.mk (Js.Str ("Location (" +:+ lat +:+ ", " +:+ lon +:+ ")"))
      Js.Undefined Js.Undefined latitude longitude Js.Undefined None None in
  let* weatherData :=
    WeatherService.assignLocation (WeatherService.forecastKey E latitude longitude days)
      location weatherData in
  let basic : M World string :=
    if Js.isNum 1 days
    then lift (responseOf (WeatherService.formatCurrentWeatherForChat E weatherData))
    else lift (responseOf (WeatherService.formatForecastForChat E weatherData)) in
  let* intelligentResponse :=
    if claudeService
    then tryCatch
           (ClaudeService.analyzeLocationWeather E weatherData latitude longitude days)
           (fun _ => basic)
    else basic in
  match weatherData with
  | Forecast w =>
      ret (weatherResult intelligentResponse w
             (if Js.isNum 1 days then "current" else "forecast") claudeService)
  | Locations _ =>
      (* not reached: on such an object the formatting above has thrown *)
      throw "Cannot read properties of undefined (reading 'weatherCode')"
  end.

Definition apology : string :=
  "I'd be happy to help with weather questions! However, AI analysis is not available right now. Try asking about specific weather data for a city.".

Definition trouble : string :=
  "I'm having trouble analyzing that weather question right now. Could you try asking about specific weather data for a city?".

(** [handleWeatherQuestion(question, city = null)]. *)
Definition handleWeatherQuestion (E : Outside) (claudeService : bool)
    (question city : Js.value) : M World ToolResult :=
  let city := Js.orDefault Js.Null city in
  if negb claudeService then
    ret (mkResult [textBlock apology] None None None (Some false) None None)
  else
    let* weatherData :=
      if Js.truthy city then
        tryCatch
          (let* result := WeatherService.getWeatherForChat E city false in
           match result with
           | WeatherService.ChatOk reply => ret (Some (WeatherService.weatherData reply))
           | WeatherService.ChatError _ => ret None
           end)
          (fun _ => ret None)
      else ret None in
    tryCatch
      (let* intelligentResponse :=
         ClaudeService.answerWeatherQuestion E question weatherData city in
       ret (mkResult [textBlock intelligentResponse] None (Some weatherData)
              (Some "question") (Some true) None None))
      (fun _ =>
         ret (mkResult [textBlock trouble] (Some true) None None (Some false) None None)).

(** One iteration of [locations.forEach((location, index) => ...)]. *)
Definition formatLocation (E : Outside) (index : nat) (location : Location.t)
    : completion string :=
  pureBind (fixed E "location.latitude" 4 (Location.latitude location)) (fun lat =>
  pureBind (fixed E "location.longitude" 4 (Location.longitude location)) (fun lon =>
  Normal
    (int E (Z.of_nat index + 1) +:+ ". **" +:+ str E (Location.name location)
     +:+ WeatherService.when (Js.truthy (Location.admin1 location))
           (", " +:+ str E (Location.admin1 location))
     +:+ ", " +:+ str E (Location.country location) +:+ "**" +:+ Js.nl
     +:+ "   📍 " +:+ lat +:+ ", " +:+ lon +:+ Js.nl
     +:+ WeatherService.when (WeatherService.truthyQ (Location.population location))
           ("   👥 Population: "
            +:+ toLocaleString E (default 0%Q (Location.population location)) +:+ Js.nl)
     +:+ WeatherService.when (WeatherService.truthyQ (Location.elevation location))
           ("   ⛰️ Elevation: "
            +:+ int E (Js.round (default 0%Q (Location.elevation location))) +:+ "m" +:+ Js.nl)
     +:+ "   🕰️ Timezone: " +:+ str E (Location.timezone location) +:+ Js.nl +:+ Js.nl))).

(** The [forEach] loop: the first iteration that throws ends it. *)
Fixpoint formatLocations (E : Outside) (index : nat) (l : list Location.t)
    : completion string :=
  match l with
  | [] => Normal ""
  | location :: rest =>
      pureBind (formatLocation E index location) (fun here =>
      pureBind (formatLocations E (S index) rest) (fun there =>
      Normal (here +:+ there)))
  end.

(** [handleGeocodeCity(city, count = 1)]. *)
Definition handleGeocodeCity (E : Outside) (city count : Js.value) : M World ToolResult :=
  let count := Js.orDefault (Js.Int 1) count in
  let* found := WeatherService.geocodeCity E city count in
  let heading :=
    "**Geocoding results for " +:+ Js.dquote +:+ str E city +:+ Js.dquote +:+ ":**"
    +:+ Js.nl +:+ Js.nl in
  match found with
  | Forecast _ => throw "locations.forEach is not a function"
  | Locations l =>
      let* body :=
        match l with
        | [] => ret "No locations found."
        | _ => lift (formatLocations E 0 l)
        end in
      ret (mkResult [textBlock (heading +:+ body)] None None None None
             (Some l) (Some (Z.of_nat (length l))))
  end.

(** [args.key]: reading a property of [undefined] throws. *)
Definition prop (args : option (gmap string Js.value)) (key : string) : completion Js.value :=
  match args with
  | Some m => Normal (default Js.Undefined (m !! key))
  | None => Throw ("Cannot read properties of undefined (reading '" +:+ key +:+ "')")
  end.

Definition errorResult (s : string) : ToolResult :=
  mkResult [textBlock s] (Some true) None None None None None.

(** The [switch] of [callTool]: the handler for [toolName], or the
    "Unknown tool" error of the [default] case. *)
Definition dispatch (E : Outside) (claudeService : bool) (toolName : string)
    (args : option (gmap string Js.value)) : M World ToolResult :=
  if String.eqb toolName "get_weather" then
    let* city := lift (prop args "city") in
    handleGetWeather E claudeService city
  else if String.eqb toolName "get_forecast" then
    let* city := lift (prop args "city") in
    let* days := lift (prop args "days") in
    handleGetForecast E claudeService city days
  else if String.eqb toolName "get_weather_by_coords" then
    let* latitude := lift (prop args "latitude") in
    let* longitude := lift (prop args "longitude") in
    let* days := lift (prop args "days") in
    handleGetWeatherByCoords E claudeService latitude longitude days
  else if String.eqb toolName "geocode_city" then
    let* city := lift (prop args "city") in
    let* count := lift (prop args "count") in
    handleGeocodeCity E city count
  else if String.eqb toolName "ask_weather_question" then
    let* question := lift (prop args "question") in
    let* city := lift (prop args "city") in
    handleWeatherQuestion E claudeService question city
  else
    throw ("Unknown tool: " +:+ toolName).

(** [callTool(toolName, args)]: the [switch] inside [try], and the [catch]
    that turns every exception into an error-shaped result. *)
Definition callTool (E : Outside) (claudeService : bool) (toolName : string)
    (args : option (gmap string Js.value)) : M World ToolResult :=
  tryCatch
    (dispatch E claudeService toolName args)
    (fun message =>
       ret (errorResult ("Error calling tool " +:+ toolName +:+ ": " +:+ message))).

(** [result.isError] as a caller tests it. *)
Definition failed (r : ToolResult) : bool :=
  match isError r with
  | Some true => true
  | _ => false
  end.

End WeatherMCPServer.

(** ** The SDK-registered server (class [RealMCPWeatherServer] built on
    [McpServer.registerTool]): the handlers that take the unit flag, and the
    keyword detection *)

Module RealMCPWeatherServer.
Import Runtime.

(** [{ content: [{ type: 'text', text }] }]. *)
Definition textResult (s : string) : WeatherMCPServer.ToolResult :=
  WeatherMCPServer.mkResult [WeatherMCPServer.textBlock s] None None None None None None.

(** [this.weatherService.getWeatherForChat(city, includeForecast, useFahrenheit)]:
    the call passes three arguments to a function that declares two
    parameters, [getWeatherForChat(city, includeForecast = false)], so the
    third one is discarded. *)
Definition callGetWeatherForChat (E : Outside) (city : Js.value)
    (includeForecast useFahrenheit : bool) : M World WeatherService.ChatResult :=
  WeatherService.getWeatherForChat E city includeForecast.

(** [handleGetWeather(city, useFahrenheit = false)]. *)
Definition handleGetWeather (E : Outside) (claudeService : bool) (city : Js.value)
    (useFahrenheit : bool) : M World WeatherMCPServer.ToolResult :=
  tryCatch
    (let* result := callGetWeatherForChat E city false useFahrenheit in
     match result with
     | WeatherService.ChatError message =>
         ret (WeatherMCPServer.errorResult
                ("Error getting weather for " +:+ str E city +:+ ": " +:+ message))
     | WeatherService.ChatOk result =>
         let response := WeatherService.response result in
         let* intelligentResponse :=
           if claudeService
           then tryCatch
                  (ClaudeService.analyzeCurrentWeather E (WeatherService.weatherData result) city)
                  (fun _ => ret response)
           else ret response in
         ret (textResult intelligentResponse)
     end)
    (fun message => ret (WeatherMCPServer.errorResult ("Error: " +:+ message))).

(** [handleGetForecast(city, days = 7, useFahrenheit = false)]. *)
Definition handleGetForecast (E : Outside) (claudeService : bool) (city days : Js.value)
    (useFahrenheit : bool) : M World WeatherMCPServer.ToolResult :=
  tryCatch
    (let* result := callGetWeatherForChat E city true useFahrenheit in
     match result with
     | WeatherService.ChatError message =>
         ret (WeatherMCPServer.errorResult
                ("Error getting forecast for " +:+ str E city +:+ ": " +:+ message))
     | WeatherService.ChatOk result =>
         let response := WeatherService.response result in
         let* intelligentResponse :=
           if claudeService
           then tryCatch
                  (ClaudeService.analyzeWeatherForecast E (WeatherService.weatherData result) city)
                  (fun _ => ret response)
           else ret response in
         ret (textResult intelligentResponse)
     end)
    (fun message => ret (WeatherMCPServer.errorResult ("Error: " +:+ message))).

(** The callbacks registered for [get_weather] and
    [get_weather_fahrenheit]: [async ({ city }) => this.handleGetWeather(city)]
    and [async ({ city }) => this.handleGetWeather(city, true)]. *)
Definition get_weather (E : Outside) (claudeService : bool) (city : Js.value) :=
  handleGetWeather E claudeService city false.

Definition get_weather_fahrenheit (E : Outside) (claudeService : bool) (city : Js.value) :=
  handleGetWeather E claudeService city true.

Definition get_forecast (E : Outside) (claudeService : bool) (city days : Js.value) :=
  handleGetForecast E claudeService city days false.

Definition get_forecast_fahrenheit (E : Outside) (claudeService : bool) (city days : Js.value) :=
  handleGetForecast E claudeService city days true.

Definition fahrenheitKeywords : list string := [
  "fahrenheit"; "farenheit"; "f"; "°f"; "degrees fahrenheit";
  "in fahrenheit"; "convert to fahrenheit"; "show fahrenheit";
  "f instead of c"; "fahrenheit instead of celsius";
  "in f"; "in f instead of c"; "f instead of celsius";
  "fahrenheit instead of c"; "f instead of c"
].

(** [detectFahrenheitPreference(userMessage)]; a falsy message ([None]
    here, or the empty string) answers [false]. *)
Definition detectFahrenheitPreference (userMessage : option string) : bool :=
  match userMessage with
  | None | Some EmptyString => false
  | Some message =>
      let lowerMessage := Js.toLowerCase message in
      Js.someIncludes fahrenheitKeywords lowerMessage
  end.

End RealMCPWeatherServer.

(** ** The session manager of the chat gateway (the Express server) *)

Module Gateway.

(** [jsonData.result], kept opaque. *)
Definition Result : Type := string.

(** A JSON-RPC reply: [error] (with its optional [message]) and [result];
    a falsy member is [None]. *)
Record JsonRpc : Type := mkRpc {
  error : option (option string);
  result : option Result
}.

(** [response.data], by what the gateway's parsing makes of it:
    - [Empty]: a falsy body;
    - [Sse line]: a string that includes ['event: message'], with its first
      line starting with ['data: '], if any, run through [JSON.parse];
    - [Text]: any other string;
    - [Json j]: an object. *)
Inductive Body : Type :=
| Empty
| Sse (dataLine : option (completion JsonRpc))
| Text
| Json (j : JsonRpc).

(** How [axios.post] rejects: with [error.response] (a status outside 2xx,
    and what [error.response.data.error?.message] gives the [catch] of
    [callMCPTool]: the message, if any, or the message of the [TypeError]
    raised on the way, as when [error] is read off a body that is [null] or
    [undefined]), with [error.request] only, or with neither. *)
Inductive Failure : Type :=
| BadStatus (status : Z) (errorMessage : completion (option string))
| NoResponse (message : string)
| SetupFailure (message : string).

Inductive Reply : Type :=
| Resolved (sessionHeader : option string) (data : Body)
| Rejected (f : Failure).

(** The two requests the gateway posts to [/mcp]; [sessionHeader] is the
    [mcp-session-id] header of a [tools/call] request. *)
Inductive Request : Type :=
| Initialize
| ToolsCall (sessionHeader : option string) (name : string) (arguments : gmap string Js.value).

(** A request as sent, with the value [mcpSessionId] had at that moment. *)
Record Dispatch : Type := mkDispatch { stored : option string; sent : Request }.

(** The provider: a function of the requests received so far, most recent
    first, and of the request at hand. *)
Definition Provider : Type := list Request -> Request -> Reply.

(** [let mcpSessionId = null] and the requests sent, most recent first. *)
Record State : Type := mkState {
  mcpSessionId : option string;
  trace : list Dispatch
}.

Definition initial : State := mkState None [].

(** What is thrown inside [callMCPTool]'s [try]. *)
Inductive JsError : Type :=
| Plain (message : string)
| Axios (f : Failure).

(** [if (mcpSessionId)]: [null], [undefined] and the empty string are falsy. *)
Definition truthy (sid : option string) : bool :=
  match sid with
  | Some (String _ _) => true
  | _ => false
  end.

Definition post (P : Provider) (r : Request) (g : State) : State * Reply :=
  (mkState (mcpSessionId g) (mkDispatch (mcpSessionId g) r :: trace g),
   P (map sent (trace g)) r).

Definition connectFailure : string := "Failed to connect to MCP server".

(** [initializeMCPSession()]. The session id is stored as soon as the
    response arrives, before its body is examined; whatever goes wrong
    inside the [try] is rethrown as [connectFailure]. *)
Definition initializeMCPSession (P : Provider) (g : State)
    : State * (string + option string) :=
  if truthy (mcpSessionId g) then (g, inr (mcpSessionId g))
  else
    match post P Initialize g with
    | (g1, Rejected _) => (g1, inl connectFailure)
    | (g1, Resolved header data) =>
        let g2 := mkState header (trace g1) in
        match data with
        | Sse (Some (Normal jsonData)) =>
            match result jsonData with
            | Some _ => (g2, inr header)
            | None => (g2, inl connectFailure)
            end
        | _ => (g2, inl connectFailure)
        end
    end.

(** [m || fallback] on an optional message. *)
Definition orElse (m : option string) (fallback : string) : string :=
  match m with
  | Some (String c s) => String c s
  | _ => fallback
  end.

Definition readRpc (jsonData : JsonRpc) (invalid : string) : JsError + Result :=
  match error jsonData with
  | Some m => inl (Plain (orElse m "MCP tool call failed"))
  | None =>
      match result jsonData with
      | Some r => inr r
      | None => inl (Plain invalid)
      end
  end.

(** The [try] block of [callMCPTool]. *)
Definition attempt (P : Provider) (toolName : string) (args : gmap string Js.value)
    (g : State) : State * (JsError + Result) :=
  match initializeMCPSession P g with
  | (g1, inl message) => (g1, inl (Plain message))
  | (g1, inr _) =>
      let header := if truthy (mcpSessionId g1) then mcpSessionId g1 else None in
      match post P (ToolsCall header toolName args) g1 with
      | (g2, Rejected f) => (g2, inl (Axios f))
      | (g2, Resolved _ data) =>
          (g2,
           match data with
           | Empty => inl (Plain "Empty response from MCP server")
           | Sse None => inl (Plain "Could not parse SSE response data")
           | Sse (Some (Throw message)) => inl (Plain message)
           | Sse (Some (Normal jsonData)) =>
               readRpc jsonData "Invalid SSE response format from MCP server"
           | Text => inl (Plain "Invalid JSON response format from MCP server")
           | Json j => readRpc j "Invalid JSON response format from MCP server"
           end)
      end
  end.

(** [callMCPTool(toolName, args)]. The recursive call of the [catch] block
    has no bound in the source; [fuel] counts the attempts the model may
    make, and [None] says that they were used up. *)
Fixpoint callMCPTool (fuel : nat) (P : Provider) (toolName : string)
    (args : gmap string Js.value) (g : State) : State * option (completion Result) :=
  match fuel with
  | O => (g, None)
  | S fuel' =>
      match attempt P toolName args g with
      | (g1, inr r) => (g1, Some (Normal r))
      | (g1, inl (Axios (BadStatus status errorMessage))) =>
          if (status =? 400)%Z then
            (* Session might be invalid, reset and retry once *)
            callMCPTool fuel' P toolName args (mkState None (trace g1))
          else
            (g1,
             Some (Throw match errorMessage with
                         | Normal m => orElse m "MCP server error"
                         | Throw typeError => typeError
                         end))
      | (g1, inl (Axios (NoResponse _))) =>
          (g1, Some (Throw "MCP server is not responding. Make sure it's running on port 3001."))
      | (g1, inl (Axios (SetupFailure message))) =>
          (g1, Some (Throw ("Request error: " +:+ message)))
      | (g1, inl (Plain message)) =>
          (g1, Some (Throw ("Request error: " +:+ message)))
      end
  end.

(** The states the gateway can be in: the initial one, and those a call
    leaves behind. *)
Inductive reachable (P : Provider) : State -> Prop :=
| reach_initial : reachable P initial
| reach_call fuel toolName args g :
    reachable P g ->
    reachable P (fst (callMCPTool fuel P toolName args g)).

Definition isToolsCall (d : Dispatch) : bool :=
  match sent d with
  | ToolsCall _ _ _ => true
  | Initialize => false
  end.

(** The [tools/call] requests of a trace. *)
Definition toolsCalls (tr : list Dispatch) : list Dispatch := List.filter isToolsCall tr.

End Gateway.

(** * Vocabulary of the properties *)

Import Runtime.

(** [post c Q]: whenever [c] completes normally, its value satisfies [Q]. *)
Definition post {S A : Type} (c : M S A) (Q : A -> Prop) : Prop :=
  forall s s' a, c s = (s', Normal a) -> Q a.

(** The content of a result is one text block. *)
Definition oneBlock (r : WeatherMCPServer.ToolResult) : Prop :=
  exists s, WeatherMCPServer.content r = [WeatherMCPServer.textBlock s].

(** ** Stand-ins for the collaborators, used to run the code *)

Module StandIn.

Definition paris : Location.t :=
  Location.mk (Js.Str "Paris") (Js.Str "France") (Js.Str "Ile-de-France")
    (Js.Num (4885 # 100)) (Js.Num (235 # 100)) (Js.Str "Europe/Paris")
    (Some 2138551%Q) (Some 42%Q).

(** 19.6 degrees, felt as 18.4; rounded to 20 and 18. *)
Definition mild : RawCurrent.t :=
  RawCurrent.mk "2024-01-15T12:00" (196 # 10) (184 # 10) 55 0 0 0 2 40 1015 12 180 0 1.

Definition monday : RawDaily.t :=
  RawDaily.mk "2024-01-15" 2 (217 # 10) (123 # 10) 21 11 "07:58" "17:21" 33780 20000 3
    0 0 0 12 20 180.

Definition body : ForecastBody.t :=
  ForecastBody.mk (4885 # 100) (235 # 100) "Europe/Paris" 42 mild [monday; monday] "metric".

(** The runtime's printing of a fraction: these stand-ins only meet the
    coordinates of Paris. *)
Definition printNumber (q : Q) : string :=
  if Qeq_bool q (4885 # 100) then "48.85"
  else if Qeq_bool q (235 # 100) then "2.35"
  else "NaN".

Definition printFixed (digits : nat) (q : Q) : string :=
  if Qeq_bool q (4885 # 100) then "48.85" +:+ Js.zeros (digits - 2)
  else if Qeq_bool q (235 # 100) then "2.35" +:+ Js.zeros (digits - 2)
  else "NaN".

Definition printGrouped (q : Q) : string :=
  if Qeq_bool q 2138551 then "2,138,551" else printNumber q.

(** A geocoder that knows Paris and answers a search without a name with
    HTTP 400; a forecast endpoint that always answers [body]. *)
Definition geocoder (name : Js.value) : Z * (string + option (list Location.t)) :=
  (100, match name with
        | Js.Str "Paris" => inr (Some [paris])
        | Js.Undefined => inl "Request failed with status code 400"
        | _ => inr None
        end).

(** The text-completion service fails every request. *)
Definition claudeDown : Outside :=
  mkOutside (fun _ name _ => geocoder name)
    (fun _ _ _ _ => (200, inr body))
    (fun _ _ => (300, inl "401 invalid x-api-key"))
    (fun _ => "Mon") (fun _ => "Jan 15") printGrouped (fun _ => 0) printNumber printFixed.

(** The text-completion service answers every request. *)
Definition claudeUp : Outside :=
  mkOutside (fun _ name _ => geocoder name)
    (fun _ _ _ _ => (200, inr body))
    (fun _ _ => (300, inr "Bring a light jacket."))
    (fun _ => "Mon") (fun _ => "Jan 15") printGrouped (fun _ => 0) printNumber printFixed.

(** A fresh process: empty cache, clock at one second. *)
Definition fresh : World := mkWorld ∅ 1000 [].

Definition noArgs : option (gmap string Js.value) := Some ∅.

Definition cityArgs (city : string) : option (gmap string Js.value) :=
  Some {[ "city" := Js.Str city ]}.

End StandIn.

(** [grows c]: running [c] only adds requests to the trace. *)
Definition grows {A : Type} (c : M World A) : Prop :=
  forall w, exists sent, trace (fst (c w)) = (sent ++ trace w)%list.

(** The specification's reading of [get_weather] called with an empty
    argument mapping: an error-shaped result that names the missing
    parameter, and no request to the Weather Data Source. *)
Definition missingCityRejected (E : Outside) (claudeService : bool) (w : World) : Prop :=
  exists w' r text,
    WeatherMCPServer.callTool E claudeService "get_weather" StandIn.noArgs w = (w', Normal r)
    /\ WeatherMCPServer.isError r = Some true
    /\ WeatherMCPServer.content r = [WeatherMCPServer.textBlock text]
    /\ Js.includes "city" text = true
    /\ trace w' = trace w.

(** The TTL of each category of key, as written at the two checks:
    [this.cacheTimeout * 6] for geocoding, [this.cacheTimeout] for weather. *)
Definition geocodeTTL : Z := WeatherService.cacheTimeout * 6.
Definition weatherTTL : Z := WeatherService.cacheTimeout.

(** The same process when its clock reads [t]. *)
Definition atTime (t : Z) (w : World) : World := mkWorld (cache w) t (trace w).

(** Every completion attempt fails. *)
Definition completionsFail (E : Outside) : Prop :=
  forall h prompt, exists elapsed reason, messages_create E h prompt = (elapsed, inl reason).

(** The Text-Completion Service is not configured, or fails every attempt. *)
Definition unavailable (E : Outside) (claudeService : bool) : Prop :=
  claudeService = false \/ completionsFail E.

(** A value that is not an object: its string conversion cannot throw. *)
Definition primitive (v : Js.value) : bool :=
  match v with
  | Js.Obj _ => false
  | _ => true
  end.

(** The template text of a weather handler when no completion is to be had:
    the formatter's [response] when the service is not configured, the
    fallback template of [ClaudeService] when it is configured and fails,
    and the formatter's [response] again when that template throws. *)
Definition currentTemplate (E : Outside) (claudeService : bool)
    (reply : WeatherService.ChatReply)
    (city : Js.value) : string :=
  if claudeService
  then ClaudeService.fallbackCurrentWeatherResponse E
         (WeatherService.weatherData reply) (str E city)
  else WeatherService.response reply.

Definition forecastTemplate (E : Outside) (claudeService : bool)
    (reply : WeatherService.ChatReply)
    (city : Js.value) : string :=
  if claudeService
  then match ClaudeService.fallbackForecastResponse E
               (WeatherService.weatherData reply) (str E city) with
       | Normal t => t
       | Throw _ => WeatherService.response reply
       end
  else WeatherService.response reply.

(** [q.toFixed(2)]. *)
Definition twoDecimals (E : Outside) (q : Q) : string := fixedNum (numberToFixed E) 2 q.

(** The mock location of [handleGetWeatherByCoords]. *)
Definition mockLocation (E : Outside) (latitude longitude : Q) : Location.t :=
  Location.mk
    (Js.Str ("Location (" +:+ twoDecimals E latitude +:+ ", " +:+ twoDecimals E longitude
             +:+ ")"))
    Js.Undefined Js.Undefined (Js.Num latitude) (Js.Num longitude) Js.Undefined None None.

Definition coordsFormatted (E : Outside) (days : Js.value) (w : WeatherData.t)
    : completion WeatherService.ChatReply :=
  if Js.isNum 1 days
  then WeatherService.formatCurrentWeatherForChat E (Forecast w)
  else WeatherService.formatForecastForChat E (Forecast w).

Definition coordsTemplate (E : Outside) (claudeService : bool) (latitude longitude : Q)
    (days : Js.value) (w : WeatherData.t) : string :=
  let place :=
    "coordinates " +:+ twoDecimals E latitude +:+ ", " +:+ twoDecimals E longitude in
  let basic := match coordsFormatted E days w with
               | Normal reply => WeatherService.response reply
               | Throw _ => ""
               end in
  if claudeService then
    if Js.isNum 1 days then ClaudeService.fallbackCurrentWeatherResponse E w place
    else match ClaudeService.fallbackForecastResponse E w place with
         | Normal t => t
         | Throw _ => basic
         end
  else basic.

(** ** Stand-ins for the MCP endpoint, and the session invariant *)

Module GatewayStandIn.
Import Gateway.

Definition handshake (header : option string) : Reply :=
  Resolved header (Sse (Some (Normal (mkRpc None (Some "{ protocolVersion, capabilities }"))))).

Definition answer (r : Result) : Reply :=
  Resolved None (Sse (Some (Normal (mkRpc None (Some r))))).

Definition badRequest : Reply :=
  Rejected (BadStatus 400
              (Normal
                 (Some "Bad Request: No valid session ID provided or not an initialize request"))).

(** Accepts every handshake and answers every [tools/call] with HTTP 400. *)
Definition alwaysRejects : Provider :=
  fun _ r =>
    match r with
    | Initialize => handshake (Some "session-1")
    | ToolsCall _ _ _ => badRequest
    end.

(** Issues the session "renewed" at every handshake and accepts only that
    one: a call carrying any other id, or none, gets HTTP 400. *)
Definition expiring : Provider :=
  fun _ r =>
    match r with
    | Initialize => handshake (Some "renewed")
    | ToolsCall (Some "renewed") _ _ => answer "sunny"
    | ToolsCall _ _ _ => badRequest
    end.

(** A stateless endpoint: its handshake carries no [mcp-session-id] header,
    and it answers every call. *)
Definition stateless : Provider :=
  fun _ r =>
    match r with
    | Initialize => handshake None
    | ToolsCall _ _ _ => answer "sunny"
    end.

Definition parisArgs : gmap string Js.value := {[ "city" := Js.Str "Paris" ]}.

(** The gateway holding a session id that the provider has forgotten. *)
Definition stale : State := mkState (Some "expired") [].

End GatewayStandIn.

(** The header of a [tools/call] request is the stored session id when
    that id is truthy, and is absent otherwise. *)
Definition attached (d : Gateway.Dispatch) : Prop :=
  match Gateway.sent d with
  | Gateway.ToolsCall header _ _ =>
      header = if Gateway.truthy (Gateway.stored d) then Gateway.stored d else None
  | Gateway.Initialize => True
  end.

(** A [tools/call] request carries a session id: the stored one. *)
Definition carriesSession (d : Gateway.Dispatch) : Prop :=
  match Gateway.sent d with
  | Gateway.ToolsCall header _ _ =>
      Gateway.truthy header = true /\ header = Gateway.stored d
  | Gateway.Initialize => True
  end.

(** The specification's invariant: in every reachable state, every
    [tools/call] request that was sent carried a session id. *)
Definition sessionInvariant (P : Gateway.Provider) : Prop :=
  forall g, Gateway.reachable P g -> Forall carriesSession (Gateway.trace g).

(** Every handshake the provider accepts comes with a non-empty
    [mcp-session-id] header. *)
Definition issuesSessionIds (P : Gateway.Provider) : Prop :=
  forall h header data,
    P h Gateway.Initialize = Gateway.Resolved header data -> Gateway.truthy header = true.

(** The text of [ask_weather_question] when no completion is to be had:
    the apology when the service is not configured, the request for a
    location when it is configured and fails. *)
Definition questionTemplate (claudeService : bool) : string :=
  if claudeService
  then "I'd be happy to help with weather questions! Could you specify a location so I can provide accurate information?"
  else WeatherMCPServer.apology.


(** ** The request switch of [WeatherMCPServer] ([processRequest]) *)

Module Requests.
Import Runtime.

(** A member of a request body as the templates of this class see it: a
    [value], or an object that has no string conversion (JSON such as
    [{"toString": 1}]), on which a template literal throws a [TypeError].
    Under [===] such an object equals no string. *)
Inductive Member : Type :=
| Value (v : Js.value)
| Unprintable.

Definition conversionError : string := "Cannot convert object to primitive value".

(** [`${prefix}${member}`]. *)
Definition template (E : Outside) (prefix : string) (member : Member) : completion string :=
  match member with
  | Value v => Normal (prefix +:+ str E v)
  | Unprintable => Throw conversionError
  end.

(** What [{ name, arguments }] reads off a [params] that can be
    destructured; a member the object does not have is [undefined]
    ([None], for [arguments]), and so is every member of a [params] that
    is a number, a string, a boolean or an array. *)
Record CallParams : Type := mkParams {
  name : Member;
  arguments : option (gmap string Js.value)
}.

(** The [params] of a request: [undefined] or [null], which cannot be
    destructured, or the members read off anything else. *)
Inductive Params : Type :=
| Missing (null : bool)
| Given (p : CallParams).

(** What [processRequest] returns, by method: the object of [initialize]
    (its [protocolVersion]; [capabilities] and [serverInfo] are the
    constants of the constructor), the tool list, or the result of
    [callTool]. *)
Inductive Response : Type :=
| Initialized (protocolVersion : string)
| ToolList (tools : list WeatherMCPServer.Tool)
| ToolResponse (r : WeatherMCPServer.ToolResult).

(** [callTool(name, args)] on whatever [name] is: the [switch] compares
    with [===], so a name that is not a string reaches [default], whose
    template converts it, inside the [try]; the template of the [catch]
    converts it again, outside any [try]. *)
Definition callToolOn (E : Outside) (claudeService : bool) (name : Member)
    (args : option (gmap string Js.value)) : M World WeatherMCPServer.ToolResult :=
  match name with
  | Value (Js.Str toolName) => WeatherMCPServer.callTool E claudeService toolName args
  | _ =>
      tryCatch
        (let* unknown := lift (template E "Unknown tool: " name) in
         throw unknown)
        (fun message =>
           let* calling := lift (template E "Error calling tool " name) in
           ret (WeatherMCPServer.errorResult (calling +:+ ": " +:+ message)))
  end.

(** The message of the error thrown in the [default] case: that of the
    [Error] built, or that of the [TypeError] of building its message. *)
Definition unknownMethod (E : Outside) (method : Member) : string :=
  match template E "Unknown method: " method with
  | Normal message => message
  | Throw typeError => typeError
  end.

Definition notDestructured (null : bool) : string :=
  "Cannot destructure property 'name' of 'params' as it is "
  +:+ (if null then "null" else "undefined") +:+ ".".

(** [processRequest(method, params)]; the destructuring of the
    [tools/call] case throws before [callTool] and its [try] are
    entered. *)
Definition processRequest (E : Outside) (claudeService : bool) (method : Member)
    (params : Params) : M World Response :=
  let unknown :=
    let* message := lift (template E "Unknown method: " method) in
    throw message in
  match method with
  | Value (Js.Str m) =>
      if String.eqb m "initialize" then
        ret (Initialized "2024-11-05")
      else if String.eqb m "tools/list" then
        ret (ToolList WeatherMCPServer.listTools)
      else if String.eqb m "tools/call" then
        match params with
        | Missing null => throw (notDestructured null)
        | Given p =>
            let* r := callToolOn E claudeService (name p) (arguments p) in
            ret (ToolResponse r)
        end
      else unknown
  | _ => unknown
  end.

End Requests.

(** ** The REST transport adapter (class [RESTTransportAdapter]) *)

Module RESTTransportAdapter.

(** What a route answers: [res.json(result)], or the status 500 of
    [handleError] with [error.message]. *)
Inductive HttpResponse (A : Type) : Type :=
| Ok (body : A)
| ServerError (error : string).
Arguments Ok {A} body.
Arguments ServerError {A} error.

(** [try { res.json(await call) } catch (error) { this.handleError(res, error) }]. *)
Definition respond {A : Type} (call : M World A) : World -> World * HttpResponse A :=
  fun w =>
    match call w with
    | (w', Normal result) => (w', Ok result)
    | (w', Throw message) => (w', ServerError message)
    end.

(** [POST /tools/:toolName], with the JSON object of the body as the
    arguments. *)
Definition toolRoute (E : Outside) (claudeService : bool) (toolName : string)
    (body : gmap string Js.value) : World -> World * HttpResponse Requests.Response :=
  respond (Requests.processRequest E claudeService (Requests.Value (Js.Str "tools/call"))
             (Requests.Given (Requests.mkParams (Requests.Value (Js.Str toolName))
                                (Some body)))).

(** [POST /call], with [method] and [params] read off the body. *)
Definition callRoute (E : Outside) (claudeService : bool) (method : Requests.Member)
    (params : Requests.Params) : World -> World * HttpResponse Requests.Response :=
  respond (Requests.processRequest E claudeService method params).

(** [GET /weather/:city]. *)
Definition weatherRoute (E : Outside) (claudeService : bool) (city : string)
    : World -> World * HttpResponse WeatherMCPServer.ToolResult :=
  respond (WeatherMCPServer.callTool E claudeService "get_weather"
             (Some {[ "city" := Js.Str city ]})).

End RESTTransportAdapter.

(** ** Regular expressions of the SDK-registered server *)

Module Regex.

(** [\w]: an ASCII letter, a digit or the underscore. *)
Definition isWord (c : ascii) : bool :=
  let n := nat_of_ascii c in
  ((48 <=? n) && (n <=? 57) || (65 <=? n) && (n <=? 90)
   || (97 <=? n) && (n <=? 122) || (n =? 95))%nat.

(** The longest run of [\w] characters at the head of [s], and what
    follows it. *)
Fixpoint wordRun (s : string) : string * string :=
  match s with
  | EmptyString => ("", "")
  | String c s' =>
      if isWord c
      then let (run, rest) := wordRun s' in (String c run, rest)
      else ("", s)
  end.

(** A literal at the head of [s], letters compared without case (flag
    [i]): what follows it. *)
Fixpoint skipLiteral (lit s : string) : option string :=
  match lit, s with
  | EmptyString, _ => Some s
  | String a lit', String c s' =>
      if Ascii.eqb (Js.lowerChar a) (Js.lowerChar c) then skipLiteral lit' s' else None
  | String _ _, EmptyString => None
  end.

Definition nonEmpty (run : string) : option string :=
  match run with
  | EmptyString => None
  | String _ _ => Some run
  end.

(** [s.match(/lit(\w+)/i)]: the first group of the leftmost match. *)
Fixpoint matchAfter (lit s : string) : option string :=
  let here := match skipLiteral lit s with
              | Some rest => nonEmpty (fst (wordRun rest))
              | None => None
              end in
  match here with
  | Some group => Some group
  | None =>
      match s with
      | EmptyString => None
      | String _ s' => matchAfter lit s'
      end
  end.

(** [s.match(/(\w+)lit/i)] for a literal that starts with a character
    outside [\w]: the first group of the leftmost match. At each start the
    group takes the whole run of word characters; giving characters back
    would put a word character where the literal starts. *)
Fixpoint matchBefore (lit s : string) : option string :=
  let here := let (run, rest) := wordRun s in
              match skipLiteral lit rest with
              | Some _ => nonEmpty run
              | None => None
              end in
  match here with
  | Some group => Some group
  | None =>
      match s with
      | EmptyString => None
      | String _ s' => matchBefore lit s'
      end
  end.

End Regex.

(** ** The other handlers of the SDK-registered server (class
    [RealMCPWeatherServer]): each one catches what it throws *)

Module SdkHandlers.
Import Runtime.

(** [handleGetWeatherByCoords(latitude, longitude, days = 1)]. *)
Definition handleGetWeatherByCoords (E : Outside) (claudeService : bool)
    (latitude longitude days : Js.value) : M World WeatherMCPServer.ToolResult :=
  let days := Js.orDefault (Js.Int 1) days in
  tryCatch
    (let* weatherData := WeatherService.getWeatherForecast E latitude longitude days in
     let* lat := lift (fixed E "latitude" 2 latitude) in
     let* lon := lift (fixed E "longitude" 2 longitude) in
     let location :=
       Location.mk (Js.Str ("Location (" +:+ lat +:+ ", " +:+ lon +:+ ")"))
         Js.Undefined Js.Undefined latitude longitude Js.Undefined None None in
     let* weatherData :=
       WeatherService.assignLocation (WeatherService.forecastKey E latitude longitude days)
         location weatherData in
     let basic : M World string :=
       if Js.isNum 1 days
       then lift (WeatherMCPServer.responseOf
                    (WeatherService.formatCurrentWeatherForChat E weatherData))
       else lift (WeatherMCPServer.responseOf
                    (WeatherService.formatForecastForChat E weatherData)) in
     let* intelligentResponse :=
       if claudeService
       then tryCatch
              (ClaudeService.analyzeLocationWeather E weatherData latitude longitude days)
              (fun _ => basic)
       else basic in
     ret (RealMCPWeatherServer.textResult intelligentResponse))
    (fun message => ret (WeatherMCPServer.errorResult ("Error: " +:+ message))).

(** [handleGeocodeCity(city, count = 1)]. *)
Definition handleGeocodeCity (E : Outside) (city count : Js.value)
    : M World WeatherMCPServer.ToolResult :=
  let count := Js.orDefault (Js.Int 1) count in
  tryCatch
    (let* found := WeatherService.geocodeCity E city count in
     let heading :=
       "**Geocoding results for " +:+ Js.dquote +:+ str E city +:+ Js.dquote +:+ ":**"
       +:+ Js.nl +:+ Js.nl in
     match found with
     | Forecast _ => throw "locations.forEach is not a function"
     | Locations l =>
         let* body :=
           match l with
           | [] => ret "No locations found."
           | _ => lift (WeatherMCPServer.formatLocations E 0 l)
           end in
         ret (RealMCPWeatherServer.textResult (heading +:+ body))
     end)
    (fun message =>
       ret (WeatherMCPServer.errorResult
              ("Error geocoding " +:+ str E city +:+ ": " +:+ message))).

(** [cityPatterns]: [/weather in (\w+)/i], [/forecast for (\w+)/i],
    [/(\w+) weather/i], [/(\w+) forecast/i]. *)
Definition cityPatterns : list (string -> option string) := [
  Regex.matchAfter "weather in ";
  Regex.matchAfter "forecast for ";
  Regex.matchBefore " weather";
  Regex.matchBefore " forecast"
].

(** The loop over [cityPatterns]: the group of the first pattern that
    matches. *)
Fixpoint firstMatch (patterns : list (string -> option string)) (question : string)
    : option string :=
  match patterns with
  | [] => None
  | pattern :: rest =>
      match pattern question with
      | Some group => Some group
      | None => firstMatch rest question
      end
  end.

(** [/forecast|week|days|this week|next week/i.test(question)]. *)
Definition isForecastRequest (question : string) : bool :=
  Js.someIncludes ["forecast"; "week"; "days"; "this week"; "next week"]
    (Js.toLowerCase question).

(** [let targetCity = city; if (!targetCity) { ... }]. *)
Definition targetCity (question : string) (city : Js.value) : Js.value :=
  if Js.truthy city then city
  else match firstMatch cityPatterns question with
       | Some group => Js.Str group
       | None => city
       end.

(** [handleWeatherQuestion(question, city = null)]; [question] is a
    string, as the input schema of the tool requires. *)
Definition handleWeatherQuestion (E : Outside) (claudeService : bool)
    (question : string) (city : Js.value) : M World WeatherMCPServer.ToolResult :=
  let city := Js.orDefault Js.Null city in
  let wantsFahrenheit := RealMCPWeatherServer.detectFahrenheitPreference (Some question) in
  let targetCity := targetCity question city in
  if Js.truthy targetCity && wantsFahrenheit then
    if isForecastRequest question
    then RealMCPWeatherServer.handleGetForecast E claudeService targetCity (Js.Int 7) true
    else RealMCPWeatherServer.handleGetWeather E claudeService targetCity true
  else if Js.truthy targetCity && negb wantsFahrenheit then
    if isForecastRequest question
    then RealMCPWeatherServer.handleGetForecast E claudeService targetCity (Js.Int 7) false
    else RealMCPWeatherServer.handleGetWeather E claudeService targetCity false
  else if negb claudeService then
    ret (RealMCPWeatherServer.textResult WeatherMCPServer.apology)
  else
    let* weatherData :=
      if Js.truthy targetCity then
        tryCatch
          (let* result :=
             RealMCPWeatherServer.callGetWeatherForChat E targetCity false wantsFahrenheit in
           match result with
           | WeatherService.ChatOk reply => ret (Some (WeatherService.weatherData reply))
           | WeatherService.ChatError _ => ret None
           end)
          (fun _ => ret None)
      else ret None in
    tryCatch
      (let* intelligentResponse :=
         ClaudeService.answerWeatherQuestion E (Js.Str question) weatherData targetCity in
       ret (RealMCPWeatherServer.textResult intelligentResponse))
      (fun _ => ret (WeatherMCPServer.errorResult WeatherMCPServer.trouble)).

End SdkHandlers.

(** ** The registered callbacks of the SDK-registered server *)

Module SdkTools.

(** The seven tools of [setupTools], each with the arguments its callback
    destructures. *)
Inductive ToolCall : Type :=
| CallGetWeather (city : Js.value)
| CallGetForecast (city days : Js.value)
| CallGetWeatherByCoords (latitude longitude days : Js.value)
| CallGeocodeCity (city count : Js.value)
| CallAskWeatherQuestion (question : string) (city : Js.value)
| CallGetWeatherFahrenheit (city : Js.value)
| CallGetForecastFahrenheit (city days : Js.value).

(** The callback registered for each tool. *)
Definition invoke (E : Outside) (claudeService : bool) (call : ToolCall)
    : M World WeatherMCPServer.ToolResult :=
  match call with
  | CallGetWeather city => RealMCPWeatherServer.get_weather E claudeService city
  | CallGetForecast city days => RealMCPWeatherServer.get_forecast E claudeService city days
  | CallGetWeatherByCoords latitude longitude days =>
      SdkHandlers.handleGetWeatherByCoords E claudeService latitude longitude days
  | CallGeocodeCity city count => SdkHandlers.handleGeocodeCity E city count
  | CallAskWeatherQuestion question city =>
      SdkHandlers.handleWeatherQuestion E claudeService question city
  | CallGetWeatherFahrenheit city =>
      RealMCPWeatherServer.get_weather_fahrenheit E claudeService city
  | CallGetForecastFahrenheit city days =>
      RealMCPWeatherServer.get_forecast_fahrenheit E claudeService city days
  end.

End SdkTools.

(** ** Vocabulary of the further properties *)

(** The kind of value each category of key is meant to hold: the locations
    array under a "geocode_" key, the forecast object under a "forecast_"
    key. *)
Definition kindOk (key : string) (d : CacheData) : bool :=
  match d with
  | Locations _ => String.prefix "geocode_" key
  | Forecast _ => String.prefix "forecast_" key
  end.

Definition wellKinded (w : World) : Prop :=
  forall key cached, cache w !! key = Some cached -> kindOk key (data cached) = true.

(** [keeps c Q]: from a well-kinded cache, [c] leaves a well-kinded cache,
    and its value, when it completes normally, satisfies [Q]. *)
Definition keeps {A : Type} (c : M World A) (Q : A -> Prop) : Prop :=
  forall w, wellKinded w ->
    wellKinded (fst (c w)) /\ forall a, snd (c w) = Normal a -> Q a.

Definition isLocations (d : CacheData) : Prop := exists l, d = Locations l.
Definition isForecast (d : CacheData) : Prop := exists wd, d = Forecast wd.

(** The states a server process goes through: it starts with an empty
    cache; tools are called (through [callTool], or through the callbacks
    of the SDK-registered server), the clock moves, the cache is cleared. *)
Inductive reachableWorld (E : Outside) : World -> Prop :=
| reach_start t : reachableWorld E (mkWorld ∅ t [])
| reach_callTool claudeService toolName args w :
    reachableWorld E w ->
    reachableWorld E (fst (WeatherMCPServer.callTool E claudeService toolName args w))
| reach_invoke claudeService call w :
    reachableWorld E w ->
    reachableWorld E (fst (SdkTools.invoke E claudeService call w))
| reach_clock t w : reachableWorld E w -> reachableWorld E (atTime t w)
| reach_clearCache w :
    reachableWorld E w -> reachableWorld E (fst (WeatherService.clearCache w)).

(** [sends n c]: running [c] adds at most [n] requests to the trace, and
    removes none. *)
Definition sends {A : Type} (n : nat) (c : M World A) : Prop :=
  forall w, exists sent,
    trace (fst (c w)) = (sent ++ trace w)%list /\ (length sent <= n)%nat.

(** The text of a result: that of its first content block. *)
Definition textOf (r : WeatherMCPServer.ToolResult) : string :=
  match WeatherMCPServer.content r with
  | block :: _ => WeatherMCPServer.text block
  | [] => ""
  end.

(** A result that holds its text and nothing else: the envelope of the
    SDK-registered server. *)
Definition textOnly (r : WeatherMCPServer.ToolResult) : Prop :=
  oneBlock r
  /\ WeatherMCPServer.weatherData r = None
  /\ WeatherMCPServer.rtype r = None
  /\ WeatherMCPServer.aiAnalyzed r = None.

(** The methods [processRequest] has a case for. *)
Definition knownMethods : list Requests.Member :=
  map (fun m => Requests.Value (Js.Str m)) ["initialize"; "tools/list"; "tools/call"].

(** A [tools/call] request whose [params] cannot be destructured, or whose
    tool name has no string conversion. *)
Definition malformedCall (method : Requests.Member) (params : Requests.Params) : Prop :=
  method = Requests.Value (Js.Str "tools/call")
  /\ ((exists null, params = Requests.Missing null)
      \/ (exists args, params = Requests.Given (Requests.mkParams Requests.Unprintable args))).

(** The [TypeError] of reading [key] off [undefined]. *)
Definition undefinedProperty (key : string) : string :=
  "Cannot read properties of undefined (reading '" +:+ key +:+ "')".

(** The first property a tool declares. *)
Definition firstProperty (tool : WeatherMCPServer.Tool) : string :=
  match WeatherMCPServer.properties tool with
  | p :: _ => WeatherMCPServer.pname p
  | [] => ""
  end.

(** The provider never answers a [tools/call] request with HTTP 400. *)
Definition never400 (P : Gateway.Provider) : Prop :=
  forall h header name args message,
    P h (Gateway.ToolsCall header name args)
    <> Gateway.Rejected (Gateway.BadStatus 400 message).

Definition notResponding : string :=
  "MCP server is not responding. Make sure it's running on port 3001.".

(** The body of a handshake response is one the gateway accepts: an SSE
    message whose JSON has a truthy [result]. *)
Definition acceptedHandshake (data : Gateway.Body) : bool :=
  match data with
  | Gateway.Sse (Some (Normal jsonData)) =>
      match Gateway.result jsonData with
      | Some _ => true
      | None => false
      end
  | _ => false
  end.

(** [emits P c]: running [c] only adds requests to the trace, and each
    request it adds satisfies [P]. *)
Definition emits {A : Type} (P : Request -> Prop) (c : M World A) : Prop :=
  forall w, exists sent, trace (fst (c w)) = (sent ++ trace w)%list /\ Forall P sent.

(** A geocoding search asks for one result and a forecast request asks for
    [days] days. *)
Definition asksFor (days : Z) (req : Request) : Prop :=
  match req with
  | GeoSearch _ count => count = Js.Int 1
  | GetForecast _ _ d => d = Js.Int days
  | MessagesCreate _ => True
  end.

(** [s] is made of [\w] characters. *)
Fixpoint allWord (s : string) : bool :=
  match s with
  | EmptyString => true
  | String c s' => Regex.isWord c && allWord s'
  end.

(** [z] is the integer nearest to [q], a tie going upwards. *)
Definition nearest (q : Q) (z : Z) : Prop :=
  (inject_Z z - (1 # 2) <= q)%Q /\ (q < inject_Z z + (1 # 2))%Q.

(** The temperatures of a day of the result are the rounded temperatures
    of the day the provider sent, and its date is the provider's. *)
Definition roundedDay (raw : RawDaily.t) (day : Daily.t) : Prop :=
  Daily.date day = RawDaily.time raw
  /\ nearest (RawDaily.temperature_2m_max raw) (Daily.temperatureMax day)
  /\ nearest (RawDaily.temperature_2m_min raw) (Daily.temperatureMin day)
  /\ nearest (RawDaily.apparent_temperature_max raw) (Daily.apparentTemperatureMax day)
  /\ nearest (RawDaily.apparent_temperature_min raw) (Daily.apparentTemperatureMin day).

(** * Properties *)

(** ** Substrings *)

Lemma prefix_append (kw s : string) : String.prefix kw (kw +:+ s) = true.
Proof.
  induction kw as [|c kw IH]; simpl.
  - now destruct s.
  - destruct (ascii_dec c c) as [_|Hne]; [exact IH | now destruct Hne].
Qed.

Lemma includes_unfold (kw s : string) :
  Js.includes kw s
  = String.prefix kw s
    || match s with
       | EmptyString => false
       | String _ s' => Js.includes kw s'
       end.
Proof. now destruct s. Qed.

Lemma includes_here (kw post : string) : Js.includes kw (kw +:+ post) = true.
Proof. rewrite includes_unfold, prefix_append. reflexivity. Qed.

Lemma includes_later (kw pre s : string) :
  Js.includes kw s = true -> Js.includes kw (pre +:+ s) = true.
Proof.
  intros H. induction pre as [|c pre IH]; simpl; [exact H|].
  rewrite IH. apply orb_true_r.
Qed.

Lemma includes_end (kw pre : string) : Js.includes kw (pre +:+ kw) = true.
Proof.
  apply includes_later. rewrite includes_unfold.
  replace (String.prefix kw kw) with true; [reflexivity|].
  symmetry. induction kw as [|c kw IH]; simpl; [reflexivity|].
  destruct (ascii_dec c c) as [_|Hne]; [exact IH | now destruct Hne].
Qed.

(** ** Reasoning about computations: what holds of a normal completion *)

Section Post.
Context {S : Type}.

Lemma post_ret {A : Type} (a : A) (Q : A -> Prop) : Q a -> post (S:=S) (ret a) Q.
Proof. intros H s s' a' [= _ <-]. exact H. Qed.

Lemma post_throw {A : Type} (m : string) (Q : A -> Prop) : post (S:=S) (throw m) Q.
Proof. intros s s' a [=]. Qed.

Lemma post_lift {A : Type} (c : completion A) (Q : A -> Prop) :
  (forall a, c = Normal a -> Q a) -> post (S:=S) (lift c) Q.
Proof. intros H s s' a [= _ Hc]. now apply H. Qed.

Lemma post_bind {A B : Type} (c : M S A) (k : A -> M S B) (Q : B -> Prop) :
  (forall a, post (S:=S) (k a) Q) -> post (S:=S) (bind c k) Q.
Proof.
  intros H s s' b. unfold bind. destruct (c s) as [s1 [a|m]]; [|intros [=]].
  apply H.
Qed.

Lemma post_bind_with {A B : Type} (c : M S A) (k : A -> M S B)
    (P : A -> Prop) (Q : B -> Prop) :
  post (S:=S) c P -> (forall a, P a -> post (S:=S) (k a) Q) -> post (S:=S) (bind c k) Q.
Proof.
  intros Hc Hk s s' b. unfold bind. destruct (c s) as [s1 [a|m]] eqn:E; [|intros [=]].
  apply Hk. eapply Hc, E.
Qed.

Lemma post_tryCatch {A : Type} (body : M S A) (h : string -> M S A) (Q : A -> Prop) :
  post (S:=S) body Q -> (forall m, post (S:=S) (h m) Q) -> post (S:=S) (tryCatch body h) Q.
Proof.
  intros Hb Hh s s' a. unfold tryCatch.
  destruct (body s) as [s1 [a1|m]] eqn:E.
  - intros [= <- <-]. eapply Hb, E.
  - apply Hh.
Qed.

End Post.

(** ** The dispatcher *)

Ltac post_step :=
  first
    [ apply post_ret
    | apply post_throw
    | apply post_bind; intros ?
    | apply post_tryCatch; [|intros ?] ].

Lemma handleGetWeather_oneBlock E claude city :
  post (WeatherMCPServer.handleGetWeather E claude city) oneBlock.
Proof.
  unfold WeatherMCPServer.handleGetWeather.
  post_step. destruct a; [post_step|]. post_step. post_step. now eexists.
Qed.

Lemma handleGetForecast_oneBlock E claude city days :
  post (WeatherMCPServer.handleGetForecast E claude city days) oneBlock.
Proof.
  unfold WeatherMCPServer.handleGetForecast.
  post_step. destruct a; [post_step|]. post_step. post_step. now eexists.
Qed.

Lemma handleGetWeatherByCoords_oneBlock E claude latitude longitude days :
  post (WeatherMCPServer.handleGetWeatherByCoords E claude latitude longitude days) oneBlock.
Proof.
  unfold WeatherMCPServer.handleGetWeatherByCoords.
  do 5 post_step. destruct a2; post_step. now eexists.
Qed.

Lemma handleGeocodeCity_oneBlock E city count :
  post (WeatherMCPServer.handleGeocodeCity E city count) oneBlock.
Proof.
  unfold WeatherMCPServer.handleGeocodeCity.
  post_step. destruct a; [|post_step]. post_step. post_step. now eexists.
Qed.

Lemma handleWeatherQuestion_oneBlock E claude question city :
  post (WeatherMCPServer.handleWeatherQuestion E claude question city) oneBlock.
Proof.
  unfold WeatherMCPServer.handleWeatherQuestion.
  destruct claude; simpl.
  - post_step. post_step.
    + post_step. post_step. now eexists.
    + post_step. now eexists.
  - post_step. now eexists.
Qed.

Lemma dispatch_oneBlock E claude toolName args :
  post (WeatherMCPServer.dispatch E claude toolName args) oneBlock.
Proof.
  unfold WeatherMCPServer.dispatch.
  repeat match goal with
         | |- post (if ?b then _ else _) _ => destruct b
         end;
    repeat match goal with
           | |- post (bind (lift _) _) _ => apply post_bind; intros ?
           end;
    auto using handleGetWeather_oneBlock, handleGetForecast_oneBlock,
      handleGetWeatherByCoords_oneBlock, handleGeocodeCity_oneBlock,
      handleWeatherQuestion_oneBlock.
  apply post_throw.
Qed.

(** Every normal completion of [callTool] carries exactly one text block,
    and [callTool] has no other completion. *)
Lemma callTool_returns E claude toolName args w :
  exists w' r,
    WeatherMCPServer.callTool E claude toolName args w = (w', Normal r) /\ oneBlock r.
Proof.
  unfold WeatherMCPServer.callTool, tryCatch.
  destruct (WeatherMCPServer.dispatch E claude toolName args w) as [w' [r|m]] eqn:Hd.
  - exists w', r. split; [reflexivity|]. eapply dispatch_oneBlock, Hd.
  - eexists _, _. split; [reflexivity|]. now eexists.
Qed.

(** C2. For every tool name (registered or not) and every argument value,
    [callTool] completes normally with a result; and when the handler it
    dispatches to throws with some reason, the result is error-shaped
    ([isError: true]) and its single text block contains that reason. *)
Theorem c2_callTool_never_throws :
  forall E claude toolName args w,
  exists w' r,
    WeatherMCPServer.callTool E claude toolName args w = (w', Normal r)
    /\ (forall reason,
          snd (WeatherMCPServer.dispatch E claude toolName args w) = Throw reason ->
          WeatherMCPServer.isError r = Some true
          /\ exists text,
               WeatherMCPServer.content r = [WeatherMCPServer.textBlock text]
               /\ Js.includes reason text = true).
Proof.
  intros E claude toolName args w.
  unfold WeatherMCPServer.callTool, tryCatch.
  destruct (WeatherMCPServer.dispatch E claude toolName args w) as [w' [r|m]] eqn:Hd.
  - exists w', r. split; [reflexivity|]. intros reason [=].
  - eexists _, _. split; [reflexivity|].
    intros reason [= ->]. split; [reflexivity|].
    eexists. split; [reflexivity|]. do 2 apply includes_later. apply includes_end.
Qed.

Lemma c2_witness :
  exists w' r,
    WeatherMCPServer.callTool StandIn.claudeDown false "get_weather" StandIn.noArgs StandIn.fresh
    = (w', Normal r)
    /\ WeatherMCPServer.isError r = Some true
    /\ exists text,
         WeatherMCPServer.content r = [WeatherMCPServer.textBlock text]
         /\ Js.includes "Failed to geocode undefined: Request failed with status code 400" text
            = true.
Proof.
  destruct (c2_callTool_never_throws StandIn.claudeDown false "get_weather"
              StandIn.noArgs StandIn.fresh) as (w' & r & Hc & Hr).
  exists w', r. split; [exact Hc|]. apply Hr. vm_compute. reflexivity.
Defined.

(** A name outside the registry matches no [case] of the [switch]. *)
Lemma dispatch_unknown E claude toolName args :
  ~ In toolName WeatherMCPServer.toolNames ->
  WeatherMCPServer.dispatch E claude toolName args = throw ("Unknown tool: " +:+ toolName).
Proof.
  intros Hout. unfold WeatherMCPServer.dispatch.
  repeat match goal with
         | |- (if String.eqb toolName ?n then _ else _) = _ =>
             destruct (String.eqb_spec toolName n) as [->|_];
             [exfalso; apply Hout; simpl; tauto|]
         end.
  reflexivity.
Qed.

(** C4. For every tool name outside the registry, [callTool] completes
    normally, leaves the process as it was (no handler runs, no provider is
    contacted), and returns an error-shaped result whose text block reads
    "Error calling tool <name>: Unknown tool: <name>": it mentions the name
    and the error kind. *)
Theorem c4_unknown_tool :
  forall E claude toolName args w,
    ~ In toolName WeatherMCPServer.toolNames ->
    exists r text,
      WeatherMCPServer.callTool E claude toolName args w = (w, Normal r)
      /\ WeatherMCPServer.isError r = Some true
      /\ WeatherMCPServer.content r = [WeatherMCPServer.textBlock text]
      /\ text = "Error calling tool " +:+ toolName +:+ ": Unknown tool: " +:+ toolName
      /\ Js.includes toolName text = true
      /\ Js.includes ("Unknown tool: " +:+ toolName) text = true.
Proof.
  intros E claude toolName args w Hout.
  unfold WeatherMCPServer.callTool, tryCatch.
  rewrite (dispatch_unknown E claude toolName args Hout). simpl.
  eexists _, _. repeat split.
  - apply includes_later, includes_here.
  - do 2 apply includes_later. apply includes_end with (pre := ": ").
Qed.

Lemma c4_witness :
  exists r text,
    WeatherMCPServer.callTool StandIn.claudeDown false "nonexistent_tool_xyz"
      StandIn.noArgs StandIn.fresh = (StandIn.fresh, Normal r)
    /\ WeatherMCPServer.isError r = Some true
    /\ WeatherMCPServer.content r = [WeatherMCPServer.textBlock text]
    /\ text = "Error calling tool nonexistent_tool_xyz: Unknown tool: nonexistent_tool_xyz"
    /\ Js.includes "nonexistent_tool_xyz" text = true
    /\ Js.includes "Unknown tool: nonexistent_tool_xyz" text = true.
Proof.
  apply (c4_unknown_tool StandIn.claudeDown false "nonexistent_tool_xyz"
           StandIn.noArgs StandIn.fresh).
  vm_compute. intuition discriminate.
Defined.

(** C9. On every path of [callTool], for every tool name and every argument
    value, the returned result has a [content] array holding one text
    block, so at least one. *)
Theorem c9_content_always_present :
  forall E claude toolName args w,
  exists w' r,
    WeatherMCPServer.callTool E claude toolName args w = (w', Normal r)
    /\ (1 <= length (WeatherMCPServer.content r))%nat
    /\ exists text, WeatherMCPServer.content r = [WeatherMCPServer.textBlock text].
Proof.
  intros E claude toolName args w.
  destruct (callTool_returns E claude toolName args w) as (w' & r & Hc & text & Hr).
  exists w', r. split; [exact Hc|]. rewrite Hr. split; [simpl; lia|]. now exists text.
Qed.

(** C10. With [this.claudeService] null, every [ask_weather_question] call
    returns the fixed apology as its one text block, contacts nobody, and
    sets no [isError]; and an answered question (service configured,
    [aiAnalyzed: true]) has no [isError] either, so the flag tells the two
    apart in neither direction. *)
Theorem c10_unavailable_looks_like_success :
  forall E args w,
    (exists r,
       WeatherMCPServer.callTool E false "ask_weather_question" (Some args) w = (w, Normal r)
       /\ WeatherMCPServer.content r = [WeatherMCPServer.textBlock WeatherMCPServer.apology]
       /\ WeatherMCPServer.isError r = None
       /\ WeatherMCPServer.failed r = false)
    /\ (forall w' r,
          WeatherMCPServer.callTool E true "ask_weather_question" (Some args) w = (w', Normal r) ->
          WeatherMCPServer.aiAnalyzed r = Some true ->
          WeatherMCPServer.isError r = None /\ WeatherMCPServer.failed r = false).
Proof.
  intros E args w. split.
  - eexists. repeat split.
  - intros w' r H. revert w w' r H.
    change (post (WeatherMCPServer.callTool E true "ask_weather_question" (Some args))
              (fun r => WeatherMCPServer.aiAnalyzed r = Some true ->
                        WeatherMCPServer.isError r = None /\ WeatherMCPServer.failed r = false)).
    unfold WeatherMCPServer.callTool, WeatherMCPServer.dispatch. simpl.
    apply post_tryCatch; [|intros m; apply post_ret; intros [=]].
    do 2 (apply post_bind; intros ?).
    unfold WeatherMCPServer.handleWeatherQuestion. simpl.
    apply post_bind; intros wd.
    apply post_tryCatch; [|intros m; apply post_ret; intros [=]].
    apply post_bind; intros t. apply post_ret. intros _. split; reflexivity.
Qed.

Lemma c10_witness :
  exists w' r,
    WeatherMCPServer.callTool StandIn.claudeUp true "ask_weather_question"
      (Some {[ "question" := Js.Str "Should I bring an umbrella?" ]}) StandIn.fresh
    = (w', Normal r)
    /\ WeatherMCPServer.aiAnalyzed r = Some true
    /\ WeatherMCPServer.isError r = None /\ WeatherMCPServer.failed r = false.
Proof.
  eexists _, _. split; [vm_compute; reflexivity|]. split; [reflexivity|].
  eapply (proj2 (c10_unavailable_looks_like_success StandIn.claudeUp
                   {[ "question" := Js.Str "Should I bring an umbrella?" ]} StandIn.fresh)).
  - vm_compute. reflexivity.
  - reflexivity.
Defined.

(** ** Requests only accumulate *)

Lemma grows_ret {A : Type} (a : A) : grows (ret a).
Proof. intros w. now exists []. Qed.

Lemma grows_throw {A : Type} (m : string) : grows (throw (A:=A) m).
Proof. intros w. now exists []. Qed.

Lemma grows_lift {A : Type} (c : completion A) : grows (lift c).
Proof. intros w. now exists []. Qed.

Lemma grows_gets {A : Type} (f : World -> A) : grows (gets f).
Proof. intros w. now exists []. Qed.

Lemma grows_withCache f : grows (modify (withCache f)).
Proof. intros w. now exists []. Qed.

Lemma grows_request {A : Type} req (answer : list Request -> Z * (string + A)) :
  grows (request req answer).
Proof.
  intros w. exists [req]. unfold request.
  destruct (answer (trace w)) as [elapsed [m|b]]; reflexivity.
Qed.

(** After [c], the continuation only adds to what [c] left. *)
Lemma bind_grows_from {A B : Type} (c : M World A) (k : A -> M World B) w :
  (forall a, grows (k a)) ->
  exists sent, trace (fst (bind c k w)) = (sent ++ trace (fst (c w)))%list.
Proof.
  intros Hk. unfold bind. destruct (c w) as [w1 [a|m]]; simpl.
  - apply Hk.
  - now exists [].
Qed.

Lemma tryCatch_grows_from {A : Type} (body : M World A) (h : string -> M World A) w :
  (forall m, grows (h m)) ->
  exists sent, trace (fst (tryCatch body h w)) = (sent ++ trace (fst (body w)))%list.
Proof.
  intros Hh. unfold tryCatch. destruct (body w) as [w1 [a|m]]; simpl.
  - now exists [].
  - apply Hh.
Qed.

Lemma grows_bind {A B : Type} (c : M World A) (k : A -> M World B) :
  grows c -> (forall a, grows (k a)) -> grows (bind c k).
Proof.
  intros Hc Hk w.
  destruct (bind_grows_from c k w Hk) as [s2 H2], (Hc w) as [s1 H1].
  exists (s2 ++ s1)%list. rewrite H2, H1. apply app_assoc.
Qed.

Lemma grows_tryCatch {A : Type} (body : M World A) (h : string -> M World A) :
  grows body -> (forall m, grows (h m)) -> grows (tryCatch body h).
Proof.
  intros Hb Hh w.
  destruct (tryCatch_grows_from body h w Hh) as [s2 H2], (Hb w) as [s1 H1].
  exists (s2 ++ s1)%list. rewrite H2, H1. apply app_assoc.
Qed.

Ltac grows_step :=
  first
    [ apply grows_ret
    | apply grows_throw
    | apply grows_lift
    | apply grows_gets
    | apply grows_withCache
    | apply grows_request
    | apply grows_bind; [|intros ?]
    | apply grows_tryCatch; [|intros ?] ].

Lemma grows_cacheSet key d : grows (WeatherService.cacheSet key d).
Proof. unfold WeatherService.cacheSet, dateNow. repeat grows_step. Qed.

Lemma grows_assignLocation key l d : grows (WeatherService.assignLocation key l d).
Proof. unfold WeatherService.assignLocation. repeat grows_step. Qed.

Lemma grows_getWeatherForecast E latitude longitude days :
  grows (WeatherService.getWeatherForecast E latitude longitude days).
Proof.
  unfold WeatherService.getWeatherForecast, dateNow. grows_step; [grows_step|].
  destruct a; repeat (grows_step || apply grows_cacheSet).
Qed.

Lemma grows_analyzeCurrentWeather E w city :
  grows (ClaudeService.analyzeCurrentWeather E w city).
Proof.
  unfold ClaudeService.analyzeCurrentWeather, ClaudeService.complete. repeat grows_step.
Qed.

(** A lookup that finds no fresh entry sends the geocoding search, stores
    what came back under the key, stamped with the time of arrival, and
    returns it; a failed search is rethrown with the city in front. *)
Lemma geocodeCity_miss_eq E city count w :
  let count' := Js.orDefault (Js.Int 1) count in
  let key := WeatherService.geocodeKey E city count' in
  WeatherService.cacheGet (WeatherService.cacheTimeout * 6) key w = None ->
  WeatherService.geocodeCity E city count w
  = match geo_search E (trace w) city count' with
    | (elapsed, inl reason) =>
        (mkWorld (cache w) (now w + elapsed) (GeoSearch city count' :: trace w),
         Throw ("Failed to geocode " +:+ str E city +:+ ": " +:+ reason))
    | (elapsed, inr results) =>
        (mkWorld (<[key := mkEntry (Locations (default [] results)) (now w + elapsed)]> (cache w))
           (now w + elapsed) (GeoSearch city count' :: trace w),
         Normal (Locations (default [] results)))
    end.
Proof.
  intros count' key Hmiss. unfold WeatherService.geocodeCity, bind, gets.
  fold count'. fold key. rewrite Hmiss.
  unfold tryCatch, bind, request.
  destruct (geo_search E (trace w) city count') as [elapsed [m|results]]; reflexivity.
Qed.

Lemma geocodeCity_miss E city count w :
  WeatherService.cacheGet (WeatherService.cacheTimeout * 6)
    (WeatherService.geocodeKey E city (Js.orDefault (Js.Int 1) count)) w = None ->
  trace (fst (WeatherService.geocodeCity E city count w))
  = GeoSearch city (Js.orDefault (Js.Int 1) count) :: trace w.
Proof.
  intros Hmiss. rewrite (geocodeCity_miss_eq E city count w Hmiss).
  destruct (geo_search E (trace w) city (Js.orDefault (Js.Int 1) count))
    as [elapsed [m|results]]; reflexivity.
Qed.

Lemma dispatch_get_weather_noArgs E claude :
  WeatherMCPServer.dispatch E claude "get_weather" StandIn.noArgs
  = WeatherMCPServer.handleGetWeather E claude Js.Undefined.
Proof. reflexivity. Qed.

(** Whatever [getWeatherForChat] does after the geocoding lookup, the
    requests of that lookup stay in the trace. *)
Lemma getWeatherForChat_keeps_geocoding E city includeForecast w :
  exists later,
    trace (fst (WeatherService.getWeatherForChat E city includeForecast w))
    = (later ++ trace (fst (WeatherService.geocodeCity E city (Js.Int 1) w)))%list.
Proof.
  unfold WeatherService.getWeatherForChat.
  match goal with
  | |- context [tryCatch ?b ?h w] =>
      destruct (tryCatch_grows_from b h w) as [s2 H2]; [intros m; grows_step|]
  end.
  rewrite H2.
  match goal with
  | |- context [bind ?c ?k w] => destruct (bind_grows_from c k w) as [s1 H1]
  end.
  - intros [[|location rest]|wd]; [grows_step| |grows_step].
    apply grows_bind; [apply grows_getWeatherForecast|intros d].
    apply grows_bind; [apply grows_assignLocation|intros d'].
    destruct includeForecast; repeat grows_step.
  - rewrite H1. exists (s2 ++ s1)%list. apply app_assoc.
Qed.

Lemma handleGetWeather_keeps_geocoding E claude city w :
  exists later,
    trace (fst (WeatherMCPServer.handleGetWeather E claude city w))
    = (later ++ trace (fst (WeatherService.geocodeCity E city (Js.Int 1) w)))%list.
Proof.
  destruct (getWeatherForChat_keeps_geocoding E city false w) as [s1 H1].
  unfold WeatherMCPServer.handleGetWeather.
  match goal with
  | |- context [bind ?c ?k w] => destruct (bind_grows_from c k w) as [s2 H2]
  end.
  - intros [m|reply]; [grows_step|]. cbv zeta.
    apply grows_bind; [|intros t; grows_step].
    destruct claude; [|grows_step].
    apply grows_tryCatch; [apply grows_analyzeCurrentWeather|intros m; grows_step].
  - rewrite H2, H1. exists (s2 ++ s1)%list. apply app_assoc.
Qed.

(** C3 (as the code has it). [callTool] validates nothing: with an empty
    argument mapping the handler runs with [city] undefined. Unless the
    cache holds a fresh entry under the key "geocode_undefined_1", the
    Weather Data Source is contacted, first of all with a geocoding search
    for an undefined name. When that search fails, or finds no location,
    the call returns an error-shaped result whose text gives the reason
    ("Failed to geocode undefined: <reason>", or that no location was found
    for "undefined"); the text comes from the lookup, not from a check of
    the parameters. *)
Theorem c3_missing_city_is_looked_up :
  forall E claude w,
    WeatherService.cacheGet (WeatherService.cacheTimeout * 6) "geocode_undefined_1" w = None ->
    let search := GeoSearch Js.Undefined (Js.Int 1) in
    let call := WeatherMCPServer.callTool E claude "get_weather" StandIn.noArgs in
    (exists later, trace (fst (call w)) = (later ++ search :: trace w)%list)
    /\ match geo_search E (trace w) Js.Undefined (Js.Int 1) with
       | (elapsed, inl reason) =>
           call w
           = (mkWorld (cache w) (now w + elapsed) (search :: trace w),
              Normal (WeatherMCPServer.errorResult
                        ("Error calling tool get_weather: Failed to geocode undefined: "
                         +:+ reason)))
       | (elapsed, inr results) =>
           match default [] results with
           | [] =>
               call w
               = (mkWorld
                    (<["geocode_undefined_1" := mkEntry (Locations []) (now w + elapsed)]>
                       (cache w))
                    (now w + elapsed) (search :: trace w),
                  Normal (WeatherMCPServer.errorResult
                            ("Error calling tool get_weather: "
                             +:+ WeatherService.notFound E Js.Undefined)))
           | _ :: _ => True
           end
       end.
Proof.
  intros E claude w Hmiss search call. split.
  - subst call. unfold WeatherMCPServer.callTool.
    match goal with
    | |- context [tryCatch ?b ?h w] =>
        destruct (tryCatch_grows_from b h w) as [s2 H2]; [intros m; grows_step|]
    end.
    rewrite H2, dispatch_get_weather_noArgs.
    destruct (handleGetWeather_keeps_geocoding E claude Js.Undefined w) as [s1 H1].
    rewrite H1, (geocodeCity_miss E Js.Undefined (Js.Int 1) w Hmiss).
    exists (s2 ++ s1)%list. apply app_assoc.
  - subst call. unfold WeatherMCPServer.callTool. rewrite dispatch_get_weather_noArgs.
    unfold WeatherMCPServer.handleGetWeather, WeatherService.getWeatherForChat.
    unfold tryCatch, bind.
    rewrite (geocodeCity_miss_eq E Js.Undefined (Js.Int 1) w Hmiss).
    simpl Js.orDefault.
    destruct (geo_search E (trace w) Js.Undefined (Js.Int 1)) as [elapsed [reason|results]].
    + reflexivity.
    + destruct (default [] results) eqn:Hres; [reflexivity|exact I].
Qed.

Lemma c3_witness :
  (exists later,
     trace (fst (WeatherMCPServer.callTool StandIn.claudeDown false "get_weather"
                   StandIn.noArgs StandIn.fresh))
     = (later ++ [GeoSearch Js.Undefined (Js.Int 1)])%list)
  /\ WeatherMCPServer.callTool StandIn.claudeDown false "get_weather" StandIn.noArgs StandIn.fresh
     = (mkWorld ∅ 1100 [GeoSearch Js.Undefined (Js.Int 1)],
        Normal (WeatherMCPServer.errorResult
                  "Error calling tool get_weather: Failed to geocode undefined: Request failed with status code 400")).
Proof.
  exact (c3_missing_city_is_looked_up StandIn.claudeDown false StandIn.fresh eq_refl).
Defined.

(** C3 (as the specification has it) fails. On a fresh process whose
    geocoder rejects a search without a name, [get_weather] called with an
    empty argument mapping does send a request to the Weather Data Source,
    and the text of the error it returns does not name [city]. *)
Lemma c3_counterexample :
  let out := WeatherMCPServer.callTool StandIn.claudeDown false "get_weather"
               StandIn.noArgs StandIn.fresh in
  trace (fst out) = [GeoSearch Js.Undefined (Js.Int 1)]
  /\ (exists r text,
        snd out = Normal r
        /\ WeatherMCPServer.content r = [WeatherMCPServer.textBlock text]
        /\ Js.includes "city" text = false)
  /\ ~ missingCityRejected StandIn.claudeDown false StandIn.fresh.
Proof.
  split; [reflexivity|]. split.
  - eexists _, _. split; [reflexivity|]. split; [reflexivity|]. vm_compute. reflexivity.
  - intros (w' & r & text & Hcall & _ & _ & _ & Htrace).
    vm_compute in Hcall. injection Hcall as <- _. discriminate Htrace.
Qed.

(** ** The response cache *)

Lemma cacheGet_spec ttl key w v :
  WeatherService.cacheGet ttl key w = Some v
  <-> exists cached,
        cache w !! key = Some cached /\ data cached = v /\ now w - timestamp cached < ttl.
Proof.
  unfold WeatherService.cacheGet. split.
  - destruct (cache w !! key) as [cached|]; [|discriminate].
    destruct (Z.ltb_spec (now w - timestamp cached) ttl); [|discriminate].
    intros [= <-]. now exists cached.
  - intros (cached & -> & <- & Hfresh).
    destruct (Z.ltb_spec (now w - timestamp cached) ttl); [reflexivity|lia].
Qed.

Lemma cacheGet_stale ttl key w cached :
  cache w !! key = Some cached -> ttl <= now w - timestamp cached ->
  WeatherService.cacheGet ttl key w = None.
Proof.
  intros Hk Hold. unfold WeatherService.cacheGet. rewrite Hk.
  destruct (Z.ltb_spec (now w - timestamp cached) ttl); [lia|reflexivity].
Qed.

Lemma geocodeCity_hit E city count w v :
  WeatherService.cacheGet geocodeTTL
    (WeatherService.geocodeKey E city (Js.orDefault (Js.Int 1) count)) w = Some v ->
  WeatherService.geocodeCity E city count w = (w, Normal v).
Proof.
  intros Hhit. unfold WeatherService.geocodeCity, bind, gets.
  fold geocodeTTL. now rewrite Hhit.
Qed.

Lemma getWeatherForecast_hit E latitude longitude days w v :
  WeatherService.cacheGet weatherTTL
    (WeatherService.forecastKey E latitude longitude (Js.orDefault (Js.Int 7) days)) w = Some v ->
  WeatherService.getWeatherForecast E latitude longitude days w = (w, Normal v).
Proof.
  intros Hhit. unfold WeatherService.getWeatherForecast, bind, gets.
  fold weatherTTL. now rewrite Hhit.
Qed.

Lemma getWeatherForecast_miss_eq E latitude longitude days w :
  let days' := Js.orDefault (Js.Int 7) days in
  let key := WeatherService.forecastKey E latitude longitude days' in
  WeatherService.cacheGet weatherTTL key w = None ->
  WeatherService.getWeatherForecast E latitude longitude days w
  = match forecast E (trace w) latitude longitude days' with
    | (elapsed, inl reason) =>
        (mkWorld (cache w) (now w + elapsed) (GetForecast latitude longitude days' :: trace w),
         Throw ("Failed to get forecast for coordinates " +:+ str E latitude
                +:+ ", " +:+ str E longitude +:+ ": " +:+ reason))
    | (elapsed, inr body) =>
        let result := Forecast (WeatherService.parseForecast (now w + elapsed) body) in
        (mkWorld (<[key := mkEntry result (now w + elapsed)]> (cache w))
           (now w + elapsed) (GetForecast latitude longitude days' :: trace w),
         Normal result)
    end.
Proof.
  intros days' key Hmiss. unfold WeatherService.getWeatherForecast, bind, gets.
  fold days'. fold key. unfold weatherTTL in Hmiss. rewrite Hmiss.
  unfold tryCatch, bind, request.
  destruct (forecast E (trace w) latitude longitude days') as [elapsed [m|body]]; reflexivity.
Qed.

(** After a lookup that missed and succeeded, the value sits in the cache
    under its key, stamped with the time at which the lookup ended. *)
Lemma geocodeCity_stores E city count w w1 v :
  WeatherService.cacheGet geocodeTTL
    (WeatherService.geocodeKey E city (Js.orDefault (Js.Int 1) count)) w = None ->
  WeatherService.geocodeCity E city count w = (w1, Normal v) ->
  cache w1 !! WeatherService.geocodeKey E city (Js.orDefault (Js.Int 1) count)
  = Some (mkEntry v (now w1)).
Proof.
  intros Hmiss. rewrite (geocodeCity_miss_eq E city count w Hmiss).
  destruct (geo_search E (trace w) city (Js.orDefault (Js.Int 1) count))
    as [elapsed [m|results]]; intros [= <- <-]; simpl.
  apply lookup_insert_eq.
Qed.

Lemma getWeatherForecast_stores E latitude longitude days w w1 v :
  WeatherService.cacheGet weatherTTL
    (WeatherService.forecastKey E latitude longitude (Js.orDefault (Js.Int 7) days)) w = None ->
  WeatherService.getWeatherForecast E latitude longitude days w = (w1, Normal v) ->
  cache w1 !! WeatherService.forecastKey E latitude longitude (Js.orDefault (Js.Int 7) days)
  = Some (mkEntry v (now w1)).
Proof.
  intros Hmiss. rewrite (getWeatherForecast_miss_eq E latitude longitude days w Hmiss).
  destruct (forecast E (trace w) latitude longitude (Js.orDefault (Js.Int 7) days))
    as [elapsed [m|body]]; intros [= <- <-]; simpl.
  apply lookup_insert_eq.
Qed.

Lemma ttl_values :
  weatherTTL = 600000 /\ geocodeTTL = 6 * weatherTTL /\ weatherTTL < geocodeTTL.
Proof. repeat split. Qed.

(** C5. (1) The cache check answers a value exactly when the key holds an
    entry whose age [now - timestamp] is strictly below the TTL. (2, 3) A
    geocoding lookup, and a forecast lookup, return the cached value and
    leave the process untouched (no request) when the check answers, and
    send their request when it does not, each with the TTL of its category.
    (4, 5) After a lookup that missed and succeeded at time [now w1], the
    same lookup at time [t] returns the same value without a request when
    [t - now w1] is below the TTL, and sends the request again otherwise.
    (6) The weather TTL is ten minutes and the geocoding TTL is six times
    that. *)
Theorem c5_cache_ttl :
  (forall ttl key w v,
     WeatherService.cacheGet ttl key w = Some v
     <-> exists cached,
           cache w !! key = Some cached /\ data cached = v
           /\ now w - timestamp cached < ttl)
  /\ (forall E city count w,
        let count' := Js.orDefault (Js.Int 1) count in
        match WeatherService.cacheGet geocodeTTL (WeatherService.geocodeKey E city count') w with
        | Some v => WeatherService.geocodeCity E city count w = (w, Normal v)
        | None =>
            trace (fst (WeatherService.geocodeCity E city count w))
            = GeoSearch city count' :: trace w
        end)
  /\ (forall E latitude longitude days w,
        let days' := Js.orDefault (Js.Int 7) days in
        match WeatherService.cacheGet weatherTTL
                (WeatherService.forecastKey E latitude longitude days') w with
        | Some v => WeatherService.getWeatherForecast E latitude longitude days w = (w, Normal v)
        | None =>
            trace (fst (WeatherService.getWeatherForecast E latitude longitude days w))
            = GetForecast latitude longitude days' :: trace w
        end)
  /\ (forall E city count w w1 v t,
        let count' := Js.orDefault (Js.Int 1) count in
        WeatherService.cacheGet geocodeTTL (WeatherService.geocodeKey E city count') w = None ->
        WeatherService.geocodeCity E city count w = (w1, Normal v) ->
        if (t - now w1 <? geocodeTTL)%Z
        then WeatherService.geocodeCity E city count (atTime t w1) = (atTime t w1, Normal v)
        else trace (fst (WeatherService.geocodeCity E city count (atTime t w1)))
             = GeoSearch city count' :: trace w1)
  /\ (forall E latitude longitude days w w1 v t,
        let days' := Js.orDefault (Js.Int 7) days in
        WeatherService.cacheGet weatherTTL
          (WeatherService.forecastKey E latitude longitude days') w = None ->
        WeatherService.getWeatherForecast E latitude longitude days w = (w1, Normal v) ->
        if (t - now w1 <? weatherTTL)%Z
        then WeatherService.getWeatherForecast E latitude longitude days (atTime t w1)
             = (atTime t w1, Normal v)
        else trace (fst (WeatherService.getWeatherForecast E latitude longitude days (atTime t w1)))
             = GetForecast latitude longitude days' :: trace w1)
  /\ weatherTTL = 600000 /\ geocodeTTL = 6 * weatherTTL /\ weatherTTL < geocodeTTL.
Proof.
  split; [exact cacheGet_spec|].
  split.
  { intros E city count w count'.
    destruct (WeatherService.cacheGet geocodeTTL _ w) as [v|] eqn:Hget.
    - now apply geocodeCity_hit.
    - now apply geocodeCity_miss. }
  split.
  { intros E latitude longitude days w days'.
    destruct (WeatherService.cacheGet weatherTTL _ w) as [v|] eqn:Hget.
    - now apply getWeatherForecast_hit.
    - rewrite (getWeatherForecast_miss_eq E latitude longitude days w Hget).
      destruct (forecast E (trace w) latitude longitude _) as [elapsed [m|body]]; reflexivity. }
  split.
  { intros E city count w w1 v t count' Hmiss Hrun.
    pose proof (geocodeCity_stores E city count w w1 v Hmiss Hrun) as Hstored.
    destruct (Z.ltb_spec (t - now w1) geocodeTTL) as [Hin|Hout].
    - apply geocodeCity_hit, cacheGet_spec. now exists (mkEntry v (now w1)).
    - change (trace w1) with (trace (atTime t w1)).
      apply geocodeCity_miss. now apply (cacheGet_stale _ _ _ (mkEntry v (now w1))). }
  split.
  { intros E latitude longitude days w w1 v t days' Hmiss Hrun.
    pose proof (getWeatherForecast_stores E latitude longitude days w w1 v Hmiss Hrun)
      as Hstored.
    destruct (Z.ltb_spec (t - now w1) weatherTTL) as [Hin|Hout].
    - apply getWeatherForecast_hit, cacheGet_spec. now exists (mkEntry v (now w1)).
    - assert (Hstale : WeatherService.cacheGet weatherTTL
                         (WeatherService.forecastKey E latitude longitude days') (atTime t w1)
                       = None)
        by now apply (cacheGet_stale _ _ _ (mkEntry v (now w1))).
      rewrite (getWeatherForecast_miss_eq E latitude longitude days _ Hstale).
      destruct (forecast E _ latitude longitude _) as [elapsed [m|body]]; reflexivity. }
  exact ttl_values.
Qed.

(** A run of C5 (4): Paris is looked up on a fresh process at 1000 ms; the
    answer arrives, and is stamped, at 1100 ms. One millisecond before the
    hour is over the lookup is answered from the cache; at the hour the
    geocoder is asked again. *)
Lemma c5_witness :
  let lookup := WeatherService.geocodeCity StandIn.claudeDown (Js.Str "Paris") Js.Undefined in
  let w1 := fst (lookup StandIn.fresh) in
  now w1 = 1100
  /\ lookup (atTime (1100 + 3599999) w1)
     = (atTime (1100 + 3599999) w1, Normal (Locations [StandIn.paris]))
  /\ trace (fst (lookup (atTime (1100 + 3600000) w1)))
     = [GeoSearch (Js.Str "Paris") (Js.Int 1); GeoSearch (Js.Str "Paris") (Js.Int 1)].
Proof.
  destruct c5_cache_ttl as (_ & _ & _ & Hrepeat & _).
  split; [reflexivity|]. split.
  - exact (Hrepeat StandIn.claudeDown (Js.Str "Paris") Js.Undefined StandIn.fresh _ _
             (1100 + 3599999) eq_refl eq_refl).
  - exact (Hrepeat StandIn.claudeDown (Js.Str "Paris") Js.Undefined StandIn.fresh _ _
             (1100 + 3600000) eq_refl eq_refl).
Defined.

(** Two [get_weather] calls for Paris, the second five minutes after the
    first: the first sends the geocoding search and the forecast request,
    the second sends nothing and returns the same result. *)
Example get_weather_twice :
  let call := WeatherMCPServer.callTool StandIn.claudeDown false "get_weather"
                (StandIn.cityArgs "Paris") in
  let first := call StandIn.fresh in
  let second := call (atTime (now (fst first) + 300000) (fst first)) in
  length (trace (fst first)) = 2%nat
  /\ trace (fst second) = trace (fst first)
  /\ snd second = snd first.
Proof. vm_compute. repeat split. Qed.

(** ** Rendering without the Text-Completion Service *)

Lemma formatCurrent_nonempty E d reply :
  WeatherService.formatCurrentWeatherForChat E d = Normal reply ->
  WeatherService.response reply <> "".
Proof.
  unfold WeatherService.formatCurrentWeatherForChat.
  destruct d as [l|w]; [discriminate|].
  destruct (WeatherData.location w) as [location|]; [|discriminate].
  destruct (fixed E "location.latitude" 2 (Location.latitude location)) as [lat|]; [|discriminate].
  destruct (fixed E "location.longitude" 2 (Location.longitude location)) as [lon|]; [|discriminate].
  simpl. intros [= <-]. discriminate.
Qed.

Lemma formatForecast_nonempty E d reply :
  WeatherService.formatForecastForChat E d = Normal reply ->
  WeatherService.response reply <> "".
Proof.
  unfold WeatherService.formatForecastForChat.
  destruct d as [l|w]; [discriminate|].
  destruct (WeatherData.location w) as [location|]; [|discriminate].
  intros [= <-]. discriminate.
Qed.

Lemma getWeatherForChat_nonempty E city includeForecast :
  post (WeatherService.getWeatherForChat E city includeForecast)
    (fun r => forall reply, r = WeatherService.ChatOk reply ->
                            WeatherService.response reply <> "").
Proof.
  unfold WeatherService.getWeatherForChat.
  apply post_tryCatch; [|intros m; apply post_ret; discriminate].
  apply post_bind. intros [[|location rest]|wd];
    [apply post_ret; discriminate| |apply post_throw].
  cbv zeta. do 2 (apply post_bind; intros ?).
  apply post_bind_with with (P := fun reply => WeatherService.response reply <> "").
  - destruct includeForecast; apply post_lift; intros reply Hf.
    + eapply formatForecast_nonempty, Hf.
    + eapply formatCurrent_nonempty, Hf.
  - intros reply Hne. apply post_ret. now intros ? [= <-].
Qed.

Lemma complete_fails E prompt w :
  completionsFail E ->
  exists w' reason, ClaudeService.complete E prompt w = (w', Throw reason).
Proof.
  intros Hf. unfold ClaudeService.complete, request.
  destruct (Hf (trace w) prompt) as (elapsed & reason & ->). now eexists _, _.
Qed.

Lemma analyzeCurrentWeather_fails E wd city w :
  completionsFail E ->
  exists w',
    ClaudeService.analyzeCurrentWeather E wd city w
    = (w', Normal (ClaudeService.fallbackCurrentWeatherResponse E wd (str E city))).
Proof.
  intros Hf. unfold ClaudeService.analyzeCurrentWeather, tryCatch.
  destruct (complete_fails E (ClaudeService.currentPrompt E wd (str E city)) w Hf)
    as (w' & reason & ->).
  now exists w'.
Qed.

Lemma analyzeWeatherForecast_fails E wd city w :
  completionsFail E ->
  exists w',
    ClaudeService.analyzeWeatherForecast E wd city w
    = (w', ClaudeService.fallbackForecastResponse E wd (str E city)).
Proof.
  intros Hf. unfold ClaudeService.analyzeWeatherForecast, tryCatch.
  destruct (complete_fails E (ClaudeService.forecastPrompt E wd (str E city)) w Hf)
    as (w' & reason & ->).
  now exists w'.
Qed.

Lemma handleGetWeather_template E claude city w w1 reply :
  unavailable E claude ->
  WeatherService.getWeatherForChat E city false w = (w1, Normal (WeatherService.ChatOk reply)) ->
  exists w2,
    WeatherMCPServer.handleGetWeather E claude city w
    = (w2, Normal (WeatherMCPServer.weatherResult (currentTemplate E claude reply city)
                     (WeatherService.weatherData reply) (WeatherService.type reply) claude)).
Proof.
  intros Hun Hchat. unfold WeatherMCPServer.handleGetWeather, bind at 1. rewrite Hchat.
  cbv zeta. unfold bind. destruct claude; [|now eexists].
  destruct Hun as [[=]|Hf]. unfold tryCatch.
  destruct (analyzeCurrentWeather_fails E (WeatherService.weatherData reply) city w1 Hf)
    as (w' & ->).
  now eexists.
Qed.

Lemma handleGetForecast_template E claude city days w w1 reply :
  unavailable E claude ->
  WeatherService.getWeatherForChat E city true w = (w1, Normal (WeatherService.ChatOk reply)) ->
  exists w2,
    WeatherMCPServer.handleGetForecast E claude city days w
    = (w2, Normal (WeatherMCPServer.weatherResult (forecastTemplate E claude reply city)
                     (WeatherService.weatherData reply) (WeatherService.type reply) claude)).
Proof.
  intros Hun Hchat. unfold WeatherMCPServer.handleGetForecast, bind at 1. rewrite Hchat.
  cbv zeta. unfold bind. destruct claude; [|now eexists].
  destruct Hun as [[=]|Hf]. unfold tryCatch, forecastTemplate.
  destruct (analyzeWeatherForecast_fails E (WeatherService.weatherData reply) city w1 Hf)
    as (w' & ->).
  destruct (ClaudeService.fallbackForecastResponse _ _); now eexists.
Qed.

Lemma currentTemplate_nonempty E claude reply city :
  WeatherService.response reply <> "" -> currentTemplate E claude reply city <> "".
Proof. intros Hne. destruct claude; [discriminate|exact Hne]. Qed.

Lemma fallbackForecast_nonempty E wd place t :
  ClaudeService.fallbackForecastResponse E wd place = Normal t -> t <> "".
Proof.
  unfold ClaudeService.fallbackForecastResponse.
  destruct (WeatherData.daily wd !! 0%nat); [|discriminate]. intros [= <-]. discriminate.
Qed.

Lemma forecastTemplate_nonempty E claude reply city :
  WeatherService.response reply <> "" -> forecastTemplate E claude reply city <> "".
Proof.
  intros Hne. unfold forecastTemplate. destruct claude; [|exact Hne].
  destruct (ClaudeService.fallbackForecastResponse _ _) eqn:Hf; [|exact Hne].
  eapply fallbackForecast_nonempty, Hf.
Qed.

Lemma coordsFormatted_normal E days wd latitude longitude :
  exists reply,
    coordsFormatted E days (WeatherData.setLocation (mockLocation E latitude longitude) wd)
    = Normal reply
    /\ WeatherService.response reply <> "".
Proof.
  unfold coordsFormatted.
  destruct (Js.isNum 1 days); eexists; (split; [reflexivity|discriminate]).
Qed.

Lemma analyzeLocationWeather_fails E wd latitude longitude days w :
  completionsFail E ->
  days <> Js.Undefined ->
  let place := "coordinates " +:+ twoDecimals E latitude +:+ ", " +:+ twoDecimals E longitude in
  exists w',
    ClaudeService.analyzeLocationWeather E (Forecast wd) (Js.Num latitude) (Js.Num longitude)
      days w
    = (w', if Js.isNum 1 days
           then Normal (ClaudeService.fallbackCurrentWeatherResponse E wd place)
           else ClaudeService.fallbackForecastResponse E wd place).
Proof.
  intros Hf Hdays place. unfold ClaudeService.analyzeLocationWeather.
  replace (Js.orDefault (Js.Int 1) days) with days by now destruct days.
  unfold bind, lift.
  change (fixed E "latitude" 2 (Js.Num latitude)) with (Normal (twoDecimals E latitude)).
  change (fixed E "longitude" 2 (Js.Num longitude)) with (Normal (twoDecimals E longitude)).
  cbv iota beta. unfold tryCatch.
  match goal with
  | |- context [ClaudeService.complete E ?p w] =>
      destruct (complete_fails E p w Hf) as (w' & reason & ->)
  end.
  exists w'. now destruct (Js.isNum 1 days).
Qed.

Lemma handleGetWeatherByCoords_template E claude latitude longitude days w w1 wd :
  let days' := Js.orDefault (Js.Int 1) days in
  let wd' := WeatherData.setLocation (mockLocation E latitude longitude) wd in
  unavailable E claude ->
  WeatherService.getWeatherForecast E (Js.Num latitude) (Js.Num longitude) days' w
  = (w1, Normal (Forecast wd)) ->
  exists w2,
    WeatherMCPServer.handleGetWeatherByCoords E claude (Js.Num latitude) (Js.Num longitude) days w
    = (w2, Normal (WeatherMCPServer.weatherResult
                     (coordsTemplate E claude latitude longitude days' wd') wd'
                     (if Js.isNum 1 days' then "current" else "forecast") claude)).
Proof.
  intros days' wd' Hun Hfetch.
  assert (Hdays : days' <> Js.Undefined) by (subst days'; now destruct days).
  destruct (coordsFormatted_normal E days' wd latitude longitude) as (reply & Hfmt & _).
  fold wd' in Hfmt.
  unfold WeatherMCPServer.handleGetWeatherByCoords. fold days'.
  unfold bind at 1. rewrite Hfetch.
  unfold bind at 1 2, lift at 1 2.
  change (fixed E "latitude" 2 (Js.Num latitude)) with (Normal (twoDecimals E latitude)).
  change (fixed E "longitude" 2 (Js.Num longitude)) with (Normal (twoDecimals E longitude)).
  cbv iota beta. fold (mockLocation E latitude longitude).
  unfold bind at 1, WeatherService.assignLocation at 1, bind at 1, modify, ret at 1.
  cbv iota beta. fold wd'.
  unfold coordsTemplate. unfold coordsFormatted in *.
  destruct claude.
  - destruct Hun as [[=]|Hf]. unfold bind at 1, tryCatch at 1.
    match goal with
    | |- context [ClaudeService.analyzeLocationWeather E _ _ _ _ ?s] =>
        destruct (analyzeLocationWeather_fails E wd' latitude longitude days' s Hf Hdays)
          as (w' & ->)
    end.
    destruct (Js.isNum 1 days'); [now eexists|].
    destruct (ClaudeService.fallbackForecastResponse E wd' _); [now eexists|].
    rewrite Hfmt. now eexists.
  - unfold bind at 1. destruct (Js.isNum 1 days'); rewrite Hfmt; now eexists.
Qed.

Lemma answerWeatherQuestion_fails E question weatherData city w :
  completionsFail E ->
  exists w',
    ClaudeService.answerWeatherQuestion E question weatherData city w
    = (w', Normal "I'd be happy to help with weather questions! Could you specify a location so I can provide accurate information?").
Proof.
  intros Hf. unfold ClaudeService.answerWeatherQuestion, tryCatch.
  destruct (complete_fails E (ClaudeService.questionPrompt E question weatherData city) w Hf)
    as (w' & reason & ->).
  now exists w'.
Qed.

Lemma handleWeatherQuestion_template E claude question city w :
  unavailable E claude ->
  exists w2 r,
    WeatherMCPServer.handleWeatherQuestion E claude question city w = (w2, Normal r)
    /\ WeatherMCPServer.isError r = None
    /\ WeatherMCPServer.content r = [WeatherMCPServer.textBlock (questionTemplate claude)].
Proof.
  intros Hun. unfold WeatherMCPServer.handleWeatherQuestion.
  destruct claude; simpl; [|now eexists _, _].
  destruct Hun as [[=]|Hf].
  unfold bind at 1.
  match goal with
  | |- context [(if ?b then ?x else ?y) w] =>
      assert (Hctx : exists w1 wd, (if b then x else y) w = (w1, Normal wd))
  end.
  { destruct (Js.truthy _); [|now eexists _, _].
    unfold tryCatch at 1.
    match goal with
    | |- context [match ?body w with _ => _ end] => destruct (body w) as [w1 [a|m]]
    end; now eexists _, _. }
  destruct Hctx as (w1 & wd & ->).
  unfold tryCatch, bind.
  destruct (answerWeatherQuestion_fails E question wd (Js.orDefault Js.Null city) w1 Hf)
    as (w' & ->).
  now eexists _, _.
Qed.

(** The reply of [getWeatherForChat] is what the formatter of its kind
    makes of the weather data it carries. *)
Lemma formatCurrent_own E d reply :
  WeatherService.formatCurrentWeatherForChat E d = Normal reply ->
  WeatherService.formatCurrentWeatherForChat E (Forecast (WeatherService.weatherData reply))
  = Normal reply.
Proof.
  destruct d as [l|w]; [discriminate|]. intros Hf.
  assert (Hw : WeatherService.weatherData reply = w).
  { revert Hf. unfold WeatherService.formatCurrentWeatherForChat.
    destruct (WeatherData.location w) as [location|]; [|discriminate].
    destruct (fixed E "location.latitude" 2 (Location.latitude location)) as [lat|]; [|discriminate].
    destruct (fixed E "location.longitude" 2 (Location.longitude location)) as [lon|]; [|discriminate].
    now intros [= <-]. }
  now rewrite Hw.
Qed.

Lemma formatForecast_own E d reply :
  WeatherService.formatForecastForChat E d = Normal reply ->
  WeatherService.formatForecastForChat E (Forecast (WeatherService.weatherData reply))
  = Normal reply.
Proof.
  destruct d as [l|w]; [discriminate|]. intros Hf.
  assert (Hw : WeatherService.weatherData reply = w).
  { revert Hf. unfold WeatherService.formatForecastForChat.
    destruct (WeatherData.location w) as [location|]; [|discriminate].
    now intros [= <-]. }
  now rewrite Hw.
Qed.

Lemma getWeatherForChat_formatted E city (includeForecast : bool) :
  post (WeatherService.getWeatherForChat E city includeForecast)
    (fun r => forall reply,
       r = WeatherService.ChatOk reply ->
       (if includeForecast
        then WeatherService.formatForecastForChat E
               (Forecast (WeatherService.weatherData reply))
        else WeatherService.formatCurrentWeatherForChat E
               (Forecast (WeatherService.weatherData reply)))
       = Normal reply).
Proof.
  unfold WeatherService.getWeatherForChat.
  apply post_tryCatch; [|intros m; apply post_ret; discriminate].
  apply post_bind. intros [[|location rest]|wd];
    [apply post_ret; discriminate| |apply post_throw].
  cbv zeta. do 2 (apply post_bind; intros ?).
  apply post_bind_with
    with (P := fun reply =>
                 (if includeForecast
                  then WeatherService.formatForecastForChat E
                         (Forecast (WeatherService.weatherData reply))
                  else WeatherService.formatCurrentWeatherForChat E
                         (Forecast (WeatherService.weatherData reply)))
                 = Normal reply).
  - destruct includeForecast; apply post_lift; intros reply Hf.
    + eapply formatForecast_own, Hf.
    + eapply formatCurrent_own, Hf.
  - intros reply Hown. apply post_ret. now intros ? [= <-].
Qed.

(** C8. Let the Text-Completion Service be unavailable: not configured, or
    failing every attempt. Then each weather handler whose weather data
    was obtained ([getWeatherForChat], respectively [getWeatherForecast] on
    numeric coordinates, completed with data) makes [callTool] return a
    result without [isError], whose one text block is the template text,
    never the empty string, a function of the weather data and of the
    place alone: the text that the formatter of the weather service
    renders when the service is not configured, and the fallback text of
    [ClaudeService] when it is configured and fails (the formatter's text
    again when the forecast fallback finds no first day). The four texts
    are written out below as the source renders them.
    [ask_weather_question], which renders no weather data, answers one of
    its two fixed texts, again without [isError], when the service is not
    configured or the question is not an object. *)
Theorem c8_template_fallback :
  forall E claude,
    let describe := WeatherService.getWeatherDescription E in
    let when := WeatherService.when in
    (* [`${location.name}`, then `, ${location.admin1}` when truthy, then
       `, ${location.country}**\n\n`] *)
    let heading (l : Location.t) : string :=
      str E (Location.name l)
      +:+ when (Js.truthy (Location.admin1 l)) (", " +:+ str E (Location.admin1 l))
      +:+ ", " +:+ str E (Location.country l) +:+ "**" +:+ Js.nl +:+ Js.nl in
    (* the [response] of [formatCurrentWeatherForChat] *)
    let currentFormatted (wd : WeatherData.t) (l : Location.t) (lat lon : string) : string :=
      let current := WeatherData.current wd in
      "**Current Weather in " +:+ heading l
      +:+ "🌡️ **Temperature:** " +:+ int E (Current.temperature current)
      +:+ "°C (feels like " +:+ int E (Current.apparentTemperature current)
      +:+ "°C)" +:+ Js.nl
      +:+ "☁️ **Condition:** " +:+ describe (Current.weatherCode current) +:+ Js.nl
      +:+ "💧 **Humidity:** " +:+ num E (Current.humidity current) +:+ "%" +:+ Js.nl
      +:+ "🌬️ **Wind:** " +:+ num E (Current.windSpeed current) +:+ " km/h"
      +:+ when (Js.gtb (Current.windGusts current) 0)
            (" (gusts up to " +:+ num E (Current.windGusts current) +:+ " km/h)")
      +:+ Js.nl
      +:+ "📊 **Pressure:** " +:+ num E (Current.pressure current) +:+ " hPa" +:+ Js.nl
      +:+ "☁️ **Cloud Cover:** " +:+ num E (Current.cloudCover current) +:+ "%" +:+ Js.nl
      +:+ when (Js.gtb (Current.precipitation current) 0)
            ("🌧️ **Precipitation:** " +:+ num E (Current.precipitation current)
             +:+ " mm" +:+ Js.nl)
      +:+ "🕐 **Time of Day:** "
      +:+ (if Current.isDay current then "☀️ Day" else "🌙 Night") +:+ Js.nl
      +:+ Js.nl +:+ "📍 **Location:** " +:+ lat +:+ "°, " +:+ lon +:+ "°"
      +:+ when (WeatherService.truthyQ (Location.elevation l))
            (" (" +:+ int E (Js.round (default 0%Q (Location.elevation l)))
             +:+ "m elevation)") in
    (* one day of [formatForecastForChat], and its [response] *)
    let dayFormatted (index : nat) (day : Daily.t) : string :=
      "📅 **"
      +:+ match index with
          | O => "Today"
          | S _ => weekdayShort E (Daily.date day)
          end
      +:+ ", " +:+ monthDay E (Daily.date day) +:+ "**" +:+ Js.nl
      +:+ "   🌡️ " +:+ int E (Daily.temperatureMin day) +:+ "° - "
      +:+ int E (Daily.temperatureMax day) +:+ "°C" +:+ Js.nl
      +:+ "   ☁️ " +:+ describe (Daily.weatherCode day) +:+ Js.nl
      +:+ when (Js.gtb (Daily.precipitationSum day) 0)
            ("   🌧️ " +:+ num E (Daily.precipitationSum day) +:+ "mm rain"
             +:+ when (Js.gtb (Daily.precipitationProbability day) 0)
                   (" (" +:+ num E (Daily.precipitationProbability day) +:+ "% chance)")
             +:+ Js.nl)
      +:+ when (Js.gtb (Daily.windSpeedMax day) 10)
            ("   💨 Wind up to " +:+ num E (Daily.windSpeedMax day) +:+ " km/h" +:+ Js.nl)
      +:+ Js.nl in
    let forecastFormatted (wd : WeatherData.t) (l : Location.t) : string :=
      "**7-Day Weather Forecast for " +:+ heading l
      +:+ String.concat "" (imap dayFormatted (take 7 (WeatherData.daily wd))) in
    (* [fallbackCurrentWeatherResponse] *)
    let currentFallback (wd : WeatherData.t) (place : string) : string :=
      let current := WeatherData.current wd in
      let temp := Current.temperature current in
      let feelsLike := Current.apparentTemperature current in
      "The current weather in " +:+ place +:+ " is " +:+ int E temp +:+ "°C with "
      +:+ Js.toLowerCase (describe (Current.weatherCode current))
      +:+ when (3 <? Z.abs (temp - feelsLike))%Z
            (", though it feels like " +:+ int E feelsLike +:+ "°C")
      +:+ ". "
      +:+ when (Js.gtb (Current.precipitation current) 0)
            "It's currently raining, so you'll want an umbrella. "
      +:+ (if (temp <? 10)%Z then "It's quite chilly - dress warmly!"
           else if (25 <? temp)%Z then "It's quite warm - perfect for outdoor activities!"
           else "Pleasant weather overall!") in
    (* [fallbackForecastResponse]: nothing when the forecast has no first
       day, the template then throwing *)
    let range (day : Daily.t) : string :=
      int E (Daily.temperatureMin day) +:+ "-" +:+ int E (Daily.temperatureMax day)
      +:+ "°C" in
    let forecastFallback (wd : WeatherData.t) (place : string) : option string :=
      let daily := WeatherData.daily wd in
      match daily !! 0%nat with
      | None => None
      | Some today =>
          let rainDays :=
            length (filter (fun day => Js.gtb (Daily.precipitationSum day) 0 = true)
                      (take 7 daily)) in
          Some
            ("The forecast for " +:+ place +:+ " shows "
             +:+ range today +:+ " today with "
             +:+ Js.toLowerCase (describe (Daily.weatherCode today))
             +:+ match daily !! 1%nat with
                 | Some tomorrow =>
                     ", and " +:+ range tomorrow +:+ " tomorrow with "
                     +:+ Js.toLowerCase (describe (Daily.weatherCode tomorrow))
                 | None => ""
                 end
             +:+ (if (3 <? rainDays)%nat then ". Expect several rainy days this week."
                  else if (0 <? rainDays)%nat then ". Some rain is expected during the week."
                  else ". Looks like a dry week ahead!"))
      end in
    unavailable E claude ->
    (forall args w w1 reply,
       let city := default Js.Undefined (args !! "city") in
       WeatherService.getWeatherForChat E city false w
       = (w1, Normal (WeatherService.ChatOk reply)) ->
       let wd := WeatherService.weatherData reply in
       let text := if claude then currentFallback wd (str E city)
                   else WeatherService.response reply in
       exists w2 r location latitude longitude,
         WeatherMCPServer.callTool E claude "get_weather" (Some args) w = (w2, Normal r)
         /\ WeatherMCPServer.isError r = None
         /\ WeatherMCPServer.failed r = false
         /\ WeatherMCPServer.content r = [WeatherMCPServer.textBlock text]
         /\ text <> ""
         /\ WeatherData.location wd = Some location
         /\ fixed E "location.latitude" 2 (Location.latitude location) = Normal latitude
         /\ fixed E "location.longitude" 2 (Location.longitude location) = Normal longitude
         /\ WeatherService.response reply = currentFormatted wd location latitude longitude)
    /\ (forall args w w1 reply,
          let city := default Js.Undefined (args !! "city") in
          WeatherService.getWeatherForChat E city true w
          = (w1, Normal (WeatherService.ChatOk reply)) ->
          let wd := WeatherService.weatherData reply in
          let text := if claude
                      then match forecastFallback wd (str E city) with
                           | Some fallback => fallback
                           | None => WeatherService.response reply
                           end
                      else WeatherService.response reply in
          exists w2 r location,
            WeatherMCPServer.callTool E claude "get_forecast" (Some args) w = (w2, Normal r)
            /\ WeatherMCPServer.isError r = None
            /\ WeatherMCPServer.failed r = false
            /\ WeatherMCPServer.content r = [WeatherMCPServer.textBlock text]
            /\ text <> ""
            /\ WeatherData.location wd = Some location
            /\ WeatherService.response reply = forecastFormatted wd location)
    /\ (forall args latitude longitude w w1 wd,
          let days := Js.orDefault (Js.Int 1) (default Js.Undefined (args !! "days")) in
          let mock := mockLocation E latitude longitude in
          let wd' := WeatherData.setLocation mock wd in
          let place :=
            "coordinates " +:+ twoDecimals E latitude +:+ ", " +:+ twoDecimals E longitude in
          let formatted :=
            if Js.isNum 1 days
            then currentFormatted wd' mock (twoDecimals E latitude) (twoDecimals E longitude)
            else forecastFormatted wd' mock in
          let text :=
            if claude then
              if Js.isNum 1 days then currentFallback wd' place
              else match forecastFallback wd' place with
                   | Some fallback => fallback
                   | None => formatted
                   end
            else formatted in
          args !! "latitude" = Some (Js.Num latitude) ->
          args !! "longitude" = Some (Js.Num longitude) ->
          WeatherService.getWeatherForecast E (Js.Num latitude) (Js.Num longitude) days w
          = (w1, Normal (Forecast wd)) ->
          exists w2 r,
            WeatherMCPServer.callTool E claude "get_weather_by_coords" (Some args) w
            = (w2, Normal r)
            /\ WeatherMCPServer.isError r = None
            /\ WeatherMCPServer.failed r = false
            /\ WeatherMCPServer.content r = [WeatherMCPServer.textBlock text]
            /\ text <> "")
    /\ (forall args w,
          claude = false \/ primitive (default Js.Undefined (args !! "question")) = true ->
          exists w2 r,
            WeatherMCPServer.callTool E claude "ask_weather_question" (Some args) w
            = (w2, Normal r)
            /\ WeatherMCPServer.isError r = None
            /\ WeatherMCPServer.failed r = false
            /\ WeatherMCPServer.content r
               = [WeatherMCPServer.textBlock
                    (if claude
                     then "I'd be happy to help with weather questions! Could you specify a location so I can provide accurate information?"
                     else "I'd be happy to help with weather questions! However, AI analysis is not available right now. Try asking about specific weather data for a city.")]).
Proof.
  intros E claude describe when heading currentFormatted dayFormatted forecastFormatted
    currentFallback range forecastFallback Hun.
  assert (Hfallback : forall wd place,
             ClaudeService.fallbackForecastResponse E wd place
             = match forecastFallback wd place with
               | Some fallback => Normal fallback
               | None => Throw "Cannot read properties of undefined (reading 'temperatureMin')"
               end).
  { intros wd place. unfold ClaudeService.fallbackForecastResponse. subst forecastFallback.
    cbv beta zeta. now destruct (WeatherData.daily wd !! 0%nat). }
  split; [|split; [|split]].
  - intros args w w1 reply city Hchat wd text.
    destruct (handleGetWeather_template E claude city w w1 reply Hun Hchat) as [w2 Hh].
    pose proof (getWeatherForChat_formatted E city false w w1 _ Hchat reply eq_refl) as Hown.
    cbv iota in Hown. fold wd in Hown.
    unfold WeatherService.formatCurrentWeatherForChat in Hown.
    destruct (WeatherData.location wd) as [location|] eqn:Hloc; [|discriminate].
    destruct (fixed E "location.latitude" 2 (Location.latitude location)) as [lat|] eqn:Hlat; [|discriminate].
    destruct (fixed E "location.longitude" 2 (Location.longitude location)) as [lon|] eqn:Hlon; [|discriminate].
    simpl in Hown. injection Hown as Hown.
    exists w2. eexists. exists location, lat, lon. split.
    + change (WeatherMCPServer.callTool E claude "get_weather" (Some args))
        with (tryCatch (WeatherMCPServer.handleGetWeather E claude city)
                (fun message =>
                   ret (WeatherMCPServer.errorResult
                          ("Error calling tool get_weather: " +:+ message)))).
      unfold tryCatch. now rewrite Hh.
    + do 2 (split; [reflexivity|]).
      assert (Htext : currentTemplate E claude reply city = text)
        by (subst text; unfold currentTemplate; now destruct claude).
      split; [simpl; now rewrite Htext|].
      split.
      { rewrite <- Htext. apply currentTemplate_nonempty.
        eapply (getWeatherForChat_nonempty E city false); [exact Hchat|reflexivity]. }
      split; [reflexivity|]. split; [exact Hlat|]. split; [exact Hlon|].
      rewrite <- Hown. reflexivity.
  - intros args w w1 reply city Hchat wd text.
    destruct (handleGetForecast_template E claude city
                (default Js.Undefined (args !! "days")) w w1 reply Hun Hchat) as [w2 Hh].
    pose proof (getWeatherForChat_formatted E city true w w1 _ Hchat reply eq_refl) as Hown.
    cbv iota in Hown. fold wd in Hown.
    unfold WeatherService.formatForecastForChat in Hown.
    destruct (WeatherData.location wd) as [location|] eqn:Hloc; [|discriminate].
    injection Hown as Hown.
    exists w2. eexists. exists location. split.
    + change (WeatherMCPServer.callTool E claude "get_forecast" (Some args))
        with (tryCatch (WeatherMCPServer.handleGetForecast E claude city
                          (default Js.Undefined (args !! "days")))
                (fun message =>
                   ret (WeatherMCPServer.errorResult
                          ("Error calling tool get_forecast: " +:+ message)))).
      unfold tryCatch. now rewrite Hh.
    + do 2 (split; [reflexivity|]).
      assert (Htext : forecastTemplate E claude reply city = text).
      { subst text. unfold forecastTemplate. destruct claude; [|reflexivity].
        rewrite Hfallback. fold wd. now destruct (forecastFallback wd (str E city)). }
      split; [simpl; now rewrite Htext|].
      split.
      { rewrite <- Htext. apply forecastTemplate_nonempty.
        eapply (getWeatherForChat_nonempty E city true); [exact Hchat|reflexivity]. }
      split; [reflexivity|]. rewrite <- Hown. reflexivity.
  - intros args latitude longitude w w1 wd days mock wd' place formatted text
      Hlat Hlon Hfetch.
    destruct (handleGetWeatherByCoords_template E claude latitude longitude
                (default Js.Undefined (args !! "days")) w w1 wd Hun Hfetch) as [w2 Hh].
    assert (Hformatted : coordsFormatted E days wd'
                         = Normal (WeatherService.mkReply formatted wd'
                                     (if Js.isNum 1 days then "current" else "forecast"))).
    { subst formatted. unfold coordsFormatted. now destruct (Js.isNum 1 days). }
    assert (Htext : coordsTemplate E claude latitude longitude days wd' = text).
    { subst text. unfold coordsTemplate. rewrite Hformatted. simpl WeatherService.response.
      destruct claude; [|reflexivity].
      destruct (Js.isNum 1 days); [reflexivity|].
      rewrite Hfallback. fold place. now destruct (forecastFallback wd' place). }
    exists w2. eexists. split.
    + change (WeatherMCPServer.callTool E claude "get_weather_by_coords" (Some args))
        with (tryCatch
                (WeatherMCPServer.handleGetWeatherByCoords E claude
                   (default Js.Undefined (args !! "latitude"))
                   (default Js.Undefined (args !! "longitude"))
                   (default Js.Undefined (args !! "days")))
                (fun message =>
                   ret (WeatherMCPServer.errorResult
                          ("Error calling tool get_weather_by_coords: " +:+ message)))).
      rewrite Hlat, Hlon. simpl default. unfold tryCatch. now rewrite Hh.
    + do 2 (split; [reflexivity|]).
      split; [exact (f_equal (fun t => [WeatherMCPServer.textBlock t]) Htext)|].
      rewrite <- Htext. unfold coordsTemplate.
      destruct (coordsFormatted_normal E days wd latitude longitude) as (reply & Hfmt & Hne).
      change (coordsFormatted E days wd' = Normal reply) in Hfmt. rewrite Hfmt.
      destruct claude; [|exact Hne].
      destruct (Js.isNum 1 days); [discriminate|].
      destruct (ClaudeService.fallbackForecastResponse E wd' _) eqn:Hf; [|exact Hne].
      eapply fallbackForecast_nonempty, Hf.
  - intros args w _.
    destruct (handleWeatherQuestion_template E claude
                (default Js.Undefined (args !! "question"))
                (default Js.Undefined (args !! "city")) w Hun)
      as (w2 & r & Hh & Herr & Hcontent).
    exists w2, r. split.
    + change (WeatherMCPServer.callTool E claude "ask_weather_question" (Some args))
        with (tryCatch
                (WeatherMCPServer.handleWeatherQuestion E claude
                   (default Js.Undefined (args !! "question"))
                   (default Js.Undefined (args !! "city")))
                (fun message =>
                   ret (WeatherMCPServer.errorResult
                          ("Error calling tool ask_weather_question: " +:+ message)))).
      unfold tryCatch. now rewrite Hh.
    + split; [exact Herr|]. split; [unfold WeatherMCPServer.failed; now rewrite Herr|].
      rewrite Hcontent. now destruct claude.
Qed.

Lemma claudeDown_fails : completionsFail StandIn.claudeDown.
Proof. intros h prompt. now exists 300, "401 invalid x-api-key". Defined.

(** A run of C8: the service is configured and rejects the API key; Paris
    is found and its weather fetched; the text is the fallback template. *)
Lemma c8_witness :
  exists w2 r,
    WeatherMCPServer.callTool StandIn.claudeDown true "get_weather"
      (StandIn.cityArgs "Paris") StandIn.fresh = (w2, Normal r)
    /\ WeatherMCPServer.isError r = None
    /\ WeatherMCPServer.content r
       = [WeatherMCPServer.textBlock
            "The current weather in Paris is 20°C with partly cloudy. Pleasant weather overall!"].
Proof.
  destruct (c8_template_fallback StandIn.claudeDown true (or_intror claudeDown_fails))
    as (Hweather & _ & _ & _).
  let out := eval vm_compute in
               (WeatherService.getWeatherForChat StandIn.claudeDown (Js.Str "Paris") false
                  StandIn.fresh) in
  match out with
  | (?w1, Normal (WeatherService.ChatOk ?reply)) =>
      destruct (Hweather {[ "city" := Js.Str "Paris" ]} StandIn.fresh w1 reply)
        as (w2 & r & _ & _ & _ & Hcall & Herr & _ & Hcontent & _);
        [vm_compute; reflexivity|]
  end.
  exists w2, r. split; [exact Hcall|]. split; [exact Herr|]. exact Hcontent.
Defined.

(** ** The unit flag and the keyword detection *)

Lemma detectFahrenheitPreference_spec (message : string) :
  RealMCPWeatherServer.detectFahrenheitPreference (Some message) = true
  <-> message <> ""
      /\ exists kw, In kw RealMCPWeatherServer.fahrenheitKeywords
                    /\ Js.includes kw (Js.toLowerCase message) = true.
Proof.
  unfold RealMCPWeatherServer.detectFahrenheitPreference, Js.someIncludes.
  destruct message as [|c rest].
  - split; [discriminate|]. now intros [[] _].
  - rewrite existsb_exists. split.
    + intros H. split; [discriminate|exact H].
    + now intros [_ H].
Qed.

(** C6. What the code does with the unit flag: [handleGetWeather] and
    [handleGetForecast] pass it on to [getWeatherForChat], which declares no
    such parameter, so the flag changes nothing: the Fahrenheit tools
    behave as the plain ones, and on a reading of 20 degrees
    [get_weather_fahrenheit] renders "20°C" and no "°F". The detection of
    the flag from free text is the keyword match the claim describes. *)
Theorem c6_fahrenheit_flag_is_dropped :
  (forall E claude city useFahrenheit,
     RealMCPWeatherServer.handleGetWeather E claude city useFahrenheit
     = RealMCPWeatherServer.handleGetWeather E claude city false)
  /\ (forall E claude city days useFahrenheit,
        RealMCPWeatherServer.handleGetForecast E claude city days useFahrenheit
        = RealMCPWeatherServer.handleGetForecast E claude city days false)
  /\ (forall E claude city,
        RealMCPWeatherServer.get_weather_fahrenheit E claude city
        = RealMCPWeatherServer.get_weather E claude city)
  /\ (exists w' text,
        RealMCPWeatherServer.get_weather_fahrenheit StandIn.claudeDown false (Js.Str "Paris")
          StandIn.fresh
        = (w', Normal (RealMCPWeatherServer.textResult text))
        /\ Js.includes "Temperature:** 20°C (feels like 18°C)" text = true
        /\ Js.includes "°F" text = false)
  /\ (forall message,
        RealMCPWeatherServer.detectFahrenheitPreference (Some message) = true
        <-> message <> ""
            /\ exists kw, In kw RealMCPWeatherServer.fahrenheitKeywords
                          /\ Js.includes kw (Js.toLowerCase message) = true).
Proof.
  split; [reflexivity|]. split; [reflexivity|]. split; [reflexivity|]. split.
  - eexists _, _. split; [vm_compute; reflexivity|]. split; vm_compute; reflexivity.
  - exact detectFahrenheitPreference_spec.
Qed.

(** ** The session manager *)

(** Against a provider that answers every call with HTTP 400, each attempt
    initializes a session, sends the call with it, and ends in the [catch]
    branch that resets the id and calls again. *)
Lemma callMCPTool_alwaysRejects fuel toolName args tr :
  let out := Gateway.callMCPTool fuel GatewayStandIn.alwaysRejects toolName args
               (Gateway.mkState None tr) in
  snd out = None
  /\ Gateway.mcpSessionId (fst out) = None
  /\ length (Gateway.toolsCalls (Gateway.trace (fst out)))
     = (fuel + length (Gateway.toolsCalls tr))%nat.
Proof.
  revert tr. induction fuel as [|fuel IH]; intros tr; [now repeat split|].
  cbn [Gateway.callMCPTool]. unfold Gateway.attempt, Gateway.initializeMCPSession. simpl.
  match goal with
  | |- context [Gateway.callMCPTool fuel _ _ _ (Gateway.mkState None ?t)] =>
      destruct (IH t) as (Hout & Hsid & Hlen)
  end.
  repeat split; [exact Hout|exact Hsid|].
  rewrite Hlen. simpl. lia.
Qed.

(** C1. What the code does when the provider keeps answering HTTP 400: for
    every number of attempts granted, [callMCPTool] uses them all, sends
    that many [tools/call] requests, and has still not surfaced an error to
    its caller. The recursion of the [catch] block is not bounded by one
    retry. *)
Theorem c1_retry_has_no_bound :
  forall fuel toolName args,
    let out := Gateway.callMCPTool fuel GatewayStandIn.alwaysRejects toolName args
                 Gateway.initial in
    snd out = None
    /\ length (Gateway.toolsCalls (Gateway.trace (fst out))) = fuel.
Proof.
  intros fuel toolName args out. subst out. unfold Gateway.initial.
  destruct (callMCPTool_alwaysRejects fuel toolName args []) as (Hout & _ & Hlen).
  split; [exact Hout|]. rewrite Hlen. simpl. lia.
Qed.

(** The case the retry is written for: the stored session has expired, the
    first call is answered with HTTP 400, the id is dropped, one handshake
    follows, and the second call succeeds. *)
Example callMCPTool_recovers_once :
  Gateway.callMCPTool 2 GatewayStandIn.expiring "get_weather" GatewayStandIn.parisArgs
    GatewayStandIn.stale
  = (Gateway.mkState (Some "renewed")
       [Gateway.mkDispatch (Some "renewed")
          (Gateway.ToolsCall (Some "renewed") "get_weather" GatewayStandIn.parisArgs);
        Gateway.mkDispatch None Gateway.Initialize;
        Gateway.mkDispatch (Some "expired")
          (Gateway.ToolsCall (Some "expired") "get_weather" GatewayStandIn.parisArgs)],
     Some (Normal "sunny")).
Proof. reflexivity. Qed.

(** One attempt adds to the trace requests that satisfy [attached], and
    [carriesSession] too when the provider issues session ids. *)
Lemma attempt_invariant P toolName args g :
  let ok d := attached d /\ (issuesSessionIds P -> carriesSession d) in
  Forall ok (Gateway.trace g) ->
  Forall ok (Gateway.trace (fst (Gateway.attempt P toolName args g))).
Proof.
  intros ok Hg. unfold Gateway.attempt, Gateway.initializeMCPSession.
  destruct (Gateway.truthy (Gateway.mcpSessionId g)) eqn:Hstored.
  - unfold Gateway.post. simpl. rewrite Hstored.
    assert (Hnew : ok (Gateway.mkDispatch (Gateway.mcpSessionId g)
                         (Gateway.ToolsCall (Gateway.mcpSessionId g) toolName args))).
    { split; [unfold attached; simpl; now rewrite Hstored|].
      intros _. unfold carriesSession. simpl. now split. }
    destruct (P _ _); simpl; now constructor.
  - unfold Gateway.post at 2. simpl.
    assert (Hinit : ok (Gateway.mkDispatch (Gateway.mcpSessionId g) Gateway.Initialize))
      by (split; [exact I|intros _; exact I]).
    destruct (P (map Gateway.sent (Gateway.trace g)) Gateway.Initialize)
      as [header data|f] eqn:Hreply; [|simpl; now constructor].
    assert (Hcall : ok (Gateway.mkDispatch header
                          (Gateway.ToolsCall
                             (if Gateway.truthy header then header else None) toolName args))).
    { split; [reflexivity|]. intros Hissues. unfold carriesSession. simpl.
      rewrite (Hissues _ _ _ Hreply). split; [exact (Hissues _ _ _ Hreply)|reflexivity]. }
    destruct data as [|[[jsonData|m]|]| |j]; simpl; try now constructor.
    destruct (Gateway.result jsonData); simpl; [|now constructor].
    unfold Gateway.post. simpl.
    destruct (P _ (Gateway.ToolsCall _ _ _)); simpl;
      constructor; try exact Hcall; now constructor.
Qed.

Lemma callMCPTool_invariant P fuel toolName args g :
  let ok d := attached d /\ (issuesSessionIds P -> carriesSession d) in
  Forall ok (Gateway.trace g) ->
  Forall ok (Gateway.trace (fst (Gateway.callMCPTool fuel P toolName args g))).
Proof.
  intros ok. revert g. induction fuel as [|fuel IH]; intros g Hg; [exact Hg|].
  cbn [Gateway.callMCPTool].
  pose proof (attempt_invariant P toolName args g Hg) as Hstep. fold ok in Hstep.
  destruct (Gateway.attempt P toolName args g) as [g1 [[m|[status em|m|m]]|r]];
    simpl in Hstep; try exact Hstep.
  destruct (status =? 400)%Z; [|exact Hstep]. now apply IH.
Qed.

(** C7 (as the code has it). In every reachable state of the gateway, each
    [tools/call] request that was sent carried in its [mcp-session-id]
    header the session id stored at that moment whenever that id was
    non-empty, and no such header otherwise; and when the provider issues a
    non-empty session id with every handshake it accepts, each request
    carried a session id, the stored one. *)
Theorem c7_session_header_is_the_stored_id :
  forall P g,
    Gateway.reachable P g ->
    Forall attached (Gateway.trace g)
    /\ (issuesSessionIds P -> Forall carriesSession (Gateway.trace g)).
Proof.
  intros P g Hreach.
  assert (H : Forall (fun d => attached d /\ (issuesSessionIds P -> carriesSession d))
                (Gateway.trace g)).
  { induction Hreach as [|fuel toolName args g Hreach IH]; [constructor|].
    now apply callMCPTool_invariant. }
  split.
  - eapply Forall_impl; [exact H|]. now intros d [Ha _].
  - intros Hissues. eapply Forall_impl; [exact H|]. intros d [_ Hc]. now apply Hc.
Qed.

Lemma expiring_issuesSessionIds : issuesSessionIds GatewayStandIn.expiring.
Proof. intros h header data [= <- _]. reflexivity. Defined.

Lemma c7_witness :
  let g := fst (Gateway.callMCPTool 2 GatewayStandIn.expiring "get_weather"
                  GatewayStandIn.parisArgs Gateway.initial) in
  Forall attached (Gateway.trace g) /\ Forall carriesSession (Gateway.trace g).
Proof.
  intros g.
  destruct (c7_session_header_is_the_stored_id GatewayStandIn.expiring g) as [Ha Hc].
  - apply Gateway.reach_call, Gateway.reach_initial.
  - split; [exact Ha|exact (Hc expiring_issuesSessionIds)].
Defined.

(** C7 (as the specification has it) fails. Against a stateless endpoint,
    whose handshake carries no session header, the first call of a fresh
    gateway sends its [tools/call] request with no [mcp-session-id] header
    at all, and gets its answer. *)
Lemma c7_counterexample :
  let out := Gateway.callMCPTool 1 GatewayStandIn.stateless "get_weather"
               GatewayStandIn.parisArgs Gateway.initial in
  Gateway.reachable GatewayStandIn.stateless (fst out)
  /\ snd out = Some (Normal "sunny")
  /\ Gateway.trace (fst out)
     = [Gateway.mkDispatch None (Gateway.ToolsCall None "get_weather" GatewayStandIn.parisArgs);
        Gateway.mkDispatch None Gateway.Initialize]
  /\ ~ sessionInvariant GatewayStandIn.stateless.
Proof.
  split; [apply Gateway.reach_call, Gateway.reach_initial|].
  split; [reflexivity|]. split; [reflexivity|].
  intros Hinv.
  specialize (Hinv _ (Gateway.reach_call GatewayStandIn.stateless 1 "get_weather"
                        GatewayStandIn.parisArgs _ (Gateway.reach_initial _))).
  apply Forall_inv in Hinv. destruct Hinv as [Htruthy _]. discriminate Htruthy.
Qed.

(** * Further properties of the code *)

(** ** The chat lookup of the weather service *)

Lemma getWeatherForChat_returns E city includeForecast w :
  exists w' r, WeatherService.getWeatherForChat E city includeForecast w = (w', Normal r).
Proof.
  unfold WeatherService.getWeatherForChat, tryCatch.
  match goal with
  | |- context [match ?body w with _ => _ end] => destruct (body w) as [w1 [a|m]]
  end; now eexists _, _.
Qed.

(** X1. [getWeatherForChat] never throws: it always completes with a
    result object. When the geocoding lookup throws, and when the forecast
    lookup for the first location found throws, the result is
    [{ error: true, message }] with the message of that lookup. *)
Theorem x1_getWeatherForChat_never_throws :
  forall E city includeForecast w,
    (exists w' r,
        WeatherService.getWeatherForChat E city includeForecast w = (w', Normal r))
    /\ (forall w1 reason,
           WeatherService.geocodeCity E city (Js.Int 1) w = (w1, Throw reason) ->
           WeatherService.getWeatherForChat E city includeForecast w
           = (w1, Normal (WeatherService.ChatError reason)))
    /\ (forall w1 location rest w2 reason,
           WeatherService.geocodeCity E city (Js.Int 1) w
           = (w1, Normal (Locations (location :: rest))) ->
           WeatherService.getWeatherForecast E (Location.latitude location)
             (Location.longitude location) (Js.Int (if includeForecast then 7 else 1)) w1
           = (w2, Throw reason) ->
           WeatherService.getWeatherForChat E city includeForecast w
           = (w2, Normal (WeatherService.ChatError reason))).
Proof.
  intros E city includeForecast w. split; [apply getWeatherForChat_returns|]. split.
  - intros w1 reason Hgeo.
    unfold WeatherService.getWeatherForChat, tryCatch, bind. now rewrite Hgeo.
  - intros w1 location rest w2 reason Hgeo Hfc.
    unfold WeatherService.getWeatherForChat, tryCatch, bind. rewrite Hgeo.
    cbv zeta. now rewrite Hfc.
Qed.

(** ** What a lookup writes *)

Lemma geocodeCity_frame E city count w key :
  key <> WeatherService.geocodeKey E city (Js.orDefault (Js.Int 1) count) ->
  cache (fst (WeatherService.geocodeCity E city count w)) !! key = cache w !! key.
Proof.
  intros Hne.
  destruct (WeatherService.cacheGet geocodeTTL
              (WeatherService.geocodeKey E city (Js.orDefault (Js.Int 1) count)) w)
    as [v|] eqn:Hget.
  - now rewrite (geocodeCity_hit E city count w v Hget).
  - rewrite (geocodeCity_miss_eq E city count w Hget).
    destruct (geo_search E (trace w) city (Js.orDefault (Js.Int 1) count))
      as [elapsed [m|results]]; simpl; [reflexivity|].
    now apply lookup_insert_ne.
Qed.

Lemma getWeatherForecast_frame E latitude longitude days w key :
  key <> WeatherService.forecastKey E latitude longitude (Js.orDefault (Js.Int 7) days) ->
  cache (fst (WeatherService.getWeatherForecast E latitude longitude days w)) !! key
  = cache w !! key.
Proof.
  intros Hne.
  destruct (WeatherService.cacheGet weatherTTL
              (WeatherService.forecastKey E latitude longitude
                 (Js.orDefault (Js.Int 7) days)) w) as [v|] eqn:Hget.
  - now rewrite (getWeatherForecast_hit E latitude longitude days w v Hget).
  - rewrite (getWeatherForecast_miss_eq E latitude longitude days w Hget).
    destruct (forecast E (trace w) latitude longitude (Js.orDefault (Js.Int 7) days))
      as [elapsed [m|body]]; simpl; [reflexivity|].
    now apply lookup_insert_ne.
Qed.

Lemma geocodeCity_throw_cache E city count w w1 reason :
  WeatherService.geocodeCity E city count w = (w1, Throw reason) -> cache w1 = cache w.
Proof.
  destruct (WeatherService.cacheGet geocodeTTL
              (WeatherService.geocodeKey E city (Js.orDefault (Js.Int 1) count)) w)
    as [v|] eqn:Hget.
  - now rewrite (geocodeCity_hit E city count w v Hget).
  - rewrite (geocodeCity_miss_eq E city count w Hget).
    destruct (geo_search E (trace w) city (Js.orDefault (Js.Int 1) count))
      as [elapsed [m|results]]; [|discriminate].
    now intros [= <- _].
Qed.

Lemma getWeatherForecast_throw_cache E latitude longitude days w w1 reason :
  WeatherService.getWeatherForecast E latitude longitude days w = (w1, Throw reason) ->
  cache w1 = cache w.
Proof.
  destruct (WeatherService.cacheGet weatherTTL
              (WeatherService.forecastKey E latitude longitude
                 (Js.orDefault (Js.Int 7) days)) w) as [v|] eqn:Hget.
  - now rewrite (getWeatherForecast_hit E latitude longitude days w v Hget).
  - rewrite (getWeatherForecast_miss_eq E latitude longitude days w Hget).
    destruct (forecast E (trace w) latitude longitude (Js.orDefault (Js.Int 7) days))
      as [elapsed [m|body]]; [|discriminate].
    now intros [= <- _].
Qed.

(** X2. A lookup writes the cache at its own key only: after
    [geocodeCity] or [getWeatherForecast], whatever the outcome, every
    other key holds what it held before; and a lookup that throws leaves
    the whole cache as it was, so that a failure is never remembered and
    an entry that has expired is not removed by it. *)
Theorem x2_lookup_writes_its_own_key_only :
  forall E w,
    (forall city count key,
        key <> WeatherService.geocodeKey E city (Js.orDefault (Js.Int 1) count) ->
        cache (fst (WeatherService.geocodeCity E city count w)) !! key = cache w !! key)
    /\ (forall latitude longitude days key,
           key <> WeatherService.forecastKey E latitude longitude
                    (Js.orDefault (Js.Int 7) days) ->
           cache (fst (WeatherService.getWeatherForecast E latitude longitude days w)) !! key
           = cache w !! key)
    /\ (forall city count w1 reason,
           WeatherService.geocodeCity E city count w = (w1, Throw reason) ->
           cache w1 = cache w)
    /\ (forall latitude longitude days w1 reason,
           WeatherService.getWeatherForecast E latitude longitude days w = (w1, Throw reason) ->
           cache w1 = cache w).
Proof.
  intros E w. repeat split.
  - intros. now apply geocodeCity_frame.
  - intros. now apply getWeatherForecast_frame.
  - intros. eapply geocodeCity_throw_cache; eassumption.
  - intros. eapply getWeatherForecast_throw_cache; eassumption.
Qed.

(** ** Clearing the cache *)

Lemma cacheGet_empty ttl key w :
  cache w = ∅ -> WeatherService.cacheGet ttl key w = None.
Proof. intros He. unfold WeatherService.cacheGet. now rewrite He, lookup_empty. Qed.

(** X3. After [clearCache()] nothing is answered from memory: the cache
    is empty, the clock and the requests sent are as before, and the next
    geocoding lookup and the next forecast lookup, whatever they ask for,
    send their request. *)
Theorem x3_clearCache_forgets_everything :
  forall E w,
    let w0 := fst (WeatherService.clearCache w) in
    snd (WeatherService.clearCache w) = Normal tt
    /\ cache w0 = ∅ /\ now w0 = now w /\ trace w0 = trace w
    /\ (forall city count,
           trace (fst (WeatherService.geocodeCity E city count w0))
           = GeoSearch city (Js.orDefault (Js.Int 1) count) :: trace w)
    /\ (forall latitude longitude days,
           trace (fst (WeatherService.getWeatherForecast E latitude longitude days w0))
           = GetForecast latitude longitude (Js.orDefault (Js.Int 7) days) :: trace w).
Proof.
  intros E w w0. repeat split.
  - intros city count. apply (geocodeCity_miss E city count w0). now apply cacheGet_empty.
  - intros latitude longitude days.
    rewrite (getWeatherForecast_miss_eq E latitude longitude days w0);
      [|now apply cacheGet_empty].
    destruct (forecast E (trace w0) latitude longitude (Js.orDefault (Js.Int 7) days))
      as [elapsed [m|body]]; reflexivity.
Qed.
(** ** An empty answer is remembered *)

Lemma cacheGet_atTime ttl key t w :
  WeatherService.cacheGet ttl key (atTime t w)
  = match cache w !! key with
    | Some cached => if (t - timestamp cached <? ttl)%Z then Some (data cached) else None
    | None => None
    end.
Proof. reflexivity. Qed.

(** X4. A geocoding search that finds nothing is cached like any other:
    when the search for [city] comes back without results,
    [getWeatherForChat] answers that the location could not be found, and
    for the next hour every [getWeatherForChat] for that city gives the
    same answer without asking the geocoder again, whatever the geocoder
    would answer by then. *)
Theorem x4_empty_geocoding_result_is_cached :
  forall E city includeForecast w elapsed results,
    WeatherService.cacheGet geocodeTTL (WeatherService.geocodeKey E city (Js.Int 1)) w = None ->
    geo_search E (trace w) city (Js.Int 1) = (elapsed, inr results) ->
    default [] results = [] ->
    let w1 := fst (WeatherService.getWeatherForChat E city includeForecast w) in
    snd (WeatherService.getWeatherForChat E city includeForecast w)
    = Normal (WeatherService.ChatError (WeatherService.notFound E city))
    /\ trace w1 = GeoSearch city (Js.Int 1) :: trace w
    /\ forall t includeForecast',
         t - now w1 < geocodeTTL ->
         WeatherService.getWeatherForChat E city includeForecast' (atTime t w1)
         = (atTime t w1, Normal (WeatherService.ChatError (WeatherService.notFound E city))).
Proof.
  intros E city includeForecast w elapsed results Hmiss Hgeo Hnone w1.
  assert (Hrun : WeatherService.getWeatherForChat E city includeForecast w
                 = (mkWorld (<[WeatherService.geocodeKey E city (Js.Int 1)
                               := mkEntry (Locations []) (now w + elapsed)]> (cache w))
                      (now w + elapsed) (GeoSearch city (Js.Int 1) :: trace w),
                    Normal (WeatherService.ChatError (WeatherService.notFound E city)))).
  { unfold WeatherService.getWeatherForChat, tryCatch, bind.
    rewrite (geocodeCity_miss_eq E city (Js.Int 1) w Hmiss).
    change (Js.orDefault (Js.Int 1) (Js.Int 1)) with (Js.Int 1).
    rewrite Hgeo, Hnone. reflexivity. }
  subst w1. rewrite Hrun. simpl fst. simpl snd. repeat split.
  intros t includeForecast' Hfresh. simpl in Hfresh.
  unfold WeatherService.getWeatherForChat, tryCatch, bind.
  rewrite (geocodeCity_hit E city (Js.Int 1) _ (Locations [])); [reflexivity|].
  change (Js.orDefault (Js.Int 1) (Js.Int 1)) with (Js.Int 1).
  rewrite cacheGet_atTime. simpl cache. rewrite lookup_insert_eq. simpl.
  destruct (Z.ltb_spec (t - (now w + elapsed)) geocodeTTL); [reflexivity|lia].
Qed.

Lemma x4_witness :
  let w1 := fst (WeatherService.getWeatherForChat StandIn.claudeDown (Js.Str "Atlantis")
                   false StandIn.fresh) in
  snd (WeatherService.getWeatherForChat StandIn.claudeDown (Js.Str "Atlantis")
         false StandIn.fresh)
  = Normal (WeatherService.ChatError
              (WeatherService.notFound StandIn.claudeDown (Js.Str "Atlantis")))
  /\ trace w1 = GeoSearch (Js.Str "Atlantis") (Js.Int 1) :: trace StandIn.fresh
  /\ forall t includeForecast',
       t - now w1 < geocodeTTL ->
       WeatherService.getWeatherForChat StandIn.claudeDown (Js.Str "Atlantis")
         includeForecast' (atTime t w1)
       = (atTime t w1,
          Normal (WeatherService.ChatError
                    (WeatherService.notFound StandIn.claudeDown (Js.Str "Atlantis")))).
Proof.
  apply (x4_empty_geocoding_result_is_cached StandIn.claudeDown (Js.Str "Atlantis") false
           StandIn.fresh 100 None); reflexivity.
Defined.

(** ** The returned object is the cached object *)

Lemma getWeatherForecast_cached E latitude longitude days w w1 d :
  WeatherService.getWeatherForecast E latitude longitude days w = (w1, Normal d) ->
  exists cached,
    cache w1 !! WeatherService.forecastKey E latitude longitude (Js.orDefault (Js.Int 7) days)
    = Some cached
    /\ data cached = d.
Proof.
  destruct (WeatherService.cacheGet weatherTTL
              (WeatherService.forecastKey E latitude longitude
                 (Js.orDefault (Js.Int 7) days)) w) as [v|] eqn:Hget.
  - rewrite (getWeatherForecast_hit E latitude longitude days w v Hget).
    intros [= <- <-]. apply cacheGet_spec in Hget as (cached & Hk & Hd & _).
    now exists cached.
  - intros Hrun. exists (mkEntry d (now w1)). split; [|reflexivity].
    eapply getWeatherForecast_stores; eassumption.
Qed.

Lemma format_weatherData E (includeForecast : bool) wd reply :
  (if includeForecast
   then WeatherService.formatForecastForChat E (Forecast wd)
   else WeatherService.formatCurrentWeatherForChat E (Forecast wd)) = Normal reply ->
  WeatherService.weatherData reply = wd.
Proof.
  destruct includeForecast; simpl.
  - destruct (WeatherData.location wd); [|discriminate]. now intros [= <-].
  - destruct (WeatherData.location wd) as [location|]; [|discriminate].
    destruct (fixed E "location.latitude" 2 (Location.latitude location)); [|discriminate].
    destruct (fixed E "location.longitude" 2 (Location.longitude location)); [|discriminate].
    now intros [= <-].
Qed.

(** X5. The weather data that [getWeatherForChat] hands out is the object
    held by the cache: when it answers with data, that data carries the
    first location of the geocoding lookup, and the cache entry under the
    forecast key of that location holds this very data, the location
    assigned after the forecast lookup included. *)
Theorem x5_chat_data_is_the_cached_object :
  forall E city includeForecast w w' reply,
    WeatherService.getWeatherForChat E city includeForecast w
    = (w', Normal (WeatherService.ChatOk reply)) ->
    exists location rest cached,
      snd (WeatherService.geocodeCity E city (Js.Int 1) w)
      = Normal (Locations (location :: rest))
      /\ WeatherData.location (WeatherService.weatherData reply) = Some location
      /\ cache w' !! WeatherService.forecastKey E (Location.latitude location)
                       (Location.longitude location)
                       (Js.Int (if includeForecast then 7 else 1))
         = Some cached
      /\ data cached = Forecast (WeatherService.weatherData reply).
Proof.
  intros E city includeForecast w w' reply.
  unfold WeatherService.getWeatherForChat, tryCatch, bind at 1.
  destruct (WeatherService.geocodeCity E city (Js.Int 1) w)
    as [w1 [[[|location rest]|wd]|m]]; try discriminate.
  cbv zeta. unfold bind at 1.
  destruct (WeatherService.getWeatherForecast E (Location.latitude location)
              (Location.longitude location) (Js.Int (if includeForecast then 7 else 1)) w1)
    as [w2 [d|m]] eqn:Hfc; [|discriminate].
  apply getWeatherForecast_cached in Hfc as (cached & Hk & Hd).
  assert (Hdays : Js.orDefault (Js.Int 7) (Js.Int (if includeForecast then 7 else 1))
                  = Js.Int (if includeForecast then 7 else 1)) by now destruct includeForecast.
  rewrite Hdays in Hk.
  unfold WeatherService.assignLocation, bind, modify, ret, lift.
  destruct d as [l|wd].
  - destruct includeForecast; discriminate.
  - destruct (if includeForecast
              then WeatherService.formatForecastForChat E
                     (Forecast (WeatherData.setLocation location wd))
              else WeatherService.formatCurrentWeatherForChat E
                     (Forecast (WeatherData.setLocation location wd)))
      as [reply'|m] eqn:Hfmt.
    + assert (Hw : WeatherService.weatherData reply' = WeatherData.setLocation location wd)
        by (eapply format_weatherData, Hfmt).
      destruct includeForecast; rewrite Hfmt; intros [= <- <-];
        (exists location, rest, (mkEntry (Forecast (WeatherData.setLocation location wd))
                                  (timestamp cached)));
        rewrite Hw; simpl; (split; [reflexivity|]); (split; [reflexivity|]);
        (split; [|reflexivity]);
        unfold withCache; simpl; rewrite lookup_alter_eq, Hk; reflexivity.
    + destruct includeForecast; rewrite Hfmt; discriminate.
Qed.

Lemma x5_witness :
  exists w' reply location cached,
    WeatherService.getWeatherForChat StandIn.claudeDown (Js.Str "Paris") false StandIn.fresh
    = (w', Normal (WeatherService.ChatOk reply))
    /\ WeatherData.location (WeatherService.weatherData reply) = Some location
    /\ cache w' !! WeatherService.forecastKey StandIn.claudeDown (Location.latitude location)
                     (Location.longitude location) (Js.Int 1)
       = Some cached
    /\ data cached = Forecast (WeatherService.weatherData reply).
Proof.
  let out := eval vm_compute in
               (WeatherService.getWeatherForChat StandIn.claudeDown (Js.Str "Paris") false
                  StandIn.fresh) in
  match out with
  | (?w1, Normal (WeatherService.ChatOk ?reply)) =>
      assert (Hrun : WeatherService.getWeatherForChat StandIn.claudeDown (Js.Str "Paris")
                       false StandIn.fresh = (w1, Normal (WeatherService.ChatOk reply)))
        by (vm_compute; reflexivity);
      destruct (x5_chat_data_is_the_cached_object StandIn.claudeDown (Js.Str "Paris") false
                  StandIn.fresh w1 reply Hrun)
        as (location & rest & cached & _ & Hloc & Hkey & Hdata);
      exists w1, reply, location, cached
  end.
  split; [exact Hrun|]. split; [exact Hloc|]. split; [exact Hkey|exact Hdata].
Defined.
(** ** Each category of key holds its kind of value *)

Lemma wellKinded_cache w w' : cache w' = cache w -> wellKinded w -> wellKinded w'.
Proof. intros He Hw key cached. rewrite He. apply Hw. Qed.

Lemma keeps_ret {A : Type} (a : A) (Q : A -> Prop) : Q a -> keeps (ret a) Q.
Proof. intros HQ w Hw. split; [exact Hw|]. now intros a' [= <-]. Qed.

Lemma keeps_throw {A : Type} (m : string) (Q : A -> Prop) : keeps (throw m) Q.
Proof. intros w Hw. split; [exact Hw|]. intros a [=]. Qed.

Lemma keeps_lift {A : Type} (c : completion A) : keeps (lift c) (fun _ => True).
Proof. intros w Hw. now split. Qed.

Lemma keeps_weaken {A : Type} (c : M World A) (P Q : A -> Prop) :
  keeps c P -> (forall a, P a -> Q a) -> keeps c Q.
Proof.
  intros Hc HPQ w Hw. destruct (Hc w Hw) as [Hk HP]. split; [exact Hk|].
  intros a Ha. now apply HPQ, HP.
Qed.

Lemma keeps_bind {A B : Type} (c : M World A) (k : A -> M World B)
    (P : A -> Prop) (Q : B -> Prop) :
  keeps c P -> (forall a, P a -> keeps (k a) Q) -> keeps (bind c k) Q.
Proof.
  intros Hc Hk w Hw. destruct (Hc w Hw) as [Hk1 HP]. unfold bind.
  destruct (c w) as [w1 [a|m]]; simpl in *.
  - apply (Hk a); [now apply HP|exact Hk1].
  - split; [exact Hk1|]. intros b [=].
Qed.

Lemma keeps_then {A B : Type} (c : M World A) (k : A -> M World B) (Q : B -> Prop) :
  keeps c (fun _ => True) -> (forall a, keeps (k a) Q) -> keeps (bind c k) Q.
Proof. intros Hc Hk. apply (keeps_bind c k (fun _ => True)); auto. Qed.

Lemma keeps_tryCatch {A : Type} (body : M World A) (h : string -> M World A)
    (Q : A -> Prop) :
  keeps body Q -> (forall m, keeps (h m) Q) -> keeps (tryCatch body h) Q.
Proof.
  intros Hb Hh w Hw. destruct (Hb w Hw) as [Hk HQ]. unfold tryCatch.
  destruct (body w) as [w1 [a|m]]; simpl in *.
  - split; [exact Hk|]. intros a' [= <-]. now apply HQ.
  - now apply Hh.
Qed.

Lemma keeps_request {A : Type} req (answer : list Request -> Z * (string + A)) :
  keeps (request req answer) (fun _ => True).
Proof.
  intros w Hw. split; [|trivial]. unfold request.
  destruct (answer (trace w)) as [elapsed [m|b]]; exact Hw.
Qed.

Lemma keeps_cacheGet ttl key :
  keeps (gets (WeatherService.cacheGet ttl key))
    (fun hit => forall d, hit = Some d -> kindOk key d = true).
Proof.
  intros w Hw. split; [exact Hw|]. intros hit [= <-] d Hd.
  apply cacheGet_spec in Hd as (cached & Hk & <- & _). eapply Hw, Hk.
Qed.

Lemma keeps_cacheSet key d :
  kindOk key d = true -> keeps (WeatherService.cacheSet key d) (fun _ => True).
Proof.
  intros Hd w Hw. split; [|trivial]. intros key' cached. simpl.
  destruct (decide (key' = key)) as [->|Hne].
  - rewrite lookup_insert_eq. now intros [= <-].
  - rewrite lookup_insert_ne by congruence. apply Hw.
Qed.

Lemma keeps_assignLocation key location d :
  kindOk key d = true ->
  keeps (WeatherService.assignLocation key location d) (fun _ => True).
Proof.
  intros Hd w Hw. split; [|trivial]. intros key' cached. simpl.
  destruct (decide (key' = key)) as [->|Hne].
  - rewrite lookup_alter_eq. destruct (cache w !! key); [|discriminate].
    intros [= <-]. simpl. now destruct d.
  - rewrite lookup_alter_ne by congruence. apply Hw.
Qed.

Lemma keeps_clearCache : keeps WeatherService.clearCache (fun _ => True).
Proof. intros w Hw. split; [|trivial]. intros key cached. simpl. now rewrite lookup_empty. Qed.

Lemma kindOk_geocodeKey E city count l :
  kindOk (WeatherService.geocodeKey E city count) (Locations l) = true.
Proof. apply prefix_append. Qed.

Lemma kindOk_forecastKey E latitude longitude days wd :
  kindOk (WeatherService.forecastKey E latitude longitude days) (Forecast wd) = true.
Proof. apply prefix_append. Qed.

Lemma keeps_geocodeCity E city count :
  keeps (WeatherService.geocodeCity E city count) isLocations.
Proof.
  unfold WeatherService.geocodeCity. eapply keeps_bind; [apply keeps_cacheGet|].
  intros [d|] Hhit.
  - apply keeps_ret. specialize (Hhit d eq_refl). destruct d as [l|wd].
    + now exists l.
    + discriminate.
  - apply keeps_tryCatch; [|intros m; apply keeps_throw].
    apply keeps_then; [apply keeps_request|]. intros results.
    apply keeps_then; [apply keeps_cacheSet, kindOk_geocodeKey|]. intros _.
    apply keeps_ret. now eexists.
Qed.

Lemma keeps_getWeatherForecast E latitude longitude days :
  keeps (WeatherService.getWeatherForecast E latitude longitude days) isForecast.
Proof.
  unfold WeatherService.getWeatherForecast. eapply keeps_bind; [apply keeps_cacheGet|].
  intros [d|] Hhit.
  - apply keeps_ret. specialize (Hhit d eq_refl). destruct d as [l|wd].
    + discriminate.
    + now exists wd.
  - apply keeps_tryCatch; [|intros m; apply keeps_throw].
    apply keeps_then; [apply keeps_request|]. intros body.
    apply keeps_then; [intros w Hw; now split|]. intros t.
    apply keeps_then; [apply keeps_cacheSet, kindOk_forecastKey|]. intros _.
    apply keeps_ret. now eexists.
Qed.

Ltac keeps_step :=
  first
    [ apply keeps_ret; exact I
    | apply keeps_throw
    | apply keeps_lift
    | apply keeps_request
    | apply keeps_tryCatch; [|intros ?]
    | apply keeps_then; [|intros ?] ].

Lemma keeps_getWeatherForChat E city includeForecast :
  keeps (WeatherService.getWeatherForChat E city includeForecast) (fun _ => True).
Proof.
  unfold WeatherService.getWeatherForChat.
  apply keeps_tryCatch; [|intros m; keeps_step].
  eapply keeps_bind; [apply keeps_geocodeCity|].
  intros d [[|location rest] ->]; [keeps_step|].
  eapply keeps_bind; [apply keeps_getWeatherForecast|].
  intros d' [wd ->].
  apply keeps_then; [apply keeps_assignLocation, kindOk_forecastKey|]. intros d''.
  destruct includeForecast; repeat keeps_step.
Qed.

Lemma keeps_complete E prompt : keeps (ClaudeService.complete E prompt) (fun _ => True).
Proof. apply keeps_request. Qed.

Lemma keeps_analyzeLocationWeather E d latitude longitude days :
  keeps (ClaudeService.analyzeLocationWeather E d latitude longitude days) (fun _ => True).
Proof.
  unfold ClaudeService.analyzeLocationWeather. cbv zeta.
  apply keeps_then; [apply keeps_lift|intros lat].
  apply keeps_then; [apply keeps_lift|intros lon].
  destruct d; [keeps_step|].
  apply keeps_tryCatch; [apply keeps_complete|intros m].
  destruct (Js.isNum 1 _); keeps_step.
Qed.

Ltac keeps_claude :=
  unfold ClaudeService.analyzeCurrentWeather, ClaudeService.analyzeWeatherForecast,
    ClaudeService.answerWeatherQuestion;
  repeat (keeps_step || apply keeps_complete).

Lemma keeps_handleGetWeather E claude city :
  keeps (WeatherMCPServer.handleGetWeather E claude city) (fun _ => True).
Proof.
  unfold WeatherMCPServer.handleGetWeather.
  apply keeps_then; [apply keeps_getWeatherForChat|]. intros [m|reply]; [keeps_step|].
  cbv zeta. apply keeps_then; [|intros t; keeps_step].
  destruct claude; keeps_claude.
Qed.

Lemma keeps_handleGetForecast E claude city days :
  keeps (WeatherMCPServer.handleGetForecast E claude city days) (fun _ => True).
Proof.
  unfold WeatherMCPServer.handleGetForecast.
  apply keeps_then; [apply keeps_getWeatherForChat|]. intros [m|reply]; [keeps_step|].
  cbv zeta. apply keeps_then; [|intros t; keeps_step].
  destruct claude; keeps_claude.
Qed.

Ltac keeps_coords :=
  eapply keeps_bind; [apply keeps_getWeatherForecast|]; intros ? [? ->];
  apply keeps_then; [apply keeps_lift|intros ?];
  apply keeps_then; [apply keeps_lift|intros ?];
  apply keeps_then; [apply keeps_assignLocation, kindOk_forecastKey|intros ?];
  apply keeps_then;
    [ match goal with
      | |- keeps (if ?claude then _ else _) _ =>
          destruct claude;
          [apply keeps_tryCatch; [apply keeps_analyzeLocationWeather|intros ?]|]
      end;
      match goal with
      | |- keeps (if ?b then _ else _) _ => destruct b; keeps_step
      end
    | intros ? ].

Lemma keeps_handleGetWeatherByCoords E claude latitude longitude days :
  keeps (WeatherMCPServer.handleGetWeatherByCoords E claude latitude longitude days)
    (fun _ => True).
Proof.
  unfold WeatherMCPServer.handleGetWeatherByCoords. cbv zeta. keeps_coords.
  match goal with |- keeps (match ?d with _ => _ end) _ => destruct d end; keeps_step.
Qed.

Lemma keeps_handleGeocodeCity E city count :
  keeps (WeatherMCPServer.handleGeocodeCity E city count) (fun _ => True).
Proof.
  unfold WeatherMCPServer.handleGeocodeCity. cbv zeta.
  apply keeps_then; [eapply keeps_weaken; [apply keeps_geocodeCity|trivial]|].
  intros [l|wd]; [|keeps_step].
  apply keeps_then; [destruct l; keeps_step|intros body; keeps_step].
Qed.

Lemma keeps_handleWeatherQuestion E claude question city :
  keeps (WeatherMCPServer.handleWeatherQuestion E claude question city) (fun _ => True).
Proof.
  unfold WeatherMCPServer.handleWeatherQuestion. cbv zeta.
  destruct claude; simpl; [|keeps_step].
  apply keeps_then.
  - destruct (Js.truthy _); [|keeps_step].
    apply keeps_tryCatch; [|intros m; keeps_step].
    apply keeps_then; [apply keeps_getWeatherForChat|]. intros [m|reply]; keeps_step.
  - intros wd. apply keeps_tryCatch; [|intros m; keeps_step].
    apply keeps_then; [keeps_claude|intros t; keeps_step].
Qed.

Lemma keeps_callTool E claude toolName args :
  keeps (WeatherMCPServer.callTool E claude toolName args) (fun _ => True).
Proof.
  unfold WeatherMCPServer.callTool. apply keeps_tryCatch; [|intros m; keeps_step].
  unfold WeatherMCPServer.dispatch.
  repeat match goal with
         | |- keeps (if ?b then _ else _) _ => destruct b
         end;
    repeat match goal with
           | |- keeps (bind (lift _) _) _ => apply keeps_then; [apply keeps_lift|intros ?]
           end;
    auto using keeps_handleGetWeather, keeps_handleGetForecast,
      keeps_handleGetWeatherByCoords, keeps_handleGeocodeCity, keeps_handleWeatherQuestion.
  apply keeps_throw.
Qed.

Lemma keeps_sdk_handleGetWeather E claude city useFahrenheit :
  keeps (RealMCPWeatherServer.handleGetWeather E claude city useFahrenheit) (fun _ => True).
Proof.
  unfold RealMCPWeatherServer.handleGetWeather, RealMCPWeatherServer.callGetWeatherForChat.
  apply keeps_tryCatch; [|intros m; keeps_step].
  apply keeps_then; [apply keeps_getWeatherForChat|]. intros [m|reply]; [keeps_step|].
  cbv zeta. apply keeps_then; [|intros t; keeps_step].
  destruct claude; keeps_claude.
Qed.

Lemma keeps_sdk_handleGetForecast E claude city days useFahrenheit :
  keeps (RealMCPWeatherServer.handleGetForecast E claude city days useFahrenheit)
    (fun _ => True).
Proof.
  unfold RealMCPWeatherServer.handleGetForecast, RealMCPWeatherServer.callGetWeatherForChat.
  apply keeps_tryCatch; [|intros m; keeps_step].
  apply keeps_then; [apply keeps_getWeatherForChat|]. intros [m|reply]; [keeps_step|].
  cbv zeta. apply keeps_then; [|intros t; keeps_step].
  destruct claude; keeps_claude.
Qed.

Lemma keeps_sdk_handleWeatherQuestion E claude question city :
  keeps (SdkHandlers.handleWeatherQuestion E claude question city) (fun _ => True).
Proof.
  unfold SdkHandlers.handleWeatherQuestion. cbv zeta.
  destruct (Js.truthy (SdkHandlers.targetCity question (Js.orDefault Js.Null city)));
    destruct (RealMCPWeatherServer.detectFahrenheitPreference (Some question)); simpl;
    try (destruct (SdkHandlers.isForecastRequest question);
         auto using keeps_sdk_handleGetWeather, keeps_sdk_handleGetForecast).
  all: destruct claude; simpl; [|keeps_step].
  all: apply keeps_then; [keeps_step|]; intros wd.
  all: apply keeps_tryCatch; [|intros m; keeps_step].
  all: apply keeps_then; [keeps_claude|intros t; keeps_step].
Qed.

Lemma keeps_invoke E claude call :
  keeps (SdkTools.invoke E claude call) (fun _ => True).
Proof.
  destruct call; unfold SdkTools.invoke.
  - exact (keeps_sdk_handleGetWeather E claude city false).
  - exact (keeps_sdk_handleGetForecast E claude city days false).
  - unfold SdkHandlers.handleGetWeatherByCoords. cbv zeta.
    apply keeps_tryCatch; [|intros m; keeps_step]. keeps_coords. keeps_step.
  - unfold SdkHandlers.handleGeocodeCity. cbv zeta.
    apply keeps_tryCatch; [|intros m; keeps_step].
    apply keeps_then; [eapply keeps_weaken; [apply keeps_geocodeCity|trivial]|].
    intros [l|wd]; [|keeps_step].
    apply keeps_then; [destruct l; keeps_step|intros body; keeps_step].
  - apply keeps_sdk_handleWeatherQuestion.
  - exact (keeps_sdk_handleGetWeather E claude city true).
  - exact (keeps_sdk_handleGetForecast E claude city days true).
Qed.

Lemma reachableWorld_wellKinded E w : reachableWorld E w -> wellKinded w.
Proof.
  induction 1 as [t|claude toolName args w _ IH|claude call w _ IH|t w _ IH|w _ IH].
  - intros key cached. simpl. now rewrite lookup_empty.
  - apply keeps_callTool, IH.
  - apply keeps_invoke, IH.
  - exact IH.
  - apply keeps_clearCache, IH.
Qed.

(** X6. Each category of cache key holds its own kind of value, in every
    state a server process can reach (from an empty cache, through tool
    calls of either server, the passing of time and [clearCache]): an
    entry under a "geocode_" key is a locations array and an entry under a
    "forecast_" key is a forecast object. So a geocoding lookup that
    completes returns a locations array and a forecast lookup that
    completes returns a forecast object, also when they answer from the
    cache. *)
Theorem x6_cache_entries_have_the_kind_of_their_key :
  forall E w,
    reachableWorld E w ->
    wellKinded w
    /\ (forall city count w' d,
           WeatherService.geocodeCity E city count w = (w', Normal d) -> isLocations d)
    /\ (forall latitude longitude days w' d,
           WeatherService.getWeatherForecast E latitude longitude days w = (w', Normal d) ->
           isForecast d).
Proof.
  intros E w Hreach. apply reachableWorld_wellKinded in Hreach as Hw.
  split; [exact Hw|]. split.
  - intros city count w' d Hrun.
    destruct (keeps_geocodeCity E city count w Hw) as [_ HQ]. apply HQ. now rewrite Hrun.
  - intros latitude longitude days w' d Hrun.
    destruct (keeps_getWeatherForecast E latitude longitude days w Hw) as [_ HQ].
    apply HQ. now rewrite Hrun.
Qed.

Lemma x6_witness :
  let w := fst (WeatherMCPServer.callTool StandIn.claudeDown false "get_weather"
                  (StandIn.cityArgs "Paris") StandIn.fresh) in
  wellKinded w
  /\ (forall city count w' d,
         WeatherService.geocodeCity StandIn.claudeDown city count w = (w', Normal d) ->
         isLocations d)
  /\ (forall latitude longitude days w' d,
         WeatherService.getWeatherForecast StandIn.claudeDown latitude longitude days w
         = (w', Normal d) ->
         isForecast d).
Proof.
  exact (x6_cache_entries_have_the_kind_of_their_key StandIn.claudeDown _
           (reach_callTool StandIn.claudeDown false "get_weather" (StandIn.cityArgs "Paris")
              StandIn.fresh (reach_start StandIn.claudeDown 1000))).
Defined.
(** ** How many requests a call sends *)

Lemma sends_weaken {A : Type} (n m : nat) (c : M World A) :
  (n <= m)%nat -> sends n c -> sends m c.
Proof. intros Hle Hc w. destruct (Hc w) as (sent & Ht & Hn). exists sent. split; [exact Ht|lia]. Qed.

Lemma sends_ret {A : Type} (a : A) : sends 0 (ret a).
Proof. intros w. now exists []. Qed.

Lemma sends_throw {A : Type} (m : string) : sends 0 (throw (A:=A) m).
Proof. intros w. now exists []. Qed.

Lemma sends_lift {A : Type} (c : completion A) : sends 0 (lift c).
Proof. intros w. now exists []. Qed.

Lemma sends_gets {A : Type} (f : World -> A) : sends 0 (gets f).
Proof. intros w. now exists []. Qed.

Lemma sends_withCache f : sends 0 (modify (withCache f)).
Proof. intros w. now exists []. Qed.

Lemma sends_request {A : Type} req (answer : list Request -> Z * (string + A)) :
  sends 1 (request req answer).
Proof.
  intros w. exists [req]. unfold request.
  destruct (answer (trace w)) as [elapsed [m|b]]; split; reflexivity || (simpl; lia).
Qed.

Lemma sends_bind {A B : Type} (n m : nat) (c : M World A) (k : A -> M World B) :
  sends n c -> (forall a, sends m (k a)) -> sends (n + m) (bind c k).
Proof.
  intros Hc Hk w. destruct (Hc w) as (s1 & H1 & Hn). unfold bind.
  destruct (c w) as [w1 [a|reason]]; simpl in *.
  - destruct (Hk a w1) as (s2 & H2 & Hm). exists (s2 ++ s1)%list.
    rewrite H2, H1, length_app. split; [apply app_assoc|lia].
  - exists s1. split; [exact H1|lia].
Qed.

Lemma sends_tryCatch {A : Type} (n m : nat) (body : M World A) (h : string -> M World A) :
  sends n body -> (forall reason, sends m (h reason)) -> sends (n + m) (tryCatch body h).
Proof.
  intros Hb Hh w. destruct (Hb w) as (s1 & H1 & Hn). unfold tryCatch.
  destruct (body w) as [w1 [a|reason]]; simpl in *.
  - exists s1. split; [exact H1|lia].
  - destruct (Hh reason w1) as (s2 & H2 & Hm). exists (s2 ++ s1)%list.
    rewrite H2, H1, length_app. split; [apply app_assoc|lia].
Qed.

(** Computations that send nothing. *)
Ltac sends_none :=
  repeat first
    [ apply sends_ret
    | apply sends_throw
    | apply sends_lift
    | apply sends_gets
    | apply sends_withCache
    | apply (sends_bind 0 0); [|intros ?]
    | apply (sends_tryCatch 0 0); [|intros ?]
    | match goal with
      | |- sends _ (if ?b then _ else _) => destruct b
      | |- sends _ (match ?d with _ => _ end) => destruct d
      end ].

Ltac sends_nothing n := apply (sends_weaken 0 n); [lia|sends_none].

Lemma sends_cacheSet key d : sends 0 (WeatherService.cacheSet key d).
Proof. unfold WeatherService.cacheSet, dateNow. sends_none. Qed.

Lemma sends_assignLocation key l d : sends 0 (WeatherService.assignLocation key l d).
Proof. unfold WeatherService.assignLocation. sends_none. Qed.

Lemma sends_geocodeCity E city count : sends 1 (WeatherService.geocodeCity E city count).
Proof.
  unfold WeatherService.geocodeCity. cbv zeta.
  apply (sends_bind 0 1); [apply sends_gets|]. intros [d|]; [sends_nothing 1%nat|].
  apply (sends_tryCatch 1 0); [|intros reason; apply sends_throw].
  apply (sends_bind 1 0); [apply sends_request|]. intros results.
  apply (sends_bind 0 0); [apply sends_cacheSet|intros _; apply sends_ret].
Qed.

Lemma sends_getWeatherForecast E latitude longitude days :
  sends 1 (WeatherService.getWeatherForecast E latitude longitude days).
Proof.
  unfold WeatherService.getWeatherForecast. cbv zeta.
  apply (sends_bind 0 1); [apply sends_gets|]. intros [d|]; [sends_nothing 1%nat|].
  apply (sends_tryCatch 1 0); [|intros reason; apply sends_throw].
  apply (sends_bind 1 0); [apply sends_request|]. intros body.
  apply (sends_bind 0 0); [apply sends_gets|]. intros t.
  apply (sends_bind 0 0); [apply sends_cacheSet|intros _; apply sends_ret].
Qed.

Lemma sends_getWeatherForChat E city includeForecast :
  sends 2 (WeatherService.getWeatherForChat E city includeForecast).
Proof.
  unfold WeatherService.getWeatherForChat.
  apply (sends_tryCatch 2 0); [|intros reason; apply sends_ret].
  apply (sends_bind 1 1); [apply sends_geocodeCity|].
  intros [[|location rest]|wd]; [sends_nothing 1%nat| |sends_nothing 1%nat].
  cbv zeta. apply (sends_bind 1 0); [apply sends_getWeatherForecast|]. intros d.
  apply (sends_bind 0 0); [apply sends_assignLocation|]. intros d'. sends_none.
Qed.

Lemma sends_complete E prompt : sends 1 (ClaudeService.complete E prompt).
Proof. apply sends_request. Qed.

Lemma sends_analyzeCurrentWeather E wd city :
  sends 1 (ClaudeService.analyzeCurrentWeather E wd city).
Proof.
  unfold ClaudeService.analyzeCurrentWeather. cbv zeta.
  apply (sends_tryCatch 1 0); [apply sends_complete|intros reason; apply sends_ret].
Qed.

Lemma sends_analyzeWeatherForecast E wd city :
  sends 1 (ClaudeService.analyzeWeatherForecast E wd city).
Proof.
  unfold ClaudeService.analyzeWeatherForecast. cbv zeta.
  apply (sends_tryCatch 1 0); [apply sends_complete|intros reason; apply sends_lift].
Qed.

Lemma sends_analyzeLocationWeather E d latitude longitude days :
  sends 1 (ClaudeService.analyzeLocationWeather E d latitude longitude days).
Proof.
  unfold ClaudeService.analyzeLocationWeather. cbv zeta.
  apply (sends_bind 0 1); [apply sends_lift|intros lat].
  apply (sends_bind 0 1); [apply sends_lift|intros lon].
  destruct d; [sends_nothing 1%nat|].
  apply (sends_tryCatch 1 0); [apply sends_complete|intros reason; sends_none].
Qed.

Lemma sends_answerWeatherQuestion E question wd city :
  sends 1 (ClaudeService.answerWeatherQuestion E question wd city).
Proof.
  unfold ClaudeService.answerWeatherQuestion. cbv zeta.
  apply (sends_tryCatch 1 0); [apply sends_complete|intros reason; apply sends_ret].
Qed.

Lemma sends_analysis {A : Type} (claude : bool) (analysis : M World A) (basic : M World A) :
  sends 1 analysis -> sends 0 basic ->
  sends 1 (if claude then tryCatch analysis (fun _ => basic) else basic).
Proof.
  intros Ha Hb. destruct claude.
  - now apply (sends_tryCatch 1 0).
  - now apply (sends_weaken 0 1); [lia|].
Qed.

Lemma sends_handleGetWeather E claude city :
  sends 3 (WeatherMCPServer.handleGetWeather E claude city).
Proof.
  unfold WeatherMCPServer.handleGetWeather.
  apply (sends_bind 2 1); [apply sends_getWeatherForChat|].
  intros [reason|reply]; [sends_nothing 1%nat|]. cbv zeta.
  apply (sends_bind 1 0); [|intros t; apply sends_ret].
  apply sends_analysis; [apply sends_analyzeCurrentWeather|apply sends_ret].
Qed.

Lemma sends_handleGetForecast E claude city days :
  sends 3 (WeatherMCPServer.handleGetForecast E claude city days).
Proof.
  unfold WeatherMCPServer.handleGetForecast.
  apply (sends_bind 2 1); [apply sends_getWeatherForChat|].
  intros [reason|reply]; [sends_nothing 1%nat|]. cbv zeta.
  apply (sends_bind 1 0); [|intros t; apply sends_ret].
  apply sends_analysis; [apply sends_analyzeWeatherForecast|apply sends_ret].
Qed.

Ltac sends_coords :=
  apply (sends_bind 1 1); [apply sends_getWeatherForecast|intros ?];
  apply (sends_bind 0 1); [apply sends_lift|intros ?];
  apply (sends_bind 0 1); [apply sends_lift|intros ?];
  apply (sends_bind 0 1); [apply sends_assignLocation|intros ?];
  apply (sends_bind 1 0);
    [apply sends_analysis; [apply sends_analyzeLocationWeather|sends_none]|intros ?].

Lemma sends_handleGetWeatherByCoords E claude latitude longitude days :
  sends 2 (WeatherMCPServer.handleGetWeatherByCoords E claude latitude longitude days).
Proof.
  unfold WeatherMCPServer.handleGetWeatherByCoords. cbv zeta. sends_coords. sends_none.
Qed.

Lemma sends_handleGeocodeCity E city count :
  sends 1 (WeatherMCPServer.handleGeocodeCity E city count).
Proof.
  unfold WeatherMCPServer.handleGeocodeCity. cbv zeta.
  apply (sends_bind 1 0); [apply sends_geocodeCity|]. intros d. sends_none.
Qed.

Lemma sends_chatContext E (b : bool) city :
  sends 2
    (if b then
       tryCatch
         (let* result := WeatherService.getWeatherForChat E city false in
          match result with
          | WeatherService.ChatOk reply => ret (Some (WeatherService.weatherData reply))
          | WeatherService.ChatError _ => ret None
          end)
         (fun _ => ret None)
     else ret None).
Proof.
  destruct b; [|sends_nothing 2%nat].
  apply (sends_tryCatch 2 0); [|intros reason; apply sends_ret].
  apply (sends_bind 2 0); [apply sends_getWeatherForChat|]. intros r. sends_none.
Qed.

Lemma sends_handleWeatherQuestion E claude question city :
  sends 3 (WeatherMCPServer.handleWeatherQuestion E claude question city).
Proof.
  unfold WeatherMCPServer.handleWeatherQuestion. cbv zeta.
  destruct claude; simpl; [|sends_nothing 3%nat].
  apply (sends_bind 2 1); [apply sends_chatContext|]. intros wd.
  apply (sends_tryCatch 1 0); [|intros reason; apply sends_ret].
  apply (sends_bind 1 0); [apply sends_answerWeatherQuestion|intros t; apply sends_ret].
Qed.

Lemma sends_sdk_handleGetWeather E claude city useFahrenheit :
  sends 3 (RealMCPWeatherServer.handleGetWeather E claude city useFahrenheit).
Proof.
  unfold RealMCPWeatherServer.handleGetWeather, RealMCPWeatherServer.callGetWeatherForChat.
  apply (sends_tryCatch 3 0); [|intros reason; apply sends_ret].
  apply (sends_bind 2 1); [apply sends_getWeatherForChat|].
  intros [reason|reply]; [sends_nothing 1%nat|]. cbv zeta.
  apply (sends_bind 1 0); [|intros t; apply sends_ret].
  apply sends_analysis; [apply sends_analyzeCurrentWeather|apply sends_ret].
Qed.

Lemma sends_sdk_handleGetForecast E claude city days useFahrenheit :
  sends 3 (RealMCPWeatherServer.handleGetForecast E claude city days useFahrenheit).
Proof.
  unfold RealMCPWeatherServer.handleGetForecast, RealMCPWeatherServer.callGetWeatherForChat.
  apply (sends_tryCatch 3 0); [|intros reason; apply sends_ret].
  apply (sends_bind 2 1); [apply sends_getWeatherForChat|].
  intros [reason|reply]; [sends_nothing 1%nat|]. cbv zeta.
  apply (sends_bind 1 0); [|intros t; apply sends_ret].
  apply sends_analysis; [apply sends_analyzeWeatherForecast|apply sends_ret].
Qed.

Lemma sends_sdk_handleWeatherQuestion E claude question city :
  sends 3 (SdkHandlers.handleWeatherQuestion E claude question city).
Proof.
  unfold SdkHandlers.handleWeatherQuestion. cbv zeta.
  destruct (Js.truthy (SdkHandlers.targetCity question (Js.orDefault Js.Null city)));
    destruct (RealMCPWeatherServer.detectFahrenheitPreference (Some question)); simpl;
    try (destruct (SdkHandlers.isForecastRequest question);
         auto using sends_sdk_handleGetWeather, sends_sdk_handleGetForecast).
  all: destruct claude; simpl; [|sends_nothing 3%nat].
  all: apply (sends_bind 0 3); [apply sends_ret|intros wd].
  all: apply (sends_tryCatch 3 0); [|intros reason; apply sends_ret].
  all: apply (sends_bind 1 2); [apply sends_answerWeatherQuestion|intros t].
  all: sends_nothing 2%nat.
Qed.

Lemma sends_dispatch E claude toolName args :
  sends 3 (WeatherMCPServer.dispatch E claude toolName args).
Proof.
  unfold WeatherMCPServer.dispatch.
  repeat match goal with
         | |- sends _ (if ?b then _ else _) => destruct b
         end;
    repeat match goal with
           | |- sends _ (bind (lift _) _) =>
               apply (sends_bind 0 3); [apply sends_lift|intros ?]
           end.
  - apply sends_handleGetWeather.
  - apply sends_handleGetForecast.
  - apply (sends_weaken 2 3); [lia|apply sends_handleGetWeatherByCoords].
  - apply (sends_weaken 1 3); [lia|apply sends_handleGeocodeCity].
  - apply sends_handleWeatherQuestion.
  - sends_nothing 3%nat.
Qed.

(** X7. A tool call sends at most three requests to the outside (the
    geocoding search, the forecast request, one text completion), and
    never takes a request back: this holds for [callTool] with any tool
    name and arguments and for every callback of the SDK-registered
    server; [geocode_city] sends at most one request and
    [get_weather_by_coords] at most two. *)
Theorem x7_a_call_sends_at_most_three_requests :
  forall E claudeService,
    (forall toolName args, sends 3 (WeatherMCPServer.callTool E claudeService toolName args))
    /\ (forall call, sends 3 (SdkTools.invoke E claudeService call))
    /\ (forall args, sends 1 (WeatherMCPServer.callTool E claudeService "geocode_city" args))
    /\ (forall args,
           sends 2 (WeatherMCPServer.callTool E claudeService "get_weather_by_coords" args)).
Proof.
  intros E claude. repeat split.
  - intros toolName args. unfold WeatherMCPServer.callTool.
    apply (sends_tryCatch 3 0); [apply sends_dispatch|intros reason; apply sends_ret].
  - intros call. destruct call; unfold SdkTools.invoke.
    + exact (sends_sdk_handleGetWeather E claude city false).
    + exact (sends_sdk_handleGetForecast E claude city days false).
    + unfold SdkHandlers.handleGetWeatherByCoords. cbv zeta.
      apply (sends_tryCatch 3 0); [|intros reason; apply sends_ret].
      apply (sends_weaken 2 3); [lia|]. sends_coords. sends_none.
    + unfold SdkHandlers.handleGeocodeCity. cbv zeta.
      apply (sends_tryCatch 3 0); [|intros reason; apply sends_ret].
      apply (sends_weaken 1 3); [lia|].
      apply (sends_bind 1 0); [apply sends_geocodeCity|]. intros d. sends_none.
    + apply sends_sdk_handleWeatherQuestion.
    + exact (sends_sdk_handleGetWeather E claude city true).
    + exact (sends_sdk_handleGetForecast E claude city days true).
  - intros args. unfold WeatherMCPServer.callTool.
    apply (sends_tryCatch 1 0); [|intros reason; apply sends_ret].
    change (WeatherMCPServer.dispatch E claude "geocode_city" args)
      with (let* city := lift (WeatherMCPServer.prop args "city") in
            let* count := lift (WeatherMCPServer.prop args "count") in
            WeatherMCPServer.handleGeocodeCity E city count).
    apply (sends_bind 0 1); [apply sends_lift|intros city].
    apply (sends_bind 0 1); [apply sends_lift|intros count].
    apply sends_handleGeocodeCity.
  - intros args. unfold WeatherMCPServer.callTool.
    apply (sends_tryCatch 2 0); [|intros reason; apply sends_ret].
    change (WeatherMCPServer.dispatch E claude "get_weather_by_coords" args)
      with (let* latitude := lift (WeatherMCPServer.prop args "latitude") in
            let* longitude := lift (WeatherMCPServer.prop args "longitude") in
            let* days := lift (WeatherMCPServer.prop args "days") in
            WeatherMCPServer.handleGetWeatherByCoords E claude latitude longitude days).
    apply (sends_bind 0 2); [apply sends_lift|intros latitude].
    apply (sends_bind 0 2); [apply sends_lift|intros longitude].
    apply (sends_bind 0 2); [apply sends_lift|intros days].
    apply sends_handleGetWeatherByCoords.
Qed.
(** ** What a call asks the outside for *)

Lemma emits_nothing {A : Type} (P : Request -> Prop) (c : M World A) :
  sends 0 c -> emits P c.
Proof.
  intros Hc w. destruct (Hc w) as (sent & Ht & Hn). exists sent. split; [exact Ht|].
  destruct sent; [constructor|simpl in Hn; lia].
Qed.

Lemma emits_request {A : Type} (P : Request -> Prop) req
    (answer : list Request -> Z * (string + A)) :
  P req -> emits P (request req answer).
Proof.
  intros HP w. exists [req]. unfold request.
  destruct (answer (trace w)) as [elapsed [m|b]]; (split; [reflexivity|now constructor]).
Qed.

Lemma emits_bind {A B : Type} (P : Request -> Prop) (c : M World A) (k : A -> M World B) :
  emits P c -> (forall a, emits P (k a)) -> emits P (bind c k).
Proof.
  intros Hc Hk w. destruct (Hc w) as (s1 & H1 & HP1). unfold bind.
  destruct (c w) as [w1 [a|reason]]; simpl in *.
  - destruct (Hk a w1) as (s2 & H2 & HP2). exists (s2 ++ s1)%list.
    rewrite H2, H1. split; [apply app_assoc|now apply Forall_app].
  - now exists s1.
Qed.

Lemma emits_tryCatch {A : Type} (P : Request -> Prop) (body : M World A)
    (h : string -> M World A) :
  emits P body -> (forall reason, emits P (h reason)) -> emits P (tryCatch body h).
Proof.
  intros Hb Hh w. destruct (Hb w) as (s1 & H1 & HP1). unfold tryCatch.
  destruct (body w) as [w1 [a|reason]]; simpl in *.
  - now exists s1.
  - destruct (Hh reason w1) as (s2 & H2 & HP2). exists (s2 ++ s1)%list.
    rewrite H2, H1. split; [apply app_assoc|now apply Forall_app].
Qed.

Ltac emits_none := apply emits_nothing; sends_none.

Lemma emits_geocodeCity E (P : Request -> Prop) city count :
  P (GeoSearch city (Js.orDefault (Js.Int 1) count)) ->
  emits P (WeatherService.geocodeCity E city count).
Proof.
  intros HP. unfold WeatherService.geocodeCity. cbv zeta.
  apply emits_bind; [emits_none|]. intros [d|]; [emits_none|].
  apply emits_tryCatch; [|intros reason; emits_none].
  apply emits_bind; [now apply emits_request|]. intros results.
  apply emits_nothing. apply (sends_bind 0 0); [apply sends_cacheSet|intros _; apply sends_ret].
Qed.

Lemma emits_getWeatherForecast E (P : Request -> Prop) latitude longitude days :
  P (GetForecast latitude longitude (Js.orDefault (Js.Int 7) days)) ->
  emits P (WeatherService.getWeatherForecast E latitude longitude days).
Proof.
  intros HP. unfold WeatherService.getWeatherForecast. cbv zeta.
  apply emits_bind; [emits_none|]. intros [d|]; [emits_none|].
  apply emits_tryCatch; [|intros reason; emits_none].
  apply emits_bind; [now apply emits_request|]. intros body.
  apply emits_nothing. apply (sends_bind 0 0); [apply sends_gets|intros t].
  apply (sends_bind 0 0); [apply sends_cacheSet|intros _; apply sends_ret].
Qed.

Lemma emits_getWeatherForChat E city (includeForecast : bool) :
  emits (asksFor (if includeForecast then 7 else 1))
    (WeatherService.getWeatherForChat E city includeForecast).
Proof.
  unfold WeatherService.getWeatherForChat.
  apply emits_tryCatch; [|intros reason; emits_none].
  apply emits_bind; [now apply emits_geocodeCity|].
  intros [[|location rest]|wd]; [emits_none| |emits_none].
  cbv zeta. apply emits_bind; [apply emits_getWeatherForecast; now destruct includeForecast|].
  intros d. apply emits_nothing.
  apply (sends_bind 0 0); [apply sends_assignLocation|]. intros d'. sends_none.
Qed.

Lemma emits_complete E days prompt : emits (asksFor days) (ClaudeService.complete E prompt).
Proof. now apply emits_request. Qed.

Lemma emits_analysis {A : Type} days (claude : bool) (analysis basic : M World A) :
  emits (asksFor days) analysis -> sends 0 basic ->
  emits (asksFor days) (if claude then tryCatch analysis (fun _ => basic) else basic).
Proof.
  intros Ha Hb. destruct claude.
  - apply emits_tryCatch; [exact Ha|intros _; now apply emits_nothing].
  - now apply emits_nothing.
Qed.

Lemma emits_handleGetWeather E claude city :
  emits (asksFor 1) (WeatherMCPServer.handleGetWeather E claude city).
Proof.
  unfold WeatherMCPServer.handleGetWeather.
  apply emits_bind; [apply (emits_getWeatherForChat E city false)|].
  intros [reason|reply]; [emits_none|]. cbv zeta.
  apply emits_bind; [|intros t; emits_none].
  apply emits_analysis; [|apply sends_ret].
  unfold ClaudeService.analyzeCurrentWeather. cbv zeta.
  apply emits_tryCatch; [apply emits_complete|intros reason; emits_none].
Qed.

Lemma emits_handleGetForecast E claude city days :
  emits (asksFor 7) (WeatherMCPServer.handleGetForecast E claude city days).
Proof.
  unfold WeatherMCPServer.handleGetForecast.
  apply emits_bind; [apply (emits_getWeatherForChat E city true)|].
  intros [reason|reply]; [emits_none|]. cbv zeta.
  apply emits_bind; [|intros t; emits_none].
  apply emits_analysis; [|apply sends_ret].
  unfold ClaudeService.analyzeWeatherForecast. cbv zeta.
  apply emits_tryCatch; [apply emits_complete|intros reason; emits_none].
Qed.
(** ** The text-completion wrapper under failure *)

Lemma complete_eq E prompt w :
  ClaudeService.complete E prompt w
  = (mkWorld (cache w) (now w + fst (messages_create E (trace w) prompt))
       (MessagesCreate prompt :: trace w),
     match snd (messages_create E (trace w) prompt) with
     | inl reason => Throw reason
     | inr text => Normal text
     end).
Proof.
  unfold ClaudeService.complete, request.
  destruct (messages_create E (trace w) prompt) as [elapsed [reason|text]]; reflexivity.
Qed.

Lemma analyzeCurrentWeather_eq E wd city w :
  ClaudeService.analyzeCurrentWeather E wd city w
  = let prompt := ClaudeService.currentPrompt E wd (str E city) in
    (mkWorld (cache w) (now w + fst (messages_create E (trace w) prompt))
       (MessagesCreate prompt :: trace w),
     Normal match snd (messages_create E (trace w) prompt) with
            | inr text => text
            | inl _ => ClaudeService.fallbackCurrentWeatherResponse E wd (str E city)
            end).
Proof.
  unfold ClaudeService.analyzeCurrentWeather, tryCatch. cbv zeta beta.
  rewrite complete_eq. now destruct (snd (messages_create _ _ _)).
Qed.

Lemma answerWeatherQuestion_eq E question context city w :
  ClaudeService.answerWeatherQuestion E question context city w
  = let prompt := ClaudeService.questionPrompt E question context city in
    (mkWorld (cache w) (now w + fst (messages_create E (trace w) prompt))
       (MessagesCreate prompt :: trace w),
     Normal match snd (messages_create E (trace w) prompt) with
            | inr text => text
            | inl _ => questionTemplate true
            end).
Proof.
  unfold ClaudeService.answerWeatherQuestion, tryCatch. cbv zeta beta.
  rewrite complete_eq. now destruct (snd (messages_create _ _ _)).
Qed.

Lemma analyzeWeatherForecast_eq E wd city w :
  ClaudeService.analyzeWeatherForecast E wd city w
  = let prompt := ClaudeService.forecastPrompt E wd (str E city) in
    (mkWorld (cache w) (now w + fst (messages_create E (trace w) prompt))
       (MessagesCreate prompt :: trace w),
     match snd (messages_create E (trace w) prompt) with
     | inr text => Normal text
     | inl _ => ClaudeService.fallbackForecastResponse E wd (str E city)
     end).
Proof.
  unfold ClaudeService.analyzeWeatherForecast, tryCatch. cbv zeta beta.
  rewrite complete_eq. now destruct (snd (messages_create _ _ _)).
Qed.

(** X8. Called with a city and a question that are not objects, of the
    analysis functions of [ClaudeService], [analyzeCurrentWeather] and
    [answerWeatherQuestion] never throw, whatever the completion service
    does; [analyzeWeatherForecast] throws in exactly one case: the
    completion fails and the forecast has no days, the fallback template
    then reading [temperatureMin] of an undefined first day. (The prompts
    are built before the [try]: an object with no string conversion in
    the place of the city or of the question makes each function throw
    the [TypeError] of the template.) *)
Theorem x8_analysis_throws_only_on_an_empty_forecast :
  forall E wd city w,
    primitive city = true ->
    (exists w' text, ClaudeService.analyzeCurrentWeather E wd city w = (w', Normal text))
    /\ (forall question context,
           primitive question = true ->
           exists w' text,
             ClaudeService.answerWeatherQuestion E question context city w
             = (w', Normal text))
    /\ (forall reason,
           snd (ClaudeService.analyzeWeatherForecast E wd city w) = Throw reason
           <-> (exists why,
                   snd (messages_create E (trace w)
                          (ClaudeService.forecastPrompt E wd (str E city))) = inl why)
               /\ WeatherData.daily wd = []
               /\ reason = "Cannot read properties of undefined (reading 'temperatureMin')").
Proof.
  intros E wd city w _. split; [|split].
  - rewrite analyzeCurrentWeather_eq. now eexists _, _.
  - intros question context _. rewrite answerWeatherQuestion_eq. now eexists _, _.
  - intros reason. rewrite analyzeWeatherForecast_eq. cbv zeta.
    destruct (snd (messages_create _ _ _)) as [why|text]; simpl.
    + unfold ClaudeService.fallbackForecastResponse.
      destruct (WeatherData.daily wd) as [|today rest]; simpl.
      * split; [intros [= <-]; eauto|]. now intros (_ & _ & ->).
      * split; [discriminate|]. now intros (_ & [=] & _).
    + split; [discriminate|]. now intros ([why [=]] & _).
Qed.

(** A run of X8: the completion service rejects the API key, and the
    analysis of the weather of Paris and the answer to a question about it
    are returned all the same. *)
Lemma x8_witness :
  (exists w' text,
      ClaudeService.analyzeCurrentWeather StandIn.claudeDown
        (WeatherService.parseForecast 1000 StandIn.body) (Js.Str "Paris") StandIn.fresh
      = (w', Normal text))
  /\ (exists w' text,
         ClaudeService.answerWeatherQuestion StandIn.claudeDown (Js.Str "Will it rain?")
           None (Js.Str "Paris") StandIn.fresh
         = (w', Normal text)).
Proof.
  destruct (x8_analysis_throws_only_on_an_empty_forecast StandIn.claudeDown
              (WeatherService.parseForecast 1000 StandIn.body) (Js.Str "Paris")
              StandIn.fresh eq_refl) as (Hcurrent & Hquestion & _).
  split; [exact Hcurrent|].
  exact (Hquestion (Js.Str "Will it rain?") None eq_refl).
Defined.

(** ** [ask_weather_question] *)

Lemma chatContext_returns E (b : bool) city w :
  exists w1 context,
    (if b then
       tryCatch
         (let* result := WeatherService.getWeatherForChat E city false in
          match result with
          | WeatherService.ChatOk reply => ret (Some (WeatherService.weatherData reply))
          | WeatherService.ChatError _ => ret None
          end)
         (fun _ => ret None)
     else ret None) w = (w1, Normal context).
Proof.
  destruct b; [|now eexists _, _]. unfold tryCatch at 1.
  match goal with
  | |- context [match ?body w with _ => _ end] => destruct (body w) as [w1 [a|m]]
  end; now eexists _, _.
Qed.

(** X9. Called with an argument mapping whose question is not an object,
    or with the completion service not configured, [ask_weather_question]
    never answers with an error-shaped result: the city, the weather lookup
    and the completion service can all fail, and the result still has no
    [isError]; its [aiAnalyzed] tells whether the completion service is
    configured. The handler's text about having trouble with the question
    is then never returned. (It is returned, with [isError], when the
    service is configured and the question is an object with no string
    conversion, the prompt template then throwing.) *)
Theorem x9_ask_weather_question_never_reports_an_error :
  forall E claudeService args w,
    claudeService = false \/ primitive (default Js.Undefined (args !! "question")) = true ->
    exists w' r,
      WeatherMCPServer.callTool E claudeService "ask_weather_question" (Some args) w
      = (w', Normal r)
      /\ WeatherMCPServer.isError r = None
      /\ WeatherMCPServer.aiAnalyzed r = Some claudeService
      /\ oneBlock r
      /\ WeatherMCPServer.rtype r = (if claudeService then Some "question" else None).
Proof.
  intros E claude args w _.
  change (WeatherMCPServer.callTool E claude "ask_weather_question" (Some args))
    with (tryCatch
            (WeatherMCPServer.handleWeatherQuestion E claude
               (default Js.Undefined (args !! "question"))
               (default Js.Undefined (args !! "city")))
            (fun message =>
               ret (WeatherMCPServer.errorResult
                      ("Error calling tool ask_weather_question: " +:+ message)))).
  unfold WeatherMCPServer.handleWeatherQuestion. destruct claude; simpl.
  - unfold tryCatch at 1, bind at 1.
    match goal with
    | |- context [(if ?b then ?x else ?y) w] =>
        destruct (chatContext_returns E b
                    (Js.orDefault Js.Null (default Js.Undefined (args !! "city"))) w)
          as (w1 & context & ->)
    end.
    unfold tryCatch, bind. rewrite answerWeatherQuestion_eq. cbv zeta.
    eexists _, _. split; [reflexivity|]. repeat split; now eexists.
  - eexists _, _. split; [reflexivity|]. repeat split; now eexists.
Qed.

(** A run of X9: a question about Paris, the completion service rejecting
    the API key. *)
Lemma x9_witness :
  exists w' r,
    WeatherMCPServer.callTool StandIn.claudeDown true "ask_weather_question"
      (Some {[ "question" := Js.Str "Will it rain?"; "city" := Js.Str "Paris" ]})
      StandIn.fresh
    = (w', Normal r)
    /\ WeatherMCPServer.isError r = None
    /\ WeatherMCPServer.aiAnalyzed r = Some true
    /\ oneBlock r
    /\ WeatherMCPServer.rtype r = Some "question".
Proof.
  exact (x9_ask_weather_question_never_reports_an_error StandIn.claudeDown true
           {[ "question" := Js.Str "Will it rain?"; "city" := Js.Str "Paris" ]}
           StandIn.fresh (or_intror eq_refl)).
Defined.

(** ** The weather handlers when the completion service is configured *)

(** X10. With the completion service configured, [get_weather] for a city
    whose weather was fetched sends exactly one completion request, with
    the prompt built from that weather, and its text is the completion's
    text when the request succeeds and the fallback template of
    [ClaudeService] when it fails: the formatted response of the weather
    service is not used, and the handler's own [catch] is never entered. *)
Theorem x10_get_weather_text_with_the_completion_service :
  forall E city w w1 reply,
    WeatherService.getWeatherForChat E city false w
    = (w1, Normal (WeatherService.ChatOk reply)) ->
    let wd := WeatherService.weatherData reply in
    let prompt := ClaudeService.currentPrompt E wd (str E city) in
    WeatherMCPServer.handleGetWeather E true city w
    = (mkWorld (cache w1) (now w1 + fst (messages_create E (trace w1) prompt))
         (MessagesCreate prompt :: trace w1),
       Normal
         (WeatherMCPServer.weatherResult
            match snd (messages_create E (trace w1) prompt) with
            | inr text => text
            | inl _ => ClaudeService.fallbackCurrentWeatherResponse E wd (str E city)
            end
            wd (WeatherService.type reply) true)).
Proof.
  intros E city w w1 reply Hchat wd prompt.
  unfold WeatherMCPServer.handleGetWeather, bind at 1. rewrite Hchat. cbv zeta.
  unfold bind, tryCatch. rewrite analyzeCurrentWeather_eq. reflexivity.
Qed.

Lemma x10_witness :
  exists w2 wd,
    WeatherMCPServer.handleGetWeather StandIn.claudeUp true (Js.Str "Paris") StandIn.fresh
    = (w2, Normal (WeatherMCPServer.weatherResult "Bring a light jacket." wd "current" true)).
Proof.
  let out := eval vm_compute in
               (WeatherService.getWeatherForChat StandIn.claudeUp (Js.Str "Paris") false
                  StandIn.fresh) in
  match out with
  | (?w1, Normal (WeatherService.ChatOk ?reply)) =>
      pose proof (x10_get_weather_text_with_the_completion_service StandIn.claudeUp
                    (Js.Str "Paris") StandIn.fresh w1 reply) as Hrun
  end.
  cbv zeta in Hrun. rewrite Hrun; [|vm_compute; reflexivity].
  eexists _, _. reflexivity.
Defined.

(** ** The [days] argument of [get_forecast] *)

(** X11. [get_forecast] ignores its [days] argument, and a forecast is
    always for seven days: two calls whose arguments give the same [city]
    do the same and return the same, whatever else the arguments hold;
    every forecast request that [get_forecast] sends asks for 7 days, every
    forecast request that [get_weather] sends asks for 1 day, and every
    geocoding search of either asks for one result. The forecast handler
    of the SDK-registered server ignores [days] and the unit flag alike. *)
Theorem x11_get_forecast_ignores_days :
  forall E claudeService,
    (forall (args1 args2 : gmap string Js.value) w,
        args1 !! "city" = args2 !! "city" ->
        WeatherMCPServer.callTool E claudeService "get_forecast" (Some args1) w
        = WeatherMCPServer.callTool E claudeService "get_forecast" (Some args2) w)
    /\ (forall args,
           emits (asksFor 7) (WeatherMCPServer.callTool E claudeService "get_forecast" args))
    /\ (forall args,
           emits (asksFor 1) (WeatherMCPServer.callTool E claudeService "get_weather" args))
    /\ (forall city days1 days2 flag1 flag2 w,
           RealMCPWeatherServer.handleGetForecast E claudeService city days1 flag1 w
           = RealMCPWeatherServer.handleGetForecast E claudeService city days2 flag2 w).
Proof.
  intros E claude. split; [|split; [|split]]; [| | |reflexivity].
  - intros args1 args2 w Hcity.
    change (WeatherMCPServer.callTool E claude "get_forecast" (Some args1) w)
      with (tryCatch
              (WeatherMCPServer.handleGetForecast E claude
                 (default Js.Undefined (args1 !! "city"))
                 (default Js.Undefined (args1 !! "days")))
              (fun message =>
                 ret (WeatherMCPServer.errorResult
                        ("Error calling tool get_forecast: " +:+ message))) w).
    change (WeatherMCPServer.callTool E claude "get_forecast" (Some args2) w)
      with (tryCatch
              (WeatherMCPServer.handleGetForecast E claude
                 (default Js.Undefined (args2 !! "city"))
                 (default Js.Undefined (args2 !! "days")))
              (fun message =>
                 ret (WeatherMCPServer.errorResult
                        ("Error calling tool get_forecast: " +:+ message))) w).
    rewrite Hcity. reflexivity.
  - intros args. unfold WeatherMCPServer.callTool.
    apply emits_tryCatch; [|intros reason; emits_none].
    change (WeatherMCPServer.dispatch E claude "get_forecast" args)
      with (let* city := lift (WeatherMCPServer.prop args "city") in
            let* days := lift (WeatherMCPServer.prop args "days") in
            WeatherMCPServer.handleGetForecast E claude city days).
    apply emits_bind; [emits_none|intros city].
    apply emits_bind; [emits_none|intros days].
    apply emits_handleGetForecast.
  - intros args. unfold WeatherMCPServer.callTool.
    apply emits_tryCatch; [|intros reason; emits_none].
    change (WeatherMCPServer.dispatch E claude "get_weather" args)
      with (let* city := lift (WeatherMCPServer.prop args "city") in
            WeatherMCPServer.handleGetWeather E claude city).
    apply emits_bind; [emits_none|intros city].
    apply emits_handleGetWeather.
Qed.
(** ** The request switch *)

Lemma callToolOn_returns E claude name args w :
  exists w' r,
    Requests.callToolOn E claude (Requests.Value name) args w = (w', Normal r) /\ oneBlock r.
Proof.
  destruct name; try (eexists _, _; split; [reflexivity|]; now eexists).
  apply callTool_returns.
Qed.

Lemma callToolOn_unprintable E claude args w :
  Requests.callToolOn E claude Requests.Unprintable args w
  = (w, Throw Requests.conversionError).
Proof. reflexivity. Qed.

Lemma knownMethods_dec method : In method knownMethods \/ ~ In method knownMethods.
Proof.
  destruct method as [[| | | |m|]|]; try (right; simpl; intuition discriminate).
  destruct (string_dec m "initialize") as [->|H1]; [left; simpl; tauto|].
  destruct (string_dec m "tools/list") as [->|H2]; [left; simpl; tauto|].
  destruct (string_dec m "tools/call") as [->|H3]; [left; simpl; tauto|].
  right. simpl. intuition congruence.
Qed.

Lemma processRequest_unknown E claude method params w :
  ~ In method knownMethods ->
  Requests.processRequest E claude method params w
  = (w, Throw (Requests.unknownMethod E method)).
Proof.
  intros Hout. unfold Requests.processRequest. cbv zeta.
  destruct method as [[| | | |m|]|]; try reflexivity.
  repeat match goal with
         | |- (if String.eqb m ?n then _ else _) _ = _ =>
             destruct (String.eqb_spec m n) as [->|_];
             [exfalso; apply Hout; simpl; tauto|]
         end.
  reflexivity.
Qed.

Lemma processRequest_call E claude p w :
  Requests.processRequest E claude (Requests.Value (Js.Str "tools/call")) (Requests.Given p) w
  = match Requests.callToolOn E claude (Requests.name p) (Requests.arguments p) w with
    | (w', Normal r) => (w', Normal (Requests.ToolResponse r))
    | (w', Throw reason) => (w', Throw reason)
    end.
Proof. reflexivity. Qed.

Lemma processRequest_call_returns E claude name args w :
  exists w' r,
    Requests.processRequest E claude (Requests.Value (Js.Str "tools/call"))
      (Requests.Given (Requests.mkParams (Requests.Value name) args)) w
    = (w', Normal (Requests.ToolResponse r)).
Proof.
  rewrite processRequest_call. cbn [Requests.name Requests.arguments].
  destruct (callToolOn_returns E claude name args w) as (w' & r & -> & _).
  now exists w', r.
Qed.

Lemma processRequest_malformed E claude method params w :
  malformedCall method params ->
  exists reason, Requests.processRequest E claude method params w = (w, Throw reason).
Proof.
  intros [-> [[null ->]|[args ->]]]; now eexists.
Qed.

Lemma processRequest_throws E claude method params w reason :
  snd (Requests.processRequest E claude method params w) = Throw reason ->
  fst (Requests.processRequest E claude method params w) = w
  /\ (~ In method knownMethods \/ malformedCall method params).
Proof.
  destruct (knownMethods_dec method) as [Hin|Hout].
  - assert (Hcases : method = Requests.Value (Js.Str "initialize")
                     \/ method = Requests.Value (Js.Str "tools/list")
                     \/ method = Requests.Value (Js.Str "tools/call"))
      by (simpl in Hin; intuition congruence).
    destruct Hcases as [-> | [-> | ->]]; [discriminate|discriminate|].
    destruct params as [null|[[name|] args]].
    + intros _. split; [reflexivity|]. right. split; [reflexivity|]. left. now exists null.
    + destruct (processRequest_call_returns E claude name args w) as (w' & r & ->).
      discriminate.
    + intros _. split; [reflexivity|]. right. split; [reflexivity|]. right. now exists args.
  - rewrite (processRequest_unknown E claude method params w Hout).
    intros _. split; [reflexivity|]. now left.
Qed.

Lemma processRequest_throws_iff E claude method params w :
  (exists reason, snd (Requests.processRequest E claude method params w) = Throw reason)
  <-> ~ In method knownMethods \/ malformedCall method params.
Proof.
  split.
  - intros [reason Hthrow]. eapply processRequest_throws, Hthrow.
  - intros [Hout|Hbad].
    + rewrite (processRequest_unknown E claude method params w Hout). now eexists.
    + destruct (processRequest_malformed E claude method params w Hbad) as [reason ->].
      now eexists.
Qed.

(** X12. [processRequest] throws in exactly three cases: the method is none
    of [initialize], [tools/list] and [tools/call]; the method is
    [tools/call] and [params] is [undefined] or [null], the destructuring
    then failing before [callTool] and its [try] are entered; the method is
    [tools/call] and the tool name is an object with no string conversion,
    the template of the [catch] of [callTool] then throwing in its turn. It
    throws without touching the process. The error of an unknown method
    carries the method, and is the [TypeError] of the conversion when the
    method has no string conversion. In every other case [tools/call]
    returns: what [callTool] returns for the name and arguments given, and
    an error-shaped "Unknown tool" result when the name is a value that is
    not a string. *)
Theorem x12_processRequest_throws_in_three_cases :
  forall E claudeService method params w,
    ((exists reason,
         snd (Requests.processRequest E claudeService method params w) = Throw reason)
     <-> ~ In method knownMethods
         \/ (method = Requests.Value (Js.Str "tools/call")
             /\ ((exists null, params = Requests.Missing null)
                 \/ (exists args,
                        params
                        = Requests.Given (Requests.mkParams Requests.Unprintable args)))))
    /\ (forall reason,
           snd (Requests.processRequest E claudeService method params w) = Throw reason ->
           fst (Requests.processRequest E claudeService method params w) = w)
    /\ (~ In method knownMethods ->
        snd (Requests.processRequest E claudeService method params w)
        = Throw match method with
                | Requests.Value v => "Unknown method: " +:+ str E v
                | Requests.Unprintable => "Cannot convert object to primitive value"
                end)
    /\ (forall null,
           method = Requests.Value (Js.Str "tools/call") ->
           params = Requests.Missing null ->
           snd (Requests.processRequest E claudeService method params w)
           = Throw ("Cannot destructure property 'name' of 'params' as it is "
                    +:+ (if null then "null" else "undefined") +:+ "."))
    /\ (forall args,
           method = Requests.Value (Js.Str "tools/call") ->
           params = Requests.Given (Requests.mkParams Requests.Unprintable args) ->
           snd (Requests.processRequest E claudeService method params w)
           = Throw "Cannot convert object to primitive value")
    /\ (forall toolName args,
           method = Requests.Value (Js.Str "tools/call") ->
           params = Requests.Given (Requests.mkParams (Requests.Value (Js.Str toolName)) args) ->
           exists w' r,
             WeatherMCPServer.callTool E claudeService toolName args w = (w', Normal r)
             /\ Requests.processRequest E claudeService method params w
                = (w', Normal (Requests.ToolResponse r)))
    /\ (forall name args,
           method = Requests.Value (Js.Str "tools/call") ->
           params = Requests.Given (Requests.mkParams (Requests.Value name) args) ->
           (forall toolName, name <> Js.Str toolName) ->
           Requests.processRequest E claudeService method params w
           = (w, Normal (Requests.ToolResponse
                           (WeatherMCPServer.errorResult
                              ("Error calling tool " +:+ str E name +:+ ": Unknown tool: "
                               +:+ str E name))))).
Proof.
  intros E claude method params w.
  split; [apply processRequest_throws_iff|].
  split; [intros reason Hthrow; eapply processRequest_throws, Hthrow|].
  split.
  { intros Hout. rewrite (processRequest_unknown E claude method params w Hout).
    now destruct method. }
  split; [now intros null -> ->|].
  split; [now intros args -> ->|].
  split.
  - intros toolName args -> ->. rewrite processRequest_call. simpl.
    destruct (callTool_returns E claude toolName args w) as (w' & r & Hr & _).
    exists w', r. now rewrite Hr.
  - intros name args -> -> Hname. rewrite processRequest_call. simpl.
    destruct name; try reflexivity. now destruct (Hname s).
Qed.

(** ** The registry and the switch *)

(** X13. The tool list and the [switch] of [callTool] agree. The listed
    names are pairwise distinct; every listed tool has a case: called
    without an arguments object it fails on reading the first property its
    schema declares, not as an unknown tool; and the "Unknown tool" error
    is raised for exactly the names that are not listed. Every name a
    schema requires is one of the properties it declares. *)
Theorem x13_listed_tools_are_the_dispatched_ones :
  NoDup WeatherMCPServer.toolNames
  /\ (forall E claudeService tool w,
         In tool WeatherMCPServer.listTools ->
         WeatherMCPServer.dispatch E claudeService (WeatherMCPServer.name tool) None w
         = (w, Throw (undefinedProperty (firstProperty tool))))
  /\ (forall E claudeService toolName w,
         WeatherMCPServer.dispatch E claudeService toolName None w
         = (w, Throw ("Unknown tool: " +:+ toolName))
         <-> ~ In toolName WeatherMCPServer.toolNames)
  /\ (forall tool name,
         In tool WeatherMCPServer.listTools ->
         In name (WeatherMCPServer.required tool) ->
         In name (map WeatherMCPServer.pname (WeatherMCPServer.properties tool))).
Proof.
  split; [|split; [|split]].
  - unfold WeatherMCPServer.toolNames. simpl.
    apply NoDup_ListNoDup.
    repeat (constructor; [simpl; intuition discriminate|]). constructor.
  - intros E claude tool w Hin. simpl in Hin.
    repeat (destruct Hin as [<-|Hin]; [reflexivity|]). destruct Hin.
  - intros E claude toolName w. split.
    + intros Hunknown Hin. unfold WeatherMCPServer.toolNames in Hin. simpl in Hin.
      repeat (destruct Hin as [<-|Hin]; [discriminate Hunknown|]). destruct Hin.
    + intros Hout. now rewrite (dispatch_unknown E claude toolName None Hout).
  - intros tool name Hin. simpl in Hin.
    repeat (destruct Hin as [<-|Hin]; [simpl; tauto|]). destruct Hin.
Qed.

Lemma x13_witness :
  WeatherMCPServer.dispatch StandIn.claudeDown false "get_forecast" None StandIn.fresh
  = (StandIn.fresh, Throw "Cannot read properties of undefined (reading 'city')").
Proof.
  destruct x13_listed_tools_are_the_dispatched_ones as (_ & Hlisted & _).
  apply (Hlisted StandIn.claudeDown false
           (WeatherMCPServer.mkTool "get_forecast"
              "Get weather forecast with intelligent insights and planning advice"
              [WeatherMCPServer.mkProperty "city" "string" None;
               WeatherMCPServer.mkProperty "days" "number" (Some 7)] ["city"])).
  simpl. tauto.
Defined.

(** ** The SDK-registered server never throws *)

Lemma returns_tryCatch {A : Type} (body : M World A) (f : string -> A) (Q : A -> Prop) w :
  post body Q -> (forall reason, Q (f reason)) ->
  exists w' r, tryCatch body (fun reason => ret (f reason)) w = (w', Normal r) /\ Q r.
Proof.
  intros Hb Hf. unfold tryCatch. destruct (body w) as [w1 [a|reason]] eqn:Hrun.
  - exists w1, a. split; [reflexivity|]. eapply Hb, Hrun.
  - eexists _, _. split; [reflexivity|]. apply Hf.
Qed.

Lemma textOnly_textResult s : textOnly (RealMCPWeatherServer.textResult s).
Proof. repeat split. now eexists. Qed.

Lemma textOnly_errorResult s : textOnly (WeatherMCPServer.errorResult s).
Proof. repeat split. now eexists. Qed.

Lemma sdk_handleGetWeather_returns E claude city useFahrenheit w :
  exists w' r,
    RealMCPWeatherServer.handleGetWeather E claude city useFahrenheit w = (w', Normal r)
    /\ textOnly r.
Proof.
  unfold RealMCPWeatherServer.handleGetWeather.
  apply returns_tryCatch; [|intros; apply textOnly_errorResult].
  post_step. destruct a; [apply post_ret, textOnly_errorResult|].
  cbv zeta. post_step. apply post_ret, textOnly_textResult.
Qed.

Lemma sdk_handleGetForecast_returns E claude city days useFahrenheit w :
  exists w' r,
    RealMCPWeatherServer.handleGetForecast E claude city days useFahrenheit w
    = (w', Normal r)
    /\ textOnly r.
Proof.
  unfold RealMCPWeatherServer.handleGetForecast.
  apply returns_tryCatch; [|intros; apply textOnly_errorResult].
  post_step. destruct a; [apply post_ret, textOnly_errorResult|].
  cbv zeta. post_step. apply post_ret, textOnly_textResult.
Qed.

Lemma sdk_handleWeatherQuestion_eq E claude question city w :
  let city' := Js.orDefault Js.Null city in
  let target := SdkHandlers.targetCity question city' in
  SdkHandlers.handleWeatherQuestion E claude question city w
  = if Js.truthy target then
      if SdkHandlers.isForecastRequest question
      then RealMCPWeatherServer.get_forecast E claude target (Js.Int 7) w
      else RealMCPWeatherServer.get_weather E claude target w
    else if claude then
      let prompt := ClaudeService.questionPrompt E (Js.Str question) None target in
      (mkWorld (cache w) (now w + fst (messages_create E (trace w) prompt))
         (MessagesCreate prompt :: trace w),
       Normal (RealMCPWeatherServer.textResult
                 match snd (messages_create E (trace w) prompt) with
                 | inr text => text
                 | inl _ => questionTemplate true
                 end))
    else (w, Normal (RealMCPWeatherServer.textResult WeatherMCPServer.apology)).
Proof.
  intros city' target. unfold SdkHandlers.handleWeatherQuestion.
  fold city'. fold target. cbv zeta.
  destruct (Js.truthy target);
    destruct (RealMCPWeatherServer.detectFahrenheitPreference (Some question)); simpl;
    try (destruct (SdkHandlers.isForecastRequest question); reflexivity).
  all: destruct claude; simpl; [|reflexivity].
  all: unfold bind at 1, ret at 1; unfold tryCatch, bind.
  all: rewrite answerWeatherQuestion_eq; reflexivity.
Qed.

(** X14. No callback of the SDK-registered server throws: each of the
    seven tools returns a result for every input, holding one text block
    and nothing else. A failure of the weather service reported by
    [getWeatherForChat] becomes the [isError] result "Error getting
    weather for <city>: <message>", and a geocoding lookup that throws
    becomes "Error geocoding <city>: <message>". *)
Theorem x14_sdk_callbacks_never_throw :
  forall E claudeService w,
    (forall call,
        exists w' r, SdkTools.invoke E claudeService call w = (w', Normal r) /\ textOnly r)
    /\ (forall city w1 message,
           WeatherService.getWeatherForChat E city false w
           = (w1, Normal (WeatherService.ChatError message)) ->
           SdkTools.invoke E claudeService (SdkTools.CallGetWeather city) w
           = (w1, Normal (WeatherMCPServer.errorResult
                            ("Error getting weather for " +:+ str E city +:+ ": "
                             +:+ message))))
    /\ (forall city count w1 reason,
           WeatherService.geocodeCity E city (Js.orDefault (Js.Int 1) count) w
           = (w1, Throw reason) ->
           SdkTools.invoke E claudeService (SdkTools.CallGeocodeCity city count) w
           = (w1, Normal (WeatherMCPServer.errorResult
                            ("Error geocoding " +:+ str E city +:+ ": " +:+ reason)))).
Proof.
  intros E claude w. split; [|split].
  - intros call. destruct call; unfold SdkTools.invoke.
    + exact (sdk_handleGetWeather_returns E claude city false w).
    + exact (sdk_handleGetForecast_returns E claude city days false w).
    + unfold SdkHandlers.handleGetWeatherByCoords. cbv zeta.
      apply returns_tryCatch; [|intros; apply textOnly_errorResult].
      do 5 post_step. apply post_ret, textOnly_textResult.
    + unfold SdkHandlers.handleGeocodeCity. cbv zeta.
      apply returns_tryCatch; [|intros; apply textOnly_errorResult].
      post_step. destruct a; [|post_step]. post_step.
      apply post_ret, textOnly_textResult.
    + rewrite sdk_handleWeatherQuestion_eq. cbv zeta.
      destruct (Js.truthy _).
      * destruct (SdkHandlers.isForecastRequest question).
        -- exact (sdk_handleGetForecast_returns E claude _ (Js.Int 7) false w).
        -- exact (sdk_handleGetWeather_returns E claude _ false w).
      * destruct claude; eexists _, _; (split; [reflexivity|apply textOnly_textResult]).
    + exact (sdk_handleGetWeather_returns E claude city true w).
    + exact (sdk_handleGetForecast_returns E claude city days true w).
  - intros city w1 message Hchat.
    unfold SdkTools.invoke, RealMCPWeatherServer.get_weather,
      RealMCPWeatherServer.handleGetWeather, RealMCPWeatherServer.callGetWeatherForChat,
      tryCatch, bind.
    now rewrite Hchat.
  - intros city count w1 reason Hgeo.
    unfold SdkTools.invoke, SdkHandlers.handleGeocodeCity, tryCatch, bind. cbv zeta.
    assert (Hsame : WeatherService.geocodeCity E city (Js.orDefault (Js.Int 1) count)
                    = WeatherService.geocodeCity E city count) by now destruct count.
    rewrite Hsame in Hgeo. assert (Hsame' :
      WeatherService.geocodeCity E city (Js.orDefault (Js.Int 1) count) w
      = WeatherService.geocodeCity E city count w) by now rewrite Hsame.
    rewrite Hsame', Hgeo. reflexivity.
Qed.

(** X15. What [handleWeatherQuestion] of the SDK-registered server does
    with a question. When a city is given, or one of the four patterns
    finds a word in the question, the question is not answered: the result
    is that of [get_forecast] (if the question mentions a forecast, a week
    or days) or of [get_weather] for that city, and the Fahrenheit
    preference read off the question changes nothing. Otherwise no
    weather is fetched: without the completion service the result is the
    fixed apology, and with it the question is sent without weather
    context, the text being the completion's or, when that fails, the
    request for a location. In no case is the result the handler's
    "having trouble" error. *)
Theorem x15_sdk_question_routing :
  forall E claudeService question city w,
    let target := SdkHandlers.targetCity question (Js.orDefault Js.Null city) in
    SdkHandlers.handleWeatherQuestion E claudeService question city w
    = if Js.truthy target then
        if SdkHandlers.isForecastRequest question
        then RealMCPWeatherServer.get_forecast E claudeService target (Js.Int 7) w
        else RealMCPWeatherServer.get_weather E claudeService target w
      else if claudeService then
        let prompt := ClaudeService.questionPrompt E (Js.Str question) None target in
        (mkWorld (cache w) (now w + fst (messages_create E (trace w) prompt))
           (MessagesCreate prompt :: trace w),
         Normal (RealMCPWeatherServer.textResult
                   match snd (messages_create E (trace w) prompt) with
                   | inr text => text
                   | inl _ => questionTemplate true
                   end))
      else (w, Normal (RealMCPWeatherServer.textResult WeatherMCPServer.apology)).
Proof. intros. apply sdk_handleWeatherQuestion_eq. Qed.
(** ** Substrings of substrings, and the Fahrenheit keywords *)

Lemma append_assoc (a b c : string) : (a +:+ b) +:+ c = a +:+ (b +:+ c).
Proof.
  induction a as [|x a IH]; [reflexivity|].
  change (String x ((a +:+ b) +:+ c) = String x (a +:+ (b +:+ c))). now f_equal.
Qed.

Lemma prefix_true_iff (kw s : string) :
  String.prefix kw s = true <-> exists post, s = kw +:+ post.
Proof.
  split.
  - revert s. induction kw as [|c kw IH]; intros s H.
    + now exists s.
    + destruct s as [|d s]; [discriminate|]. simpl in H.
      destruct (ascii_dec c d) as [->|_]; [|discriminate].
      destruct (IH s H) as [post ->]. now exists post.
  - intros [post ->]. apply prefix_append.
Qed.

Lemma includes_true_iff (kw s : string) :
  Js.includes kw s = true <-> exists pre post, s = pre +:+ (kw +:+ post).
Proof.
  split.
  - induction s as [|c s IH]; rewrite includes_unfold; intros H.
    + apply orb_true_iff in H as [H|[=]]. apply prefix_true_iff in H as [post ->].
      now exists "", post.
    + apply orb_true_iff in H as [H|H].
      * apply prefix_true_iff in H as [post ->]. now exists "", post.
      * destruct (IH H) as (pre & post & ->). now exists (String c pre), post.
  - intros (pre & post & ->). apply includes_later, includes_here.
Qed.

Lemma includes_trans (a b s : string) :
  Js.includes a b = true -> Js.includes b s = true -> Js.includes a s = true.
Proof.
  intros Hab Hbs.
  apply includes_true_iff in Hab as (p1 & q1 & ->).
  apply includes_true_iff in Hbs as (p2 & q2 & ->).
  apply includes_true_iff. exists (p2 +:+ p1), (q1 +:+ q2).
  now rewrite !append_assoc.
Qed.

Lemma fahrenheitKeywords_include_f kw :
  In kw RealMCPWeatherServer.fahrenheitKeywords -> Js.includes "f" kw = true.
Proof.
  unfold RealMCPWeatherServer.fahrenheitKeywords. simpl.
  intros H. repeat (destruct H as [<-|H]; [reflexivity|]). destruct H.
Qed.

(** X16. The keyword list of [detectFahrenheitPreference] contains the
    single letter "f", and every other keyword contains that letter: the
    detection answers [true] exactly when the message contains an "f" or
    an "F". In particular every message that contains a word with an "f"
    in it, such as "forecast", is taken as a request for Fahrenheit. *)
Theorem x16_fahrenheit_is_detected_from_the_letter_f :
  forall message,
    RealMCPWeatherServer.detectFahrenheitPreference (Some message)
    = Js.includes "f" (Js.toLowerCase message)
    /\ (forall word,
           Js.includes "f" word = true ->
           Js.includes word (Js.toLowerCase message) = true ->
           RealMCPWeatherServer.detectFahrenheitPreference (Some message) = true).
Proof.
  intros message.
  assert (Heq : RealMCPWeatherServer.detectFahrenheitPreference (Some message)
                = Js.includes "f" (Js.toLowerCase message)).
  { destruct message as [|c rest]; [reflexivity|].
    unfold RealMCPWeatherServer.detectFahrenheitPreference, Js.someIncludes.
    apply Bool.eq_true_iff_eq. rewrite existsb_exists. split.
    - intros (kw & Hin & Hkw). eapply includes_trans; [|exact Hkw].
      now apply fahrenheitKeywords_include_f.
    - intros Hf. exists "f". split; [|exact Hf].
      unfold RealMCPWeatherServer.fahrenheitKeywords. simpl. tauto. }
  split; [exact Heq|].
  intros word Hword Hmsg. rewrite Heq. eapply includes_trans; eassumption.
Qed.

(** ** The session manager: what a call does with the stored id *)

Lemma attempt_with_session P toolName args g :
  Gateway.truthy (Gateway.mcpSessionId g) = true ->
  Gateway.trace (fst (Gateway.attempt P toolName args g))
  = Gateway.mkDispatch (Gateway.mcpSessionId g)
      (Gateway.ToolsCall (Gateway.mcpSessionId g) toolName args) :: Gateway.trace g
  /\ Gateway.mcpSessionId (fst (Gateway.attempt P toolName args g)) = Gateway.mcpSessionId g.
Proof.
  intros Hsid. unfold Gateway.attempt, Gateway.initializeMCPSession. rewrite Hsid.
  rewrite Hsid. unfold Gateway.post.
  destruct (P _ (Gateway.ToolsCall _ _ _)); split; reflexivity.
Qed.

(** X17. The gateway stores the session id of a handshake before it looks
    at the body. When no id is stored and the endpoint answers the
    handshake with a body the gateway does not accept, the call throws
    "Request error: Failed to connect to MCP server" after that single
    request, yet the id of the response header is now stored; if that id is
    not empty, the next call sends its [tools/call] request at once, under
    that id, without a new handshake. *)
Theorem x17_session_id_is_stored_before_the_handshake_is_checked :
  forall P g header data toolName args fuel,
    Gateway.truthy (Gateway.mcpSessionId g) = false ->
    P (map Gateway.sent (Gateway.trace g)) Gateway.Initialize = Gateway.Resolved header data ->
    acceptedHandshake data = false ->
    let g1 := Gateway.mkState header
                (Gateway.mkDispatch (Gateway.mcpSessionId g) Gateway.Initialize
                 :: Gateway.trace g) in
    Gateway.callMCPTool (S fuel) P toolName args g
    = (g1, Some (Throw "Request error: Failed to connect to MCP server"))
    /\ (Gateway.truthy header = true ->
        forall toolName' args',
          Gateway.trace (fst (Gateway.attempt P toolName' args' g1))
          = Gateway.mkDispatch header (Gateway.ToolsCall header toolName' args')
            :: Gateway.trace g1).
Proof.
  intros P g header data toolName args fuel Hnone Hreply Hbody g1. split.
  - simpl. unfold Gateway.attempt, Gateway.initializeMCPSession. rewrite Hnone.
    unfold Gateway.post. rewrite Hreply.
    destruct data as [|[[j|m]|]| |j]; try reflexivity.
    simpl in Hbody. destruct (Gateway.result j); [discriminate|reflexivity].
  - intros Hheader toolName' args'.
    apply (attempt_with_session P toolName' args' g1 Hheader).
Qed.

Lemma x17_witness :
  let P : Gateway.Provider :=
    fun _ r =>
      match r with
      | Gateway.Initialize => Gateway.Resolved (Some "session-1") Gateway.Text
      | Gateway.ToolsCall _ _ _ => GatewayStandIn.answer "sunny"
      end in
  let g1 := Gateway.mkState (Some "session-1")
              [Gateway.mkDispatch None Gateway.Initialize] in
  Gateway.callMCPTool 1 P "get_weather" GatewayStandIn.parisArgs Gateway.initial
  = (g1, Some (Throw "Request error: Failed to connect to MCP server"))
  /\ (Gateway.truthy (Some "session-1") = true ->
      forall toolName' args',
        Gateway.trace (fst (Gateway.attempt P toolName' args' g1))
        = Gateway.mkDispatch (Some "session-1")
            (Gateway.ToolsCall (Some "session-1") toolName' args')
          :: Gateway.trace g1).
Proof.
  intros P g1.
  exact (x17_session_id_is_stored_before_the_handshake_is_checked P Gateway.initial
           (Some "session-1") Gateway.Text "get_weather" GatewayStandIn.parisArgs 0
           eq_refl eq_refl eq_refl).
Defined.

(** ** The session manager: attempts and outcomes *)

Lemma attempt_sends P toolName args g :
  exists sentNow,
    Gateway.trace (fst (Gateway.attempt P toolName args g))
    = (sentNow ++ Gateway.trace g)%list
    /\ (length sentNow <= 2)%nat
    /\ (length (Gateway.toolsCalls sentNow) <= 1)%nat.
Proof.
  unfold Gateway.attempt, Gateway.initializeMCPSession.
  destruct (Gateway.truthy (Gateway.mcpSessionId g)).
  - unfold Gateway.post. destruct (P _ (Gateway.ToolsCall _ _ _));
      (eexists [_]; repeat split; simpl; lia).
  - unfold Gateway.post at 1.
    destruct (P (map Gateway.sent (Gateway.trace g)) Gateway.Initialize)
      as [header data|f]; [|eexists [_]; repeat split; simpl; lia].
    assert (Hcall : forall g2 : Gateway.State,
               Gateway.trace g2
               = Gateway.mkDispatch (Gateway.mcpSessionId g) Gateway.Initialize
                 :: Gateway.trace g ->
               exists sentNow,
                 Gateway.trace
                   (fst (let header' := if Gateway.truthy (Gateway.mcpSessionId g2)
                                        then Gateway.mcpSessionId g2 else None in
                         match Gateway.post P (Gateway.ToolsCall header' toolName args) g2 with
                         | (g3, Gateway.Rejected f) => (g3, inl (Gateway.Axios f))
                         | (g3, Gateway.Resolved _ data') =>
                             (g3,
                              match data' with
                              | Gateway.Empty =>
                                  inl (Gateway.Plain "Empty response from MCP server")
                              | Gateway.Sse None =>
                                  inl (Gateway.Plain "Could not parse SSE response data")
                              | Gateway.Sse (Some (Throw message)) =>
                                  inl (Gateway.Plain message)
                              | Gateway.Sse (Some (Normal jsonData)) =>
                                  Gateway.readRpc jsonData
                                    "Invalid SSE response format from MCP server"
                              | Gateway.Text =>
                                  inl (Gateway.Plain
                                         "Invalid JSON response format from MCP server")
                              | Gateway.Json j =>
                                  Gateway.readRpc j
                                    "Invalid JSON response format from MCP server"
                              end)
                         end))
                 = (sentNow ++ Gateway.trace g)%list
                 /\ (length sentNow <= 2)%nat
                 /\ (length (Gateway.toolsCalls sentNow) <= 1)%nat).
    { intros g2 Hg2. cbv zeta. unfold Gateway.post. rewrite Hg2.
      destruct (P _ (Gateway.ToolsCall _ _ _));
        (eexists [_; _]; repeat split; simpl; lia). }
    destruct data as [|[[j|m]|]| |j];
      try (eexists [_]; repeat split; simpl; lia).
    destruct (Gateway.result j); [|eexists [_]; repeat split; simpl; lia].
    apply Hcall. reflexivity.
Qed.

Lemma attempt_rejected P toolName args g g1 f :
  Gateway.attempt P toolName args g = (g1, inl (Gateway.Axios f)) ->
  exists h header, P h (Gateway.ToolsCall header toolName args) = Gateway.Rejected f.
Proof.
  unfold Gateway.attempt.
  destruct (Gateway.initializeMCPSession P g) as [g0 [m|sid]]; [discriminate|].
  unfold Gateway.post.
  destruct (P _ (Gateway.ToolsCall _ _ _)) as [hdr data|f'] eqn:HP.
  - intros [= _ Hd].
    destruct data as [|[[j|m]|]| |j]; try discriminate;
      unfold Gateway.readRpc in Hd;
      destruct (Gateway.error j); try discriminate;
      destruct (Gateway.result j); discriminate.
  - intros [= _ <-]. eauto.
Qed.

Lemma callMCPTool_more_fuel P toolName args fuel :
  forall k g g' outcome,
    Gateway.callMCPTool fuel P toolName args g = (g', Some outcome) ->
    Gateway.callMCPTool (fuel + k) P toolName args g = (g', Some outcome).
Proof.
  induction fuel as [|fuel IH]; intros k g g' outcome; [discriminate|].
  simpl. destruct (Gateway.attempt P toolName args g) as [g1 [[m|[status em|m|m]]|r]];
    try (intros H; exact H).
  destruct (status =? 400)%Z; [apply IH|intros H; exact H].
Qed.

(** X18. How many attempts a call makes. The outcome of [callMCPTool]
    does not depend on the bound the model puts on the attempts: once a
    bound is enough for the call to end, every larger bound gives the same
    outcome and the same state. And when the endpoint never answers a
    [tools/call] request with HTTP 400, the call ends after a single
    attempt, having sent at most two requests, of which at most one is a
    [tools/call]. *)
Theorem x18_a_call_without_http_400_makes_one_attempt :
  forall P toolName args g,
    (forall fuel k g' outcome,
        Gateway.callMCPTool fuel P toolName args g = (g', Some outcome) ->
        Gateway.callMCPTool (fuel + k) P toolName args g = (g', Some outcome))
    /\ (never400 P ->
        forall fuel,
          exists outcome sentNow,
            Gateway.callMCPTool (S fuel) P toolName args g
            = (fst (Gateway.attempt P toolName args g), Some outcome)
            /\ Gateway.trace (fst (Gateway.attempt P toolName args g))
               = (sentNow ++ Gateway.trace g)%list
            /\ (length sentNow <= 2)%nat
            /\ (length (Gateway.toolsCalls sentNow) <= 1)%nat).
Proof.
  intros P toolName args g. split.
  - intros fuel k. apply callMCPTool_more_fuel.
  - intros Hnever fuel.
    destruct (attempt_sends P toolName args g) as (sentNow & Htrace & Hlen & Hcalls).
    simpl.
    destruct (Gateway.attempt P toolName args g) as [g1 [[m|[status em|m|m]]|r]] eqn:Hrun;
      try (eexists _, sentNow; split; [reflexivity|]; now repeat split).
    destruct (Z.eqb_spec status 400) as [->|_];
      [|eexists _, sentNow; split; [reflexivity|]; now repeat split].
    apply attempt_rejected in Hrun as (h & header & HP). now destruct (Hnever _ _ _ _ _ HP).
Qed.

Lemma stateless_never400 : never400 GatewayStandIn.stateless.
Proof. intros h header name args message. discriminate. Qed.

Lemma x18_witness :
  exists outcome sentNow,
    Gateway.callMCPTool 1 GatewayStandIn.stateless "get_weather" GatewayStandIn.parisArgs
      Gateway.initial
    = (fst (Gateway.attempt GatewayStandIn.stateless "get_weather" GatewayStandIn.parisArgs
              Gateway.initial), Some outcome)
    /\ Gateway.trace (fst (Gateway.attempt GatewayStandIn.stateless "get_weather"
                             GatewayStandIn.parisArgs Gateway.initial))
       = (sentNow ++ Gateway.trace Gateway.initial)%list
    /\ (length sentNow <= 2)%nat
    /\ (length (Gateway.toolsCalls sentNow) <= 1)%nat.
Proof.
  destruct (x18_a_call_without_http_400_makes_one_attempt GatewayStandIn.stateless
              "get_weather" GatewayStandIn.parisArgs Gateway.initial) as [_ Hone].
  exact (Hone stateless_never400 0%nat).
Defined.

Lemma attempt_plain_or_result P toolName args g g1 r :
  Gateway.attempt P toolName args g = (g1, inr r) ->
  exists h header sessionHeader j,
    (P h (Gateway.ToolsCall header toolName args)
     = Gateway.Resolved sessionHeader (Gateway.Sse (Some (Normal j)))
     \/ P h (Gateway.ToolsCall header toolName args)
        = Gateway.Resolved sessionHeader (Gateway.Json j))
    /\ Gateway.error j = None /\ Gateway.result j = Some r.
Proof.
  unfold Gateway.attempt.
  destruct (Gateway.initializeMCPSession P g) as [g0 [m|sid]]; [discriminate|].
  unfold Gateway.post.
  destruct (P _ (Gateway.ToolsCall _ _ _)) as [hdr data|f'] eqn:HP; [|discriminate].
  intros [= _ Hd].
  destruct data as [|[[j|m]|]| |j]; try discriminate;
    unfold Gateway.readRpc in Hd;
    destruct (Gateway.error j) eqn:He; try discriminate;
    destruct (Gateway.result j) eqn:Hr; try discriminate;
    injection Hd as Hd; subst; eexists _, _, hdr, j;
    (split; [first [left; exact HP|right; exact HP]|split; [exact He|exact Hr]]).
Qed.

(** X19. What [callMCPTool] lets out. A result it returns is the
    [result] member of a JSON-RPC reply, without [error], that the endpoint
    gave to a [tools/call] request for this tool and these arguments. A
    message it throws is the "not responding" text, or starts with
    "Request error: ", or comes from a response of the endpoint with an
    HTTP status other than 400: the error message of its body, "MCP server
    error" when the body has none, or, when the body is [null], the
    [TypeError] that reading the message off it raises inside the [catch]
    block. An HTTP 400 is never reported to the caller, it is always
    retried. *)
Theorem x19_what_callMCPTool_lets_out :
  forall fuel P toolName args g g',
    (forall r,
        Gateway.callMCPTool fuel P toolName args g = (g', Some (Normal r)) ->
        exists h header sessionHeader j,
          (P h (Gateway.ToolsCall header toolName args)
           = Gateway.Resolved sessionHeader (Gateway.Sse (Some (Normal j)))
           \/ P h (Gateway.ToolsCall header toolName args)
              = Gateway.Resolved sessionHeader (Gateway.Json j))
          /\ Gateway.error j = None /\ Gateway.result j = Some r)
    /\ (forall message,
           Gateway.callMCPTool fuel P toolName args g = (g', Some (Throw message)) ->
           message = notResponding
           \/ (exists reason, message = "Request error: " +:+ reason)
           \/ (exists h header status errorMessage,
                  P h (Gateway.ToolsCall header toolName args)
                  = Gateway.Rejected (Gateway.BadStatus status errorMessage)
                  /\ status <> 400
                  /\ message = match errorMessage with
                               | Normal m => Gateway.orElse m "MCP server error"
                               | Throw typeError => typeError
                               end)).
Proof.
  induction fuel as [|fuel IH]; intros P toolName args g g'.
  - split; intros ? [=].
  - simpl.
    destruct (Gateway.attempt P toolName args g) as [g1 [[m|[status em|m|m]]|r]] eqn:Hrun.
    + split; [intros r [=]|]. intros message [= _ <-]. right. left. now eexists.
    + destruct (Z.eqb_spec status 400) as [->|Hne]; [apply IH|].
      split; [intros r [=]|]. intros message [= _ <-]. right. right.
      apply attempt_rejected in Hrun as (h & header & HP).
      now exists h, header, status, em.
    + split; [intros r [=]|]. intros message [= _ <-]. now left.
    + split; [intros r [=]|]. intros message [= _ <-]. right. left. now eexists.
    + split; [|intros message [=]]. intros r' [= _ <-].
      eapply attempt_plain_or_result, Hrun.
Qed.

(** A run of X19: the endpoint answers the call with status 500 and the
    JSON body [null]; what the caller sees is the [TypeError]. *)
Lemma x19_witness :
  let nullBody : completion (option string) :=
    Throw "Cannot read properties of null (reading 'error')" in
  let P : Gateway.Provider :=
    fun _ r =>
      match r with
      | Gateway.Initialize => GatewayStandIn.handshake (Some "session-1")
      | Gateway.ToolsCall _ _ _ => Gateway.Rejected (Gateway.BadStatus 500 nullBody)
      end in
  snd (Gateway.callMCPTool 1 P "get_weather" GatewayStandIn.parisArgs Gateway.initial)
  = Some (Throw "Cannot read properties of null (reading 'error')")
  /\ ("Cannot read properties of null (reading 'error')" = notResponding
      \/ (exists reason,
             "Cannot read properties of null (reading 'error')" = "Request error: " +:+ reason)
      \/ (exists h header status errorMessage,
             P h (Gateway.ToolsCall header "get_weather" GatewayStandIn.parisArgs)
             = Gateway.Rejected (Gateway.BadStatus status errorMessage)
             /\ status <> 400
             /\ "Cannot read properties of null (reading 'error')"
                = match errorMessage with
                  | Normal m => Gateway.orElse m "MCP server error"
                  | Throw typeError => typeError
                  end)).
Proof.
  intros nullBody P. split; [reflexivity|].
  eapply (x19_what_callMCPTool_lets_out 1 P "get_weather" GatewayStandIn.parisArgs
            Gateway.initial).
  reflexivity.
Defined.
(** ** The session manager: a stored id is reused *)

(** X20. A stored session id is reused: when the gateway holds a
    non-empty id and the endpoint does not answer this call with HTTP 400,
    [callMCPTool] sends exactly one request, the [tools/call] under the
    stored id, without any handshake, and the id stays stored whatever the
    outcome of the call is. *)
Theorem x20_a_stored_session_id_is_reused :
  forall P toolName args g fuel,
    let sid := Gateway.mcpSessionId g in
    let call := Gateway.ToolsCall sid toolName args in
    Gateway.truthy sid = true ->
    (forall message,
        P (map Gateway.sent (Gateway.trace g)) call
        <> Gateway.Rejected (Gateway.BadStatus 400 message)) ->
    exists outcome,
      Gateway.callMCPTool (S fuel) P toolName args g
      = (Gateway.mkState sid (Gateway.mkDispatch sid call :: Gateway.trace g), Some outcome).
Proof.
  intros P toolName args g fuel sid call Hsid Hno400. subst sid call. simpl.
  unfold Gateway.attempt, Gateway.initializeMCPSession. rewrite Hsid. rewrite Hsid.
  unfold Gateway.post.
  destruct (P (map Gateway.sent (Gateway.trace g))
              (Gateway.ToolsCall (Gateway.mcpSessionId g) toolName args))
    as [header data|[status em|m|m]] eqn:HP; try (now eexists).
  - destruct data as [|[[j|m]|]| |j]; try (now eexists);
      unfold Gateway.readRpc; destruct (Gateway.error j); try (now eexists);
      destruct (Gateway.result j); now eexists.
  - destruct (Z.eqb_spec status 400) as [->|_]; [|now eexists].
    now destruct (Hno400 em).
Qed.

Lemma x20_witness :
  exists outcome,
    Gateway.callMCPTool 1 GatewayStandIn.expiring "get_weather" GatewayStandIn.parisArgs
      (Gateway.mkState (Some "renewed") [])
    = (Gateway.mkState (Some "renewed")
         [Gateway.mkDispatch (Some "renewed")
            (Gateway.ToolsCall (Some "renewed") "get_weather" GatewayStandIn.parisArgs)],
       Some outcome).
Proof.
  apply (x20_a_stored_session_id_is_reused GatewayStandIn.expiring "get_weather"
           GatewayStandIn.parisArgs (Gateway.mkState (Some "renewed") []) 0).
  - reflexivity.
  - intros message. discriminate.
Defined.

(** ** The city read off a question *)

Lemma wordRun_spec s :
  s = fst (Regex.wordRun s) +:+ snd (Regex.wordRun s)
  /\ allWord (fst (Regex.wordRun s)) = true.
Proof.
  induction s as [|c s [IHs IHw]]; [now split|]. simpl.
  destruct (Regex.isWord c) eqn:Hc; [|now split].
  destruct (Regex.wordRun s) as [run rest]. simpl in *. split.
  - change (String c s = String c (run +:+ rest)). now f_equal.
  - now rewrite Hc.
Qed.

Lemma skipLiteral_spec lit s rest :
  Regex.skipLiteral lit s = Some rest -> exists pre, s = pre +:+ rest.
Proof.
  revert s. induction lit as [|a lit IH]; intros s.
  - intros [= <-]. now exists "".
  - destruct s as [|c s]; [discriminate|]. simpl.
    destruct (Ascii.eqb _ _); [|discriminate].
    intros H. destruct (IH s H) as [pre ->]. now exists (String c pre).
Qed.

Lemma nonEmpty_spec run group : Regex.nonEmpty run = Some group -> group = run /\ run <> "".
Proof. destruct run; [discriminate|]. now intros [= <-]. Qed.

Lemma includes_cons kw c s : Js.includes kw s = true -> Js.includes kw (String c s) = true.
Proof. intros H. rewrite includes_unfold, H. apply orb_true_r. Qed.

Lemma matchAfter_spec lit s group :
  Regex.matchAfter lit s = Some group ->
  group <> "" /\ allWord group = true /\ Js.includes group s = true.
Proof.
  assert (Hhere : forall s,
             match Regex.skipLiteral lit s with
             | Some rest => Regex.nonEmpty (fst (Regex.wordRun rest))
             | None => None
             end = Some group ->
             group <> "" /\ allWord group = true /\ Js.includes group s = true).
  { intros s0. destruct (Regex.skipLiteral lit s0) as [rest|] eqn:Hskip; [|discriminate].
    intros Hne. apply nonEmpty_spec in Hne as [-> Hne].
    destruct (wordRun_spec rest) as [Hrest Hword].
    apply skipLiteral_spec in Hskip as [pre ->].
    split; [exact Hne|]. split; [exact Hword|].
    apply includes_true_iff. exists pre, (snd (Regex.wordRun rest)). now rewrite <- Hrest. }
  induction s as [|c s IH].
  - intros H.
    change (match (match Regex.skipLiteral lit "" with
                   | Some rest => Regex.nonEmpty (fst (Regex.wordRun rest))
                   | None => None
                   end) with
            | Some g => Some g
            | None => None
            end = Some group) in H.
    apply (Hhere "").
    destruct (match Regex.skipLiteral lit "" with
              | Some rest => Regex.nonEmpty (fst (Regex.wordRun rest))
              | None => None
              end); [exact H|discriminate].
  - intros H.
    change (match (match Regex.skipLiteral lit (String c s) with
                   | Some rest => Regex.nonEmpty (fst (Regex.wordRun rest))
                   | None => None
                   end) with
            | Some g => Some g
            | None => Regex.matchAfter lit s
            end = Some group) in H.
    destruct (match Regex.skipLiteral lit (String c s) with
              | Some rest => Regex.nonEmpty (fst (Regex.wordRun rest))
              | None => None
              end) eqn:Hh.
    + injection H as <-. now apply Hhere.
    + destruct (IH H) as (Hne & Hword & Hin).
      split; [exact Hne|]. split; [exact Hword|]. now apply includes_cons.
Qed.

Lemma matchBefore_spec lit s group :
  Regex.matchBefore lit s = Some group ->
  group <> "" /\ allWord group = true /\ Js.includes group s = true.
Proof.
  assert (Hhere : forall s,
             (let (run, rest) := Regex.wordRun s in
              match Regex.skipLiteral lit rest with
              | Some _ => Regex.nonEmpty run
              | None => None
              end) = Some group ->
             group <> "" /\ allWord group = true /\ Js.includes group s = true).
  { intros s0. destruct (wordRun_spec s0) as [Hs Hword].
    destruct (Regex.wordRun s0) as [run rest]. simpl in *.
    destruct (Regex.skipLiteral lit rest); [|discriminate].
    intros Hne. apply nonEmpty_spec in Hne as [-> Hne].
    split; [exact Hne|]. split; [exact Hword|].
    rewrite Hs. apply includes_here. }
  induction s as [|c s IH].
  - intros H. apply (Hhere ""). simpl in *.
    destruct (Regex.skipLiteral lit ""); discriminate.
  - intros H.
    change (match (let (run, rest) := Regex.wordRun (String c s) in
                   match Regex.skipLiteral lit rest with
                   | Some _ => Regex.nonEmpty run
                   | None => None
                   end) with
            | Some g => Some g
            | None => Regex.matchBefore lit s
            end = Some group) in H.
    destruct (let (run, rest) := Regex.wordRun (String c s) in
              match Regex.skipLiteral lit rest with
              | Some _ => Regex.nonEmpty run
              | None => None
              end) eqn:Hh.
    + injection H as <-. now apply Hhere.
    + destruct (IH H) as (Hne & Hword & Hin).
      split; [exact Hne|]. split; [exact Hword|]. now apply includes_cons.
Qed.

(** X21. The city that [handleWeatherQuestion] reads off a question is a
    single word: whenever one of the four patterns matches, what it
    captures is a non-empty piece of the question made of letters, digits
    and underscores only, so it holds no space. A city of several words
    is therefore cut to one of them: from "weather in New York" the city
    taken is "New". *)
Theorem x21_the_city_read_off_a_question_is_one_word :
  (forall question group,
      SdkHandlers.firstMatch SdkHandlers.cityPatterns question = Some group ->
      group <> "" /\ allWord group = true /\ Js.includes group question = true
      /\ Js.includes " " group = false)
  /\ SdkHandlers.targetCity "What is the weather in New York?" Js.Null = Js.Str "New".
Proof.
  assert (Hspace : forall group, allWord group = true -> Js.includes " " group = false).
  { induction group as [|c group IH]; [reflexivity|].
    intros H. apply andb_true_iff in H as [Hc Hrest].
    rewrite includes_unfold, (IH Hrest).
    destruct (String.prefix " " (String c group)) eqn:Hp; [|reflexivity].
    apply prefix_true_iff in Hp as [post [= -> _]]. discriminate Hc. }
  split; [|reflexivity].
  intros question group. unfold SdkHandlers.cityPatterns. simpl.
  destruct (Regex.matchAfter "weather in " question) as [g|] eqn:H1.
  { intros [= <-]. destruct (matchAfter_spec _ _ _ H1) as (? & ? & ?). auto. }
  destruct (Regex.matchAfter "forecast for " question) as [g|] eqn:H2.
  { intros [= <-]. destruct (matchAfter_spec _ _ _ H2) as (? & ? & ?). auto. }
  destruct (Regex.matchBefore " weather" question) as [g|] eqn:H3.
  { intros [= <-]. destruct (matchBefore_spec _ _ _ H3) as (? & ? & ?). auto. }
  destruct (Regex.matchBefore " forecast" question) as [g|] eqn:H4; [|discriminate].
  intros [= <-]. destruct (matchBefore_spec _ _ _ H4) as (? & ? & ?). auto.
Qed.

(** ** The reshaping of the provider's forecast *)

Lemma round_nearest q : nearest q (Js.round q).
Proof.
  unfold nearest, Js.round.
  pose proof (Qfloor_le (q + (1 # 2))) as Hle.
  pose proof (Qlt_floor (q + (1 # 2))) as Hlt.
  rewrite inject_Z_plus in Hlt. change (inject_Z 1) with 1%Q in Hlt.
  set (z := inject_Z (Qfloor (q + (1 # 2)))) in *. split; lra.
Qed.

Lemma parseDaily_rounded raw : roundedDay raw (WeatherService.parseDaily raw).
Proof. repeat split; simpl; apply round_nearest. Qed.

(** X22. What [getWeatherForecast] makes of the provider's answer. When
    the lookup is not answered from the cache and the provider answers, the
    result keeps the provider's days, one for one and in order; its
    temperatures, current and daily, are the provider's rounded to the
    nearest integer (a half goes up); it is stamped with the time the
    answer arrived; and it carries no location, so that a formatter applied
    to it as it is would throw. *)
Theorem x22_forecast_result_rounds_the_temperatures :
  forall E latitude longitude days w elapsed body,
    let days' := Js.orDefault (Js.Int 7) days in
    WeatherService.cacheGet weatherTTL
      (WeatherService.forecastKey E latitude longitude days') w = None ->
    forecast E (trace w) latitude longitude days' = (elapsed, inr body) ->
    exists w' wd,
      WeatherService.getWeatherForecast E latitude longitude days w
      = (w', Normal (Forecast wd))
      /\ Forall2 roundedDay (ForecastBody.daily body) (WeatherData.daily wd)
      /\ nearest (RawCurrent.temperature_2m (ForecastBody.current body))
           (Current.temperature (WeatherData.current wd))
      /\ nearest (RawCurrent.apparent_temperature (ForecastBody.current body))
           (Current.apparentTemperature (WeatherData.current wd))
      /\ WeatherData.timestamp wd = now w + elapsed
      /\ WeatherData.location wd = None
      /\ (exists reason,
             WeatherService.formatCurrentWeatherForChat E (Forecast wd) = Throw reason).
Proof.
  intros E latitude longitude days w elapsed body days' Hmiss Hanswer.
  rewrite (getWeatherForecast_miss_eq E latitude longitude days w Hmiss).
  fold days'. rewrite Hanswer. cbv zeta. eexists _, _. split; [reflexivity|].
  repeat split; try apply round_nearest.
  - simpl. induction (ForecastBody.daily body) as [|raw rest IH]; simpl; constructor.
    + apply parseDaily_rounded.
    + exact IH.
  - now eexists.
Qed.

Lemma x22_witness :
  exists w' wd,
    WeatherService.getWeatherForecast StandIn.claudeDown (Js.Num (4885 # 100))
      (Js.Num (235 # 100)) (Js.Int 1) StandIn.fresh
    = (w', Normal (Forecast wd))
    /\ Forall2 roundedDay (ForecastBody.daily StandIn.body) (WeatherData.daily wd)
    /\ nearest (RawCurrent.temperature_2m (ForecastBody.current StandIn.body))
         (Current.temperature (WeatherData.current wd))
    /\ nearest (RawCurrent.apparent_temperature (ForecastBody.current StandIn.body))
         (Current.apparentTemperature (WeatherData.current wd))
    /\ WeatherData.timestamp wd = now StandIn.fresh + 200
    /\ WeatherData.location wd = None
    /\ (exists reason,
           WeatherService.formatCurrentWeatherForChat StandIn.claudeDown (Forecast wd)
           = Throw reason).
Proof.
  exact (x22_forecast_result_rounds_the_temperatures StandIn.claudeDown
           (Js.Num (4885 # 100)) (Js.Num (235 # 100)) (Js.Int 1) StandIn.fresh 200
           StandIn.body eq_refl eq_refl).
Defined.
(** ** The REST routes *)

(** X23. The REST routes that call a tool never answer with status 500:
    [POST /tools/:toolName], whatever the tool name and the body, and
    [GET /weather/:city] answer with the result of [callTool], a failure
    of the tool being an [isError] result in the body of an ordinary
    response. [POST /call] answers 500 exactly when [processRequest]
    throws, the error being the message thrown: for a method it does not
    know, for [tools/call] with [params] missing or [null], and for
    [tools/call] with a tool name that has no string conversion. *)
Theorem x23_tool_routes_never_answer_500 :
  forall E claudeService w,
    (forall toolName body,
        exists w' r,
          WeatherMCPServer.callTool E claudeService toolName (Some body) w = (w', Normal r)
          /\ RESTTransportAdapter.toolRoute E claudeService toolName body w
             = (w', RESTTransportAdapter.Ok (Requests.ToolResponse r)))
    /\ (forall city,
           exists w' r,
             RESTTransportAdapter.weatherRoute E claudeService city w
             = (w', RESTTransportAdapter.Ok r)
             /\ oneBlock r)
    /\ (forall method params,
           (exists error,
               snd (RESTTransportAdapter.callRoute E claudeService method params w)
               = RESTTransportAdapter.ServerError error)
           <-> ~ In method knownMethods
               \/ (method = Requests.Value (Js.Str "tools/call")
                   /\ ((exists null, params = Requests.Missing null)
                       \/ (exists args,
                              params
                              = Requests.Given
                                  (Requests.mkParams Requests.Unprintable args)))))
    /\ (forall method params,
           ~ In method knownMethods ->
           RESTTransportAdapter.callRoute E claudeService method params w
           = (w, RESTTransportAdapter.ServerError
                   match method with
                   | Requests.Value v => "Unknown method: " +:+ str E v
                   | Requests.Unprintable => "Cannot convert object to primitive value"
                   end))
    /\ (forall args,
           RESTTransportAdapter.callRoute E claudeService
             (Requests.Value (Js.Str "tools/call"))
             (Requests.Given (Requests.mkParams Requests.Unprintable args)) w
           = (w, RESTTransportAdapter.ServerError
                   "Cannot convert object to primitive value")).
Proof.
  intros E claude w.
  assert (Hstatus : forall method params,
             (exists error,
                 snd (RESTTransportAdapter.callRoute E claude method params w)
                 = RESTTransportAdapter.ServerError error)
             <-> (exists reason,
                     snd (Requests.processRequest E claude method params w) = Throw reason)).
  { intros method params. unfold RESTTransportAdapter.callRoute, RESTTransportAdapter.respond.
    destruct (Requests.processRequest E claude method params w) as [w' [r|reason]]; simpl.
    - split; intros [? [=]].
    - split; intros _; now eexists. }
  split; [|split; [|split; [|split]]].
  - intros toolName body.
    destruct (callTool_returns E claude toolName (Some body) w) as (w' & r & Hr & _).
    exists w', r. split; [exact Hr|].
    unfold RESTTransportAdapter.toolRoute, RESTTransportAdapter.respond.
    rewrite processRequest_call. simpl. now rewrite Hr.
  - intros city.
    unfold RESTTransportAdapter.weatherRoute, RESTTransportAdapter.respond.
    destruct (callTool_returns E claude "get_weather" (Some {[ "city" := Js.Str city ]}) w)
      as (w' & r & Hr & Hblock).
    exists w', r. now rewrite Hr.
  - intros method params. rewrite Hstatus. apply processRequest_throws_iff.
  - intros method params Hout.
    unfold RESTTransportAdapter.callRoute, RESTTransportAdapter.respond.
    rewrite (processRequest_unknown E claude method params w Hout). now destruct method.
  - reflexivity.
Qed.
